(** * ESRGAN: data pipeline and network topology

    A shallow embedding of [libs/util.py] (class [DataLoader]) and
    [srgan.py] (class [SRGAN]) together with the properties of the
    design document that concern them.

    Conventions.
    - Python integers are [Z]. True division gives a float, an IEEE 754
      binary64 number: the quotient rounded to the nearest one, ties to
      even; [int] truncates it towards zero. Finite floats are kept as
      the exact rational they stand for. A dimension of an array is
      below 2^53, where [int(a / b)] is [Z.quot a b].
    - Pixel arithmetic is carried out over the rationals ([Qc]), the exact
      counterpart of numpy's float64 arithmetic.
    - A decoded raster of shape (h, w, 3) is a list of h rows of w RGB
      triples.
    - Python exceptions are values of [exn]; code that may raise lives in
      the monad [M], where the state survives a raise as it does in Python.
    - Objects whose attributes are assigned one after the other ([self] in
      [SRGAN.__init__]) are attribute dictionaries ([gmap string pyval]).
    - [while True] loops are iterated by a step function under a fuel
      bound; "returns" means that some fuel suffices, "never returns" that
      no fuel does. *)

From stdpp Require Import gmap strings list pretty.
From Stdlib Require Import ZArith QArith Qcanon Lia Lqa Ascii.

Local Open Scope Z_scope.

(* ===================================================================== *)
(** * Python built-ins used by the sources *)
(* ===================================================================== *)

Module Py.

Inductive exn : Type :=
| ValueError (msg : string)
| IndexError
| ZeroDivisionError
| IOError
| AttributeError (attr : string)
| OverflowError.

Inductive result (A : Type) : Type :=
| Ok (a : A)
| Raise (e : exn).
Arguments Ok {A} a.
Arguments Raise {A} e.

Definition is_ok {A} (r : result A) : bool :=
  match r with Ok _ => true | Raise _ => false end.

(** [l[i]] with Python's negative indices. *)
Definition index {A} (l : list A) (i : Z) : result A :=
  let n := Z.of_nat (length l) in
  let j := if i <? 0 then i + n else i in
  if (j <? 0) || (n <=? j) then Raise IndexError
  else match l !! Z.to_nat j with
       | Some x => Ok x
       | None => Raise IndexError
       end.

(** [l[lo:hi]] (step 1) with Python's clamping of the bounds. *)
Definition clamp_bound (n i : Z) : Z :=
  let j := if i <? 0 then i + n else i in
  Z.max 0 (Z.min n j).

Definition slice {A} (l : list A) (lo hi : Z) : list A :=
  let n := Z.of_nat (length l) in
  let a := clamp_bound n lo in
  let b := clamp_bound n hi in
  take (Z.to_nat (b - a)) (drop (Z.to_nat a) l).

Definition and_then {A B} (r : result A) (k : A -> result B) : result B :=
  match r with
  | Ok a => k a
  | Raise e => Raise e
  end.

(** ** Floats

    A float is a binary64 number: a finite one is [m * 2 ^ e] with
    [|m| < 2 ^ 53] and [-1074 <= e <= 971], held as the rational it
    stands for. NaN does not arise in the sources. *)

Inductive float : Type :=
| Finite (v : Qc)
| Infinity.

(** [n / d] rounded to the nearest integer, ties to the even one
    ([d > 0]). *)
Definition round_half_even (n d : Z) : Z :=
  let q := n / d in
  match 2 * (n mod d) ?= d with
  | Lt => q
  | Gt => q + 1
  | Eq => if Z.even q then q else q + 1
  end.

(** floor(log2(n / d)) for [n, d > 0]. *)
Definition log2_quotient (n d : Z) : Z :=
  if d <=? n then Z.log2 (n / d) else - Z.log2_up ((d + n - 1) / n).

(** The binary64 number nearest to [a / b] ([b <> 0]), ties to even:
    the quotient is rounded to 53 bits at the exponent of its leading
    bit, or at the exponent -1074 of the subnormal numbers; nothing when
    the rounded value is 2 ^ 1024 or more (IEEE overflow). *)
Definition nearest_double (a b : Z) : option Qc :=
  if a =? 0 then Some (Q2Qc 0)
  else
    let n := Z.abs a in
    let d := Z.abs b in
    let e := Z.max (-1074) (log2_quotient n d - 52) in
    let m := round_half_even (n * 2 ^ Z.max 0 (- e)) (d * 2 ^ Z.max 0 e) in
    if 2 ^ 1024 <=? m * 2 ^ Z.max 0 e then None
    else Some (Q2Qc (Qmake (Z.sgn a * Z.sgn b * (m * 2 ^ Z.max 0 e))
                           (Z.to_pos (2 ^ Z.max 0 (- e))))).

(** [float(n)] for an integer: OverflowError when [n] is too large. *)
Definition float_of_int (n : Z) : result Qc :=
  match nearest_double n 1 with
  | Some v => Ok v
  | None => Raise OverflowError
  end.

(** [a / b] for two integers: the correctly rounded quotient. *)
Definition truediv (a b : Z) : result float :=
  if b =? 0 then Raise ZeroDivisionError
  else match nearest_double a b with
       | Some v => Ok (Finite v)
       | None => Raise OverflowError
       end.

(** [a / y] for an integer and a float: the integer is converted, then
    the floats are divided as IEEE 754 has it. *)
Definition truediv_by_float (a : Z) (y : Qc) : result float :=
  and_then (float_of_int a) (fun x =>
  if Qnum y =? 0 then Raise ZeroDivisionError
  else Ok (match nearest_double (Qnum x * QDen y) (QDen x * Qnum y) with
           | Some v => Finite v
           | None => Infinity
           end)).

(** [int(x)] for a float: truncation towards zero. *)
Definition int_of_float (x : float) : result Z :=
  match x with
  | Finite v => Ok (Z.quot (Qnum v) (QDen v))
  | Infinity => Raise OverflowError
  end.

(** [int(a / b)] for a dimension [a] of an array and an integer [b]. An
    array has fewer than 2^53 rows and columns, and below 2^53 the
    truncated float quotient is the integer quotient (lemma
    [int_truediv_float]). *)
Definition int_truediv (a b : Z) : result Z :=
  if b =? 0 then Raise ZeroDivisionError else Ok (Z.quot a b).

(** [x in [2, 4, 8]] and the like. *)
Definition in_list (x : Z) (l : list Z) : bool := existsb (Z.eqb x) l.

(** [range(n)]: empty for [n <= 0]. *)
Definition range (n : Z) : list Z := map Z.of_nat (seq 0 (Z.to_nat n)).

(** ** Strings: [str.lower] and the substring test [needle in hay]

    Names are byte strings and [lower] acts on the letters A-Z. Python
    lower-cases other characters too, but none of them into a letter of
    'jpeg', 'png' or 'jpg', the only needles looked for. *)

Definition lower_ascii (c : ascii) : ascii :=
  let n := nat_of_ascii c in
  if (65 <=? n)%nat && (n <=? 90)%nat then ascii_of_nat (n + 32) else c.

Fixpoint lower (s : string) : string :=
  match s with
  | EmptyString => EmptyString
  | String c s' => String (lower_ascii c) (lower s')
  end.

Fixpoint contains (needle hay : string) : bool :=
  String.prefix needle hay ||
  match hay with
  | EmptyString => false
  | String _ hay' => contains needle hay'
  end.

(** The extension of a file name: what follows its last dot, empty when
    there is no dot. ([os.path.splitext] agrees, except that it gives no
    extension to a name whose only dots are leading ones.) *)
Fixpoint after_last_dot (s : string) (acc : option string) : option string :=
  match s with
  | EmptyString => acc
  | String c s' =>
      if Ascii.eqb c "."%char then after_last_dot s' (Some s')
      else after_last_dot s' acc
  end.

Definition extension (f : string) : string :=
  match after_last_dot f None with
  | Some e => e
  | None => EmptyString
  end.

(** ** Computations that may raise

    [M S A]: a computation over a state [S] that returns an [A] or raises.
    What was done to the state before a raise stays done, as in Python. *)

Definition M (S A : Type) : Type := S -> result A * S.

Definition ret {S A} (a : A) : M S A := fun s => (Ok a, s).

Definition bind {S A B} (m : M S A) (k : A -> M S B) : M S B :=
  fun s => match m s with
           | (Ok a, s') => k a s'
           | (Raise e, s') => (Raise e, s')
           end.

Definition lift {S A} (r : result A) : M S A := fun s => (r, s).

Definition raise {S A} (e : exn) : M S A := fun s => (Raise e, s).

Definition get {S} : M S S := fun s => (Ok s, s).

Definition modify {S} (f : S -> S) : M S unit := fun s => (Ok tt, f s).

Fixpoint mapM {S A B} (f : A -> M S B) (l : list A) : M S (list B) :=
  match l with
  | [] => ret []
  | a :: l' => bind (f a) (fun b => bind (mapM f l') (fun bs => ret (b :: bs)))
  end.

End Py.

Import Py.

Notation "x <- m ;; k" := (Py.bind m (fun x => k))
  (at level 62, m at next level, right associativity).
Notation "m ;;; k" := (Py.bind m (fun _ => k))
  (at level 62, right associativity).

(* ===================================================================== *)
(** * Rasters *)
(* ===================================================================== *)

Module Raster.

(** An array of shape (h, w, 3): rows of RGB triples. *)
Definition image (A : Type) : Type := list (list (A * A * A)).

Definition height {A} (img : image A) : Z := Z.of_nat (length img).
Definition width {A} (img : image A) : Z :=
  match img with
  | [] => 0
  | row :: _ => Z.of_nat (length row)
  end.

(** [img.shape[:2]] *)
Definition shape {A} (img : image A) : Z * Z := (height img, width img).

Definition map_px {A B} (f : A -> B) (img : image A) : image B :=
  map (map (fun '(r, g, b) => (f r, f g, f b))) img.

Definition px_all {A} (P : A -> Prop) (img : image A) : Prop :=
  Forall (Forall (fun '(r, g, b) => P r /\ P g /\ P b)) img.

(** Every row has the width of the first one. *)
Definition rect {A} (img : image A) : Prop :=
  Forall (fun row => Z.of_nat (length row) = width img) img.

Definition is_uint8 (v : Z) : Prop := 0 <= v <= 255.

(** What [np.array] of an RGB PIL image is: rectangular, 8 bits a channel. *)
Definition decoded (img : image Z) : Prop := rect img /\ px_all is_uint8 img.

(** [img.astype(np.uint8)] *)
Definition astype_uint8 (img : image Z) : image Z :=
  map_px (fun v => v mod 256) img.

(** [img[y:(y + dy), x:(x + dx), :]] *)
Definition crop {A} (img : image A) (y dy x dx : Z) : image A :=
  map (fun row => Py.slice row x (x + dx)) (Py.slice img y (y + dy)).

(** [img.transpose(Image.FLIP_LEFT_RIGHT)] *)
Definition flip_left_right {A} (img : image A) : image A := map (@rev _) img.

(** uint8 array into float arithmetic (numpy's promotion). *)
Definition to_float (img : image Z) : image Qc :=
  map_px (fun v => Q2Qc (inject_Z v)) img.

End Raster.

Import Raster.

(* ===================================================================== *)
(** * libs/util.py: class DataLoader *)
(* ===================================================================== *)

Module DataLoader.

(** ** The world outside the repository *)

(** PIL's resampling filters (the constants of [self.options]). *)
Inductive resample : Type := NEAREST | BILINEAR | BICUBIC | LANCZOS.

(** A directory tree as [os.walk] sees it. *)
#[warnings="-register-all"]
Inductive entry : Type :=
| File (name : string)
| Dir (name : string) (children : list entry).

(** The libraries the loader calls.
    - [Image_open p] is [Image.open(p)] followed by the normalisation to
      mode RGB of [load_img], as the array [np.array] makes of it; any
      failure to open or decode is a raise.
    - [resize img (w, h) m] is [Image.fromarray(img).resize((w, h), m)] as
      an array; PIL may refuse a size.
    - [rnd] is the tape of the random generators: draw [k] of the run
      reads [rnd k]. *)
Record world : Type := {
  Image_open : string -> result (image Z);
  resize : image Z -> Z * Z -> resample -> result (image Z);
  rnd : nat -> Z
}.

(** ** os.walk and the candidate pool *)

Definition ends_with_sep (d : string) : bool :=
  match String.get (String.length d - 1) d with
  | Some c => Ascii.eqb c "/"%char
  | None => true
  end.

(** [os.path.join(d, f)] for a relative name [f]. *)
Definition path_join (d f : string) : string :=
  if ends_with_sep d then d +:+ f else d +:+ "/" +:+ f.

Definition filenames (es : list entry) : list string :=
  flat_map (fun e => match e with File n => [n] | Dir _ _ => [] end) es.

Definition dirnames (es : list entry) : list string :=
  flat_map (fun e => match e with Dir n _ => [n] | File _ => [] end) es.

(** [os.walk(top)], top-down: one (dirpath, dirnames, filenames) per
    directory, the directory [e] being found at [dirpath]. *)
Fixpoint walk_dir (dirpath : string) (e : entry)
  : list (string * list string * list string) :=
  match e with
  | File _ => []
  | Dir _ es =>
      (dirpath, dirnames es, filenames es) ::
      flat_map (fun c => match c with
                         | Dir n _ => walk_dir (path_join dirpath n) c
                         | File _ => []
                         end) es
  end.

Definition walk (top : string) (es : list entry)
  : list (string * list string * list string) :=
  walk_dir top (Dir top es).

(** [any(filetype in f.lower() for filetype in ['jpeg', 'png', 'jpg'])] *)
Definition has_image_type (f : string) : bool :=
  existsb (fun filetype => Py.contains filetype (Py.lower f))
          ["jpeg"; "png"; "jpg"]%string.

(** The loop of [__init__] that fills [self.img_paths]. *)
Definition collect (top : string) (es : list entry) : list string :=
  flat_map (fun '(dirpath, _, fnames) =>
              map (path_join dirpath) (filter (fun f => has_image_type f = true) fnames))
           (walk top es).

(** ** The loader object *)

Record t : Type := {
  datapath : string;
  batch_size : Z;
  height_hr : Z;
  height_lr : Z;
  width_hr : Z;
  width_lr : Z;
  scale : Z;
  crops_per_image : Z;
  total_imgs : Z;
  options : list resample;
  img_paths : list string
}.

(** [DataLoader(datapath, batch_size, height_hr, width_hr, scale,
    crops_per_image)] over the tree [root] found at [datapath]. *)
Definition __init__ (root : list entry)
    (datapath : string) (batch_size height_hr width_hr scale crops_per_image : Z)
  : result t :=
  Py.and_then (Py.and_then (Py.truediv height_hr scale) Py.int_of_float) (fun h_lr =>
  Py.and_then (Py.and_then (Py.truediv width_hr scale) Py.int_of_float) (fun w_lr =>
  let paths := collect datapath root in
  Ok {| datapath := datapath;
        batch_size := batch_size;
        height_hr := height_hr;
        height_lr := h_lr;
        width_hr := width_hr;
        width_lr := w_lr;
        scale := scale;
        crops_per_image := crops_per_image;
        total_imgs := Z.of_nat (length paths);
        options := [NEAREST; BILINEAR; BICUBIC; LANCZOS];
        img_paths := paths |})).

(** ** Colour scaling *)

Definition scale_lr_imgs (imgs : image Qc) : image Qc :=
  map_px (fun v => v / Q2Qc 255)%Qc imgs.

Definition unscale_lr_imgs (imgs : image Qc) : image Qc :=
  map_px (fun v => v * Q2Qc 255)%Qc imgs.

Definition scale_hr_imgs (imgs : image Qc) : image Qc :=
  map_px (fun v => v / Q2Qc (255 # 2) - 1)%Qc imgs.

Definition unscale_hr_imgs (imgs : image Qc) : image Qc :=
  map_px (fun v => (v + 1) * Q2Qc (255 # 2))%Qc imgs.

(** [__len__]: [int(self.total_imgs / float(self.batch_size))] *)
Definition __len__ (self : t) : result Z :=
  Py.and_then (Py.float_of_int (batch_size self)) (fun b =>
  Py.and_then (Py.truediv_by_float (total_imgs self) b) Py.int_of_float).

(** ** Loading a batch *)

(** The variables of [load_batch] that its loop changes, the position on
    the random tape, and a log of the calls made to PIL's [resize]
    (target size and filter), which the source does not keep but the
    properties of the filter choice speak about. *)
Record loop_state : Type := {
  cur_idx : Z;
  imgs_hr : list (image Qc);
  imgs_lr : list (image Qc);
  draws : nat;
  resize_calls : list (Z * Z * resample)
}.

Definition set_cur (c : Z) (s : loop_state) : loop_state :=
  {| cur_idx := c; imgs_hr := imgs_hr s; imgs_lr := imgs_lr s;
     draws := draws s; resize_calls := resize_calls s |}.

Definition tick (s : loop_state) : loop_state :=
  {| cur_idx := cur_idx s; imgs_hr := imgs_hr s; imgs_lr := imgs_lr s;
     draws := S (draws s); resize_calls := resize_calls s |}.

Definition log_resize (c : Z * Z * resample) (s : loop_state) : loop_state :=
  {| cur_idx := cur_idx s; imgs_hr := imgs_hr s; imgs_lr := imgs_lr s;
     draws := draws s; resize_calls := resize_calls s ++ [c] |}.

(** [imgs_hr.append(hr); imgs_lr.append(lr)] *)
Definition store (hr lr : image Qc) (s : loop_state) : loop_state :=
  {| cur_idx := cur_idx s; imgs_hr := imgs_hr s ++ [hr]; imgs_lr := imgs_lr s ++ [lr];
     draws := draws s; resize_calls := resize_calls s |}.

(** The loader's computations. *)
Abbreviation M := (Py.M loop_state).

Section Loader.

Variable w : world.
Variable self : t.

(** [np.random.randint(low, high)]: a value of [low, high), a ValueError
    on an empty interval. *)
Definition randint (low high : Z) : M Z :=
  fun s => if high <=? low then (Raise (ValueError "low >= high"), s)
           else (Ok (low + rnd w (draws s) mod (high - low)), tick s).

(** [random.choice(seq)] *)
Definition choice {A} (seq : list A) : M A :=
  fun s => match seq with
           | [] => (Raise IndexError, s)
           | _ => (Py.index seq (rnd w (draws s) mod Z.of_nat (length seq)), tick s)
           end.

Definition pil_resize (img : image Z) (size : Z * Z) (method : resample) : M (image Z) :=
  fun s => (resize w img size method, log_resize (size, method) s).

Definition random_crop (img : image Z) (random_crop_size : Z * Z) : M (image Z) :=
  let height := Raster.height img in
  let width := Raster.width img in
  let '(dy, dx) := random_crop_size in
  x <- randint 0 (width - dx + 1) ;;
  y <- randint 0 (height - dy + 1) ;;
  ret (crop img y dy x dx).

Definition load_img (path : string) (training : bool) : M (image Z) :=
  img <- lift (Image_open w path) ;;
  if training then
    flag <- randint 0 8 ;;
    ret (if 3 <? flag then flip_left_right img else img)
  else ret img.

(** The test "done with batch", as it stands at the head of the [while]
    and again at the head of the inner [for]: the cursor wraps first. *)
Definition batch_done (img_paths : option (list string)) (s : loop_state)
  : bool * loop_state :=
  match img_paths with
  | None =>
      let s1 := if total_imgs self <=? cur_idx s then set_cur 0 s else s in
      (batch_size self <=? Z.of_nat (length (imgs_hr s1)), s1)
  | Some ps =>
      (Z.of_nat (length (imgs_hr s)) =? Z.of_nat (length ps), s)
  end.

(** Lines "For LR, do bicubic downsampling" to "Store images". *)
Definition downscale (bicubic : bool) (img_hr : image Z) : M unit :=
  method <- (if bicubic then ret BICUBIC else choice (options self)) ;;
  lr_w <- lift (Py.int_truediv (Raster.width img_hr) (scale self)) ;;
  lr_h <- lift (Py.int_truediv (Raster.height img_hr) (scale self)) ;;
  img_lr <- pil_resize (astype_uint8 img_hr) (lr_w, lr_h) method ;;
  modify (store (scale_hr_imgs (to_float img_hr)) (scale_lr_imgs (to_float img_lr))).

(** [for img_hr in img_crops: ...], left by [break] when the batch is done. *)
Fixpoint downscale_loop (img_paths : option (list string)) (bicubic : bool)
    (img_crops : list (image Z)) : M unit :=
  match img_crops with
  | [] => ret tt
  | img_hr :: rest =>
      fun s =>
        let '(done, s1) := batch_done img_paths s in
        if done then (Ok tt, s1)
        else (downscale bicubic img_hr ;;; downscale_loop img_paths bicubic rest) s1
  end.

(** The body of the [try]. *)
Definition try_body (img_paths : option (list string)) (training bicubic : bool)
  : M unit :=
  s <- get ;;
  path <- lift (match img_paths with
                | Some ((_ :: _) as ps) => Py.index ps (cur_idx s)
                | _ => Py.index (DataLoader.img_paths self) (cur_idx s)
                end) ;;
  img_hr <- load_img path training ;;
  img_crops <- (if training
                then mapM (fun _ => random_crop img_hr (height_hr self, width_hr self))
                          (Py.range (crops_per_image self))
                else ret [img_hr]) ;;
  downscale_loop img_paths bicubic img_crops.

(** One turn of the [while True]: [inr] is [break]. The outcome of the
    [try] is dropped ([except Exception: pass]) and the cursor moves on
    ([finally]). *)
Definition iteration (img_paths : option (list string)) (training bicubic : bool)
    (s : loop_state) : loop_state + loop_state :=
  let '(done, s1) := batch_done img_paths s in
  if done then inr s1
  else
    let '(_, s2) := try_body img_paths training bicubic s1 in
    inl (set_cur (cur_idx s2 + 1) s2).

Fixpoint while_true (fuel : nat) (img_paths : option (list string))
    (training bicubic : bool) (s : loop_state) : option loop_state :=
  match fuel with
  | O => None
  | S fuel' =>
      match iteration img_paths training bicubic s with
      | inr s' => Some s'
      | inl s' => while_true fuel' img_paths training bicubic s'
      end
  end.

(** The state in which the loop is entered; [k0] is the position on the
    random tape at the call. *)
Definition entry_state (k0 : nat) (idx : Z) (img_paths : option (list string))
  : loop_state :=
  {| cur_idx := match img_paths with
                | Some (_ :: _) => 0
                | _ => idx * batch_size self
                end;
     imgs_hr := []; imgs_lr := []; draws := k0; resize_calls := [] |}.

Definition load_batch_run (fuel k0 : nat) (idx : Z) (img_paths : option (list string))
    (training bicubic : bool) : option loop_state :=
  while_true fuel img_paths training bicubic (entry_state k0 idx img_paths).

(** [load_batch(idx, img_paths, training, bicubic)]: the pair
    [(imgs_lr, imgs_hr)], or nothing while the fuel does not suffice. *)
Definition load_batch (fuel k0 : nat) (idx : Z) (img_paths : option (list string))
    (training bicubic : bool) : option (list (image Qc) * list (image Qc)) :=
  match load_batch_run fuel k0 idx img_paths training bicubic with
  | Some s => Some (imgs_lr s, imgs_hr s)
  | None => None
  end.

(** [__getitem__(idx)] *)
Definition __getitem__ (fuel k0 : nat) (idx : Z)
  : option (list (image Qc) * list (image Qc)) :=
  load_batch fuel k0 idx None true false.

End Loader.

End DataLoader.

(* ===================================================================== *)
(** * srgan.py: class SRGAN *)
(* ===================================================================== *)

Module SRGAN.

(** ** Keras layers and their shapes *)

Inductive activation : Type := linear | tanh | sigmoid.

(** The layers the builders use. All convolutions are [padding='same'].
    [Skip body] is the additive skip [Add()([body(x), x])];
    [SubpixelConv2D] is the [Lambda] around [tf.depth_to_space]. *)
#[warnings="-register-all"]
Inductive layer : Type :=
| Conv2D (filters kernel_size strides : Z) (act : activation) (name : string)
| BatchNormalization
| PReLU (name : string)
| LeakyReLU
| Dense (units : Z) (act : activation)
| SubpixelConv2D (name : string) (scale : Z)
| Skip (body : list layer).

(** A tensor shape without the batch axis: (height, width, channels). *)
Definition shape3 : Type := Z * Z * Z.

Definition shape3_eqb (a b : shape3) : bool :=
  let '(h1, w1, c1) := a in
  let '(h2, w2, c2) := b in
  (h1 =? h2) && (w1 =? w2) && (c1 =? c2).

(** Output size of a 'same' convolution along one axis: ceil(n / strides). *)
Definition same_out (n strides : Z) : Z := (n + strides - 1) / strides.

(** [subpixel_shape] of [SubpixelConv2D], without the batch axis. *)
Definition subpixel_shape (scale : Z) (input_shape : shape3) : shape3 :=
  let '(h, w, c) := input_shape in
  (h * scale, w * scale, Z.quot c (scale ^ 2)).

(** The shape a layer gives its output; [None] where Keras or tensorflow
    refuse the input ([Add] of unequal shapes, depth-to-space of a depth
    that the block size does not divide). *)
Fixpoint layer_shape (l : layer) (s : shape3) {struct l} : option shape3 :=
  let '(h, w, c) := s in
  match l with
  | Conv2D filters _ strides _ _ => Some (same_out h strides, same_out w strides, filters)
  | BatchNormalization | PReLU _ | LeakyReLU => Some s
  | Dense units _ => Some (h, w, units)
  | SubpixelConv2D _ scale =>
      if c mod (scale ^ 2) =? 0 then Some (subpixel_shape scale s) else None
  | Skip body =>
      match (fix through (ls : list layer) (x : shape3) : option shape3 :=
               match ls with
               | [] => Some x
               | l' :: ls' => match layer_shape l' x with
                              | Some x' => through ls' x'
                              | None => None
                              end
               end) body s with
      | Some s' => if shape3_eqb s' s then Some s else None
      | None => None
      end
  end.

Fixpoint layers_shape (ls : list layer) (x : shape3) : option shape3 :=
  match ls with
  | [] => Some x
  | l :: ls' => match layer_shape l x with
                | Some x' => layers_shape ls' x'
                | None => None
                end
  end.

(** ** The generator *)

(** [residual_block] of [build_generator] *)
Definition residual_block : layer :=
  Skip [Conv2D 64 3 1 linear ""; BatchNormalization; PReLU "";
        Conv2D 64 3 1 linear ""; BatchNormalization].

(** [upsample(x, number)] of [build_generator] *)
Definition upsample (number : Z) : list layer :=
  [Conv2D 256 3 1 linear ("upSampleConv2d_" +:+ pretty number);
   SubpixelConv2D ("upSampleSubPixel_" +:+ pretty number) 2;
   PReLU ("upSamplePReLU_" +:+ pretty number)].

(** "Upsampling depending on factor" *)
Definition upsampling (upscaling_factor : Z) : list layer :=
  upsample 1 ++
  (if 2 <? upscaling_factor then upsample 2 else []) ++
  (if 4 <? upscaling_factor then upsample 3 else []).

(** [build_generator(residual_blocks)] for an object with the given
    [upscaling_factor] and [channels]: the layers between [lr_input] and
    [hr_output]. *)
Definition build_generator (upscaling_factor channels residual_blocks : Z)
  : list layer :=
  [Conv2D 64 9 1 linear ""; PReLU "";
   Skip ((residual_block ::
          map (fun _ => residual_block) (Py.range (residual_blocks - 1))) ++
         [Conv2D 64 3 1 linear ""; BatchNormalization])] ++
  upsampling upscaling_factor ++
  [Conv2D channels 9 1 tanh ""].

(** The generator's input is [Input(shape=(None, None, 3))]: any height
    and width, three channels. *)
Definition generator_output_shape (upscaling_factor channels residual_blocks : Z)
    (input_shape : shape3) : option shape3 :=
  let '(_, _, c) := input_shape in
  if c =? 3
  then layers_shape (build_generator upscaling_factor channels residual_blocks) input_shape
  else None.

(** [conv2d_block] and the layers of [build_discriminator(filters)] *)
Definition conv2d_block (filters strides : Z) (bn : bool) : list layer :=
  [Conv2D filters 3 strides linear ""; LeakyReLU] ++
  (if bn then [BatchNormalization] else []).

Definition build_discriminator (filters : Z) : list layer :=
  conv2d_block filters 1 false ++
  conv2d_block filters 2 true ++
  conv2d_block (filters * 2) 1 true ++
  conv2d_block (filters * 2) 2 true ++
  conv2d_block (filters * 4) 1 true ++
  conv2d_block (filters * 4) 2 true ++
  conv2d_block (filters * 8) 1 true ++
  conv2d_block (filters * 8) 2 true ++
  [Dense (filters * 16) linear; LeakyReLU; Dense 1 sigmoid].

(** ** Models in the backend, and the object *)

(** What a [Model] is made of: own layers, the pretrained VGG19 cut after
    layer 20, or the combined network over three other models. *)
Inductive architecture : Type :=
| Layers (input_shape : option Z * option Z * Z) (ls : list layer)
| VGG19_features (input_shape : shape3)
| Combined (input_shape : shape3) (generator vgg discriminator : nat).

(** A model object of the backend. Models are shared by reference: an
    attribute of [self] holds the key of a model, and so does the
    combined network. *)
Record model : Type := {
  arch : architecture;
  weights : list Qc;
  trainable : bool;
  loss : list string;
  learning_rate : option Qc
}.

Inductive pyval : Type :=
| VInt (n : Z)
| VFloat (x : Qc)
| VStr (s : string)
| VShape (s : shape3)
| VFloats (xs : list Qc)
| VModel (ref : nat).

(** The interpreter state that [SRGAN]'s methods act on: the attribute
    dictionary of [self] and the models alive in the backend. *)
Record state : Type := {
  self : gmap string pyval;
  backend : gmap nat model
}.

(** Outside the repository: the values the initialisers give the weights
    of a new model, the weight files on disk, and the heights and widths
    of three-channel images that the pretrained VGG19 can be applied
    to. *)
Record keras : Type := {
  initializer : architecture -> list Qc;
  h5_files : gmap string (list Qc);
  vgg19_accepts : Z * Z -> bool
}.

Abbreviation M := (Py.M state).

Definition setattr (name : string) (v : pyval) : M unit :=
  Py.modify (fun s => {| self := <[name := v]> (self s); backend := backend s |}).

Definition getattr (name : string) : M pyval :=
  fun s => match self s !! name with
           | Some v => (Ok v, s)
           | None => (Raise (AttributeError name), s)
           end.

Definition getattr_int (name : string) : M Z :=
  v <- getattr name ;;
  match v with VInt n => Py.ret n | _ => Py.raise (AttributeError name) end.

Definition getattr_float (name : string) : M Qc :=
  v <- getattr name ;;
  match v with VFloat x => Py.ret x | _ => Py.raise (AttributeError name) end.

Definition getattr_shape (name : string) : M shape3 :=
  v <- getattr name ;;
  match v with VShape x => Py.ret x | _ => Py.raise (AttributeError name) end.

Definition getattr_model (name : string) : M nat :=
  v <- getattr name ;;
  match v with VModel r => Py.ret r | _ => Py.raise (AttributeError name) end.

Definition update_model (ref : nat) (f : model -> model) : M unit :=
  Py.modify (fun s => {| self := self s; backend := alter f ref (backend s) |}).

Section Keras.

Variable k : keras.

(** [Model(inputs=..., outputs=...)]: a new model object with freshly
    initialised weights. *)
Definition Model (a : architecture) : M nat :=
  fun s =>
    let ref := fresh (dom (backend s)) in
    (Ok ref,
     {| self := self s;
        backend := <[ref := {| arch := a; weights := initializer k a; trainable := true;
                               loss := []; learning_rate := None |}]> (backend s) |}).

(** [model.compile(loss=..., optimizer=Adam(lr, 0.9), ...)] *)
Definition compile (ref : nat) (losses : list string) (lr : Qc) : M unit :=
  update_model ref (fun m => {| arch := arch m; weights := weights m; trainable := trainable m;
                                loss := losses; learning_rate := Some lr |}).

(** [model.load_weights(path)] *)
Definition Model_load_weights (ref : nat) (path : string) : M unit :=
  match h5_files k !! path with
  | Some ws =>
      update_model ref (fun m => {| arch := arch m; weights := ws; trainable := trainable m;
                                    loss := loss m; learning_rate := learning_rate m |})
  | None => Py.raise IOError
  end.

Definition set_trainable (ref : nat) (b : bool) : M unit :=
  update_model ref (fun m => {| arch := arch m; weights := weights m; trainable := b;
                                loss := loss m; learning_rate := learning_rate m |}).

(** The shape a model gives when it is called on a tensor of shape [s];
    nothing where Keras refuses the tensor. A network of own layers
    takes the channel count of its [Input] and gives what its layers
    give; where its [Input] fixes a height and a width, every call the
    sources make has that height and that width. VGG19 takes three
    channels, its first convolution having kernels of depth three, and
    the sizes the library accepts; it is cut after layer 20, behind its
    fourth pooling. *)
Definition call_shape (a : architecture) (s : shape3) : option shape3 :=
  let '(h, w, c) := s in
  match a with
  | Layers (_, _, ic) ls => if c =? ic then layers_shape ls s else None
  | VGG19_features _ =>
      if (c =? 3) && vgg19_accepts k (h, w) then Some (h / 16, w / 16, 512) else None
  | Combined _ _ _ _ => None
  end.

(** The ValueError with which Keras refuses a tensor; its text is the
    library's. *)
Definition incompatible : Py.exn := ValueError "Input 0 is incompatible with layer".

(** [model(x)] for the model object [ref] and a tensor of shape [s] *)
Definition call_model (ref : nat) (s : shape3) : M shape3 :=
  fun st =>
    match backend st !! ref with
    | Some m => match call_shape (arch m) s with
                | Some out => (Ok out, st)
                | None => (Raise incompatible, st)
                end
    | None => (Raise (AttributeError "__call__"), st)
    end.

(** ** The methods *)

Definition build_generator_model (residual_blocks : Z) : M nat :=
  f <- getattr_int "upscaling_factor" ;;
  c <- getattr_int "channels" ;;
  Model (Layers (None, None, 3) (build_generator f c residual_blocks)).

(** [build_vgg]: VGG19 is applied to [Input(shape=self.shape_hr)] before
    the model is made. *)
Definition build_vgg : M nat :=
  shape_hr <- getattr_shape "shape_hr" ;;
  match call_shape (VGG19_features shape_hr) shape_hr with
  | Some _ =>
      ref <- Model (VGG19_features shape_hr) ;;
      set_trainable ref false ;;;
      Py.ret ref
  | None => Py.raise incompatible
  end.

Definition build_discriminator_model (filters : Z) : M nat :=
  shape_hr <- getattr_shape "shape_hr" ;;
  let '(h, w, c) := shape_hr in
  Model (Layers (Some h, Some w, c) (build_discriminator filters)).

(** [build_srgan]: the generator is called on [Input(self.shape_lr)],
    the feature extractor and the discriminator on what it gives. *)
Definition build_srgan : M nat :=
  shape_lr <- getattr_shape "shape_lr" ;;
  g <- getattr_model "generator" ;;
  generated_hr <- call_model g shape_lr ;;
  v <- getattr_model "vgg" ;;
  call_model v generated_hr ;;;
  d <- getattr_model "discriminator" ;;
  set_trainable d false ;;;
  d' <- getattr_model "discriminator" ;;
  call_model d' generated_hr ;;;
  Model (Combined shape_lr g v d').

Definition compile_vgg (ref : nat) : M unit :=
  lr <- getattr_float "gen_lr" ;; compile ref ["mse"] lr.

Definition compile_generator (ref : nat) : M unit :=
  l <- getattr "gan_loss" ;;
  lr <- getattr_float "gen_lr" ;;
  match l with VStr l => compile ref [l] lr | _ => Py.raise (AttributeError "gan_loss") end.

Definition compile_discriminator (ref : nat) : M unit :=
  l <- getattr "dis_loss" ;;
  lr <- getattr_float "dis_lr" ;;
  match l with VStr l => compile ref [l] lr | _ => Py.raise (AttributeError "dis_loss") end.

Definition compile_srgan (ref : nat) : M unit :=
  dl <- getattr "dis_loss" ;;
  gl <- getattr "gan_loss" ;;
  lr <- getattr_float "gen_lr" ;;
  match dl, gl with
  | VStr dl, VStr gl => compile ref [dl; gl] lr
  | _, _ => Py.raise (AttributeError "loss")
  end.

(** [__init__], statement by statement. *)
Definition __init__ (height_lr width_lr channels upscaling_factor : Z)
    (gen_lr dis_lr : Qc) (loss_weights : list Qc) (training_mode : bool) : M unit :=
  setattr "height_lr" (VInt height_lr) ;;;
  setattr "width_lr" (VInt width_lr) ;;;
  (if negb (Py.in_list upscaling_factor [2; 4; 8])
   then Py.raise (ValueError ("Upscaling factor must be either 2, 4, or 8. You chose "
                              +:+ pretty upscaling_factor))
   else Py.ret tt) ;;;
  setattr "upscaling_factor" (VInt upscaling_factor) ;;;
  setattr "height_hr" (VInt (height_lr * upscaling_factor)) ;;;
  setattr "width_hr" (VInt (width_lr * upscaling_factor)) ;;;
  setattr "channels" (VInt channels) ;;;
  setattr "shape_lr" (VShape (height_lr, width_lr, channels)) ;;;
  setattr "shape_hr" (VShape (height_lr * upscaling_factor, width_lr * upscaling_factor, channels)) ;;;
  setattr "gen_lr" (VFloat gen_lr) ;;;
  setattr "dis_lr" (VFloat dis_lr) ;;;
  setattr "loss_weights" (VFloats loss_weights) ;;;
  setattr "gan_loss" (VStr "mse") ;;;
  setattr "dis_loss" (VStr "binary_crossentropy") ;;;
  g <- build_generator_model 16 ;;
  setattr "generator" (VModel g) ;;;
  compile_generator g ;;;
  if training_mode then
    v <- build_vgg ;;
    setattr "vgg" (VModel v) ;;;
    compile_vgg v ;;;
    d <- build_discriminator_model 64 ;;
    setattr "discriminator" (VModel d) ;;;
    compile_discriminator d ;;;
    n <- build_srgan ;;
    setattr "srgan" (VModel n) ;;;
    compile_srgan n
  else Py.ret tt.

(** The expression [SRGAN(...)] evaluated with the models [b] alive: the
    new object when [__init__] returns; when it raises, the exception,
    and the object under construction is dropped. *)
Definition construct (height_lr width_lr channels upscaling_factor : Z)
    (gen_lr dis_lr : Qc) (loss_weights : list Qc) (training_mode : bool)
    (b : gmap nat model) : result (gmap string pyval) * gmap nat model :=
  let '(r, s) := __init__ height_lr width_lr channels upscaling_factor
                          gen_lr dis_lr loss_weights training_mode
                          {| self := ∅; backend := b |} in
  match r with
  | Ok _ => (Ok (self s), backend s)
  | Raise e => (Raise e, backend s)
  end.

(** A Python value in a condition. *)
Definition truthy (path : option string) : bool :=
  match path with
  | None => false
  | Some p => negb (String.eqb p "")
  end.

Definition load_weights (generator_weights discriminator_weights : option string)
  : M unit :=
  (match generator_weights with
   | Some p => if truthy generator_weights
               then g <- getattr_model "generator" ;; Model_load_weights g p
               else Py.ret tt
   | None => Py.ret tt
   end) ;;;
  (match discriminator_weights with
   | Some p => if truthy discriminator_weights
               then d <- getattr_model "discriminator" ;; Model_load_weights d p
               else Py.ret tt
   | None => Py.ret tt
   end).

End Keras.

End SRGAN.

(* ===================================================================== *)
(** * Notions used by the statements, and concrete instances *)
(* ===================================================================== *)

Import DataLoader.

(** Every file below [top], with the directory [os.walk] reports it in. *)
Definition files_under (top : string) (es : list entry) : list (string * string) :=
  flat_map (fun '(dirpath, _, fnames) => map (pair dirpath) fnames) (walk top es).

(** A candidate that [load_batch] can use in training: it opens, and it
    is at least as large as the crop. *)
Definition valid_image (w : world) (self : t) (path : string) : bool :=
  match Image_open w path with
  | Ok img => (height_hr self <=? Raster.height img) && (width_hr self <=? Raster.width img)
  | Raise _ => false
  end.

(** The state after [n] turns of the loop of [load_batch], or the state
    in which it was left if that came first. *)
Fixpoint after_turns (w : world) (self : t) (n : nat) (img_paths : option (list string))
    (training bicubic : bool) (s : loop_state) : loop_state :=
  match n with
  | O => s
  | S n' =>
      match iteration w self img_paths training bicubic s with
      | inr s' => s'
      | inl s' => after_turns w self n' img_paths training bicubic s'
      end
  end.

(** [m] with its weights replaced, as [Model.load_weights] leaves it. *)
Definition with_weights (ws : list Qc) (m : SRGAN.model) : SRGAN.model :=
  {| SRGAN.arch := SRGAN.arch m; SRGAN.weights := ws; SRGAN.trainable := SRGAN.trainable m;
     SRGAN.loss := SRGAN.loss m; SRGAN.learning_rate := SRGAN.learning_rate m |}.

(** [s'] has the cursor and the pairs of [s]. *)
Definition same_batch (s s' : loop_state) : Prop :=
  cur_idx s' = cur_idx s /\ imgs_hr s' = imgs_hr s /\ imgs_lr s' = imgs_lr s.

(** [m] keeps the state property [J]. *)
Definition preserves {A} (J : loop_state -> Prop) (m : DataLoader.M A) : Prop :=
  forall s, J s -> J (snd (m s)).

(** Properties that the elementary state changes keep. *)
Definition tick_stable (J : loop_state -> Prop) : Prop :=
  forall s, J s -> J (tick s).
Definition log_stable (bicubic : bool) (J : loop_state -> Prop) : Prop :=
  forall size m s, (bicubic = true -> m = BICUBIC) -> J s -> J (log_resize (size, m) s).
Definition store_stable (J : loop_state -> Prop) : Prop :=
  forall hr lr s, J s -> J (store hr lr s).
Definition wrap_stable (self : t) (img_paths : option (list string))
    (J : loop_state -> Prop) : Prop :=
  forall s, J s -> J (snd (batch_done self img_paths s)).

(** Where the cursor stands once the head of the loop has looked at it. *)
Definition wrapped (self : t) (img_paths : option (list string)) (c : Z) : Z :=
  match img_paths with
  | None => if total_imgs self <=? c then 0 else c
  | Some _ => c
  end.

(** The target size that [downscale] asks of PIL. *)
Definition lr_size {A} (self : t) (img : image A) : Z * Z :=
  (Z.quot (Raster.width img) (scale self), Z.quot (Raster.height img) (scale self)).

(** The loop over explicit [paths] once path [j] has failed: at cursor
    [c] the count of pairs is behind for good. *)
Definition behind (paths : list string) (j c : nat) (s : loop_state) : Prop :=
  cur_idx s = Z.of_nat c /\
  (length (imgs_hr s) <= Nat.min c (length paths))%nat /\
  (j < c -> length (imgs_hr s) < Nat.min c (length paths))%nat.

(** The loop over explicit [paths] while every path has yielded its pair. *)
Definition abreast (paths : list string) (s : loop_state) : Prop :=
  cur_idx s = Z.of_nat (length (imgs_hr s)) /\ (length (imgs_hr s) <= length paths)%nat.

(** The pixel in row [i] and column [j], if there is one. *)
Definition pixel {A} (img : image A) (i j : nat) : option (A * A * A) :=
  match img !! i with
  | Some row => row !! j
  | None => None
  end.

(** What a turn of the indexed loop does once it has read the candidate
    [path] from the pool: the statements of the [try] from "Load image"
    to "Store images". *)
Definition with_candidate (w : world) (self : t) (path : string) (training bicubic : bool)
  : DataLoader.M unit :=
  img_hr <- load_img w path training ;;
  img_crops <- (if training
                then Py.mapM (fun _ => random_crop w img_hr (height_hr self, width_hr self))
                             (Py.range (crops_per_image self))
                else Py.ret [img_hr]) ;;
  downscale_loop w self None bicubic img_crops.

(** The filters of the calls [calls] of [resize] are the picks of
    [random.choice] among the four options at the positions [ks] of the
    random tape: the call number [i] has the option whose index is the
    number at position [ks !! i] modulo 4. *)
Definition drawn (w : world) (calls : list (Z * Z * resample)) (ks : list nat) : Prop :=
  Forall2 (fun c k =>
             Py.index [NEAREST; BILINEAR; BICUBIC; LANCZOS] (rnd w k mod 4) = Ok (snd c))
          calls ks.

(** The positions [ks] lie in [lo, hi) and increase. *)
Definition increasing_within (lo hi : nat) (ks : list nat) : Prop :=
  Forall (fun k => (lo <= k < hi)%nat) ks /\
  forall i j ki kj,
    (i < j)%nat -> ks !! i = Some ki -> ks !! j = Some kj -> (ki < kj)%nat.

(** Since the state [s0], every call to [resize] has taken the filter
    that [random.choice] drew for it, each call at a later position of
    the random tape than the one before, and no pair has been stored
    without a call. *)
Definition drawn_since (w : world) (s0 s : loop_state) : Prop :=
  (draws s0 <= draws s)%nat /\
  (length (imgs_lr s) + length (resize_calls s0)
   <= length (resize_calls s) + length (imgs_lr s0))%nat /\
  exists new ks,
    resize_calls s = resize_calls s0 ++ new /\
    drawn w new ks /\ increasing_within (draws s0) (draws s) ks.

(** [c] is the window of [img] with its upper left corner in row [y]
    and column [x]: [dy] rows of [dx] pixels, pixel for pixel those of
    [img] from there on. *)
Definition window {A} (c img : image A) (y x dy dx : Z) : Prop :=
  0 <= y /\ y + dy <= Raster.height img /\ 0 <= x /\ x + dx <= Raster.width img /\
  Raster.height c = dy /\ Forall (fun row => Z.of_nat (length row) = dx) c /\
  forall i j : nat,
    Z.of_nat i < dy -> Z.of_nat j < dx ->
    pixel c i j = pixel img (Z.to_nat y + i) (Z.to_nat x + j).

(** A crop as [load_batch] is to make it in training: an 8-bit array of
    the configured size that is a window of an image of the pool, or of
    that image mirrored left to right. *)
Definition crop_ok (w : world) (self : t) (c : image Z) : Prop :=
  decoded c /\ shape c = (height_hr self, width_hr self) /\
  exists p img src y x,
    In p (img_paths self) /\ Image_open w p = Ok img /\
    (src = img \/ src = map (@rev _) img) /\
    window c src y x (height_hr self) (width_hr self).

(** A pair as [load_batch] is to return it in training. The
    high-resolution image is a crop of the pool with every value [v]
    taken to [v / 127.5 - 1], so it has the configured size and values in
    [-1, 1]. The low-resolution image is that crop, as 8-bit values,
    resized to the configured size divided by the scale, with every
    value [v] taken to [v / 255], so it has values in [0, 1]. *)
Definition paired (w : world) (self : t) (hr lr : image Qc) : Prop :=
  shape hr = (height_hr self, width_hr self) /\
  px_all (fun v => (- (1) <= v /\ v <= 1)%Qc) hr /\
  shape lr = (Z.quot (height_hr self) (scale self), Z.quot (width_hr self) (scale self)) /\
  px_all (fun v => (0 <= v /\ v <= 1)%Qc) lr /\
  exists crop m lr0,
    crop_ok w self crop /\
    hr = map_px (fun v => Q2Qc (inject_Z v) / Q2Qc (255 # 2) - 1)%Qc crop /\
    resize w (map_px (fun v => v mod 256) crop)
           (Z.quot (width_hr self) (scale self), Z.quot (height_hr self) (scale self)) m
    = Ok lr0 /\
    lr = map_px (fun v => Q2Qc (inject_Z v) / Q2Qc 255)%Qc lr0.

(** What is assumed of PIL: an image that opens is a rectangular 8-bit
    RGB array, and resizing such an array to a size of at least 1 x 1
    gives such an array of that size. *)
Definition pil_ok (w : world) : Prop :=
  (forall p img, Image_open w p = Ok img -> decoded img) /\
  (forall img wd ht m,
      decoded img -> 1 <= wd -> 1 <= ht ->
      exists out, resize w img (wd, ht) m = Ok out /\ decoded out /\ shape out = (ht, wd)).

(** The pairs so far are as they should be, and no more than the batch. *)
Definition batch_ok (w : world) (self : t) (s : loop_state) : Prop :=
  Forall2 (paired w self) (imgs_hr s) (imgs_lr s) /\
  Z.of_nat (length (imgs_hr s)) <= batch_size self.

(** Turns until the scan, at the wrapped cursor [c], reaches position [v]. *)
Definition turns_to (self : t) (v c : Z) : Z :=
  if c <=? v then v - c else v - c + total_imgs self.

(** The measure that the turns of an indexed training batch decrease:
    the room left in the batch, then the way to the usable candidate at
    position [v]. *)
Definition to_go (self : t) (v : Z) (s : loop_state) : nat :=
  Z.to_nat ((batch_size self - Z.of_nat (length (imgs_hr s))) * (total_imgs self + 1)
            + turns_to self v (wrapped self None (cur_idx s))).

(** ** Further notions: evaluation listings, checkpoints *)

(** [os.listdir(d)]: the names of all entries of a directory, files and
    sub-directories alike. *)
Definition listdir (es : list entry) : list string :=
  map (fun e => match e with File n => n | Dir n _ => n end) es.

(** [test_images] of [plot_test_images], [plot_bigger_images] and
    [compute_metric]: the entries of [datapath_test] that pass the name
    filter, joined to the directory. *)
Definition test_images (datapath_test : string) (es : list entry) : list string :=
  map (path_join datapath_test) (filter (fun f => has_image_type f = true) (listdir es)).

(** The call [loader.load_batch(img_paths=test_images, training=False,
    bicubic=...)] that opens these three functions. *)
Definition load_test_images (w : world) (self : t) (fuel k0 : nat)
    (datapath_test : string) (es : list entry) (bicubic : bool)
  : option loop_state :=
  load_batch_run w self fuel k0 0 (Some (test_images datapath_test es)) false bicubic.

(** The pair that one image gives when it is loaded without training
    and resized with [m]. *)
Definition hr_of (img : image Z) : image Qc := scale_hr_imgs (to_float img).

Definition lr_with (w : world) (self : t) (m : resample) (img : image Z)
  : result (image Qc) :=
  match resize w (astype_uint8 img) (lr_size self img) m with
  | Ok lr0 => Ok (scale_lr_imgs (to_float lr0))
  | Raise e => Raise e
  end.

(** How many pairs a call of [load_batch] is after: the batch size for
    an indexed call, one for each path of an explicit list. *)
Definition asked (self : t) (img_paths : option (list string)) : Z :=
  match img_paths with
  | None => batch_size self
  | Some ps => Z.of_nat (length ps)
  end.

(** The SRGAN object together with the weight files on disk. *)
Record checkpointed : Type := {
  gan : SRGAN.state;
  disk : gmap string (list Qc)
}.

(** A method of the object, run beside the disk. *)
Definition on_gan {A} (m : SRGAN.M A) : Py.M checkpointed A :=
  fun s => let '(r, g) := m (gan s) in (r, {| gan := g; disk := disk s |}).

(** ["{}_<kind>_{}X_epoch{}.h5".format(filepath, upscaling_factor, e)];
    [e] is an integer or [None]. *)
Definition weights_file (filepath kind : string) (upscaling_factor : Z) (e : option Z)
  : string :=
  filepath +:+ "_" +:+ kind +:+ "_" +:+ pretty upscaling_factor +:+ "X_epoch"
  +:+ (match e with Some n => pretty n | None => "None" end) +:+ ".h5".

(** [model.save_weights(path)]: the weights of the model go to the file. *)
Definition Model_save_weights (ref : nat) (path : string) : Py.M checkpointed unit :=
  fun s => match SRGAN.backend (gan s) !! ref with
           | Some m => (Ok tt, {| gan := gan s; disk := <[path := SRGAN.weights m]> (disk s) |})
           | None => (Raise (AttributeError "save_weights"), s)
           end.

(** [save_weights(filepath, e)] *)
Definition save_weights (filepath : string) (e : option Z) : Py.M checkpointed unit :=
  g <- on_gan (SRGAN.getattr_model "generator") ;;
  f <- on_gan (SRGAN.getattr_int "upscaling_factor") ;;
  Model_save_weights g (weights_file filepath "generator" f e) ;;;
  d <- on_gan (SRGAN.getattr_model "discriminator") ;;
  f' <- on_gan (SRGAN.getattr_int "upscaling_factor") ;;
  Model_save_weights d (weights_file filepath "discriminator" f' e).

(** [load_weights(generator_weights, discriminator_weights)] reading the
    files that are on disk at the call. *)
Definition load_weights_from_disk (k : SRGAN.keras)
    (generator_weights discriminator_weights : option string) : Py.M checkpointed unit :=
  fun s =>
    on_gan (SRGAN.load_weights
              {| SRGAN.initializer := SRGAN.initializer k; SRGAN.h5_files := disk s;
                 SRGAN.vgg19_accepts := SRGAN.vgg19_accepts k |}
              generator_weights discriminator_weights) s.

(** The factor by which the layers of the generator enlarge: 2 for each
    upsampling stage that [build_generator] adds. *)
Definition built_factor (upscaling_factor : Z) : Z :=
  if 4 <? upscaling_factor then 8 else if 2 <? upscaling_factor then 4 else 2.

Module Demo.

(** A stand-in for PIL's [resize]: nearest-neighbour sampling whatever the
    filter, refusing empty targets as PIL does. *)
Definition nearest (img : image Z) (size : Z * Z) (m : resample) : result (image Z) :=
  let '(wd, ht) := size in
  if (wd <? 1) || (ht <? 1) then Raise (ValueError "height and width must be > 0")
  else Ok (map (fun y =>
                  map (fun x => nth (Z.to_nat (x * Raster.width img / wd))
                                    (nth (Z.to_nat (y * Raster.height img / ht)) img [])
                                    (0, 0, 0))
                      (Py.range wd))
               (Py.range ht)).

(** An image of one colour. *)
Definition flat (h w v : Z) : image Z :=
  replicate (Z.to_nat h) (replicate (Z.to_nat w) (v, v, v)).

(** Two readable files and nothing else. *)
Definition disk : world :=
  {| Image_open := fun p =>
       if String.eqb p "d/a.png" then Ok (flat 4 4 255)
       else if String.eqb p "d/b.jpg" then Ok (flat 2 2 0)
       else Raise IOError;
     resize := nearest;
     rnd := fun k => Z.of_nat k |}.

Definition tree : list entry := [File "a.png"; File "b.jpg"; File "c.png"].

(** [DataLoader("d", batch_size, 2, 2, 2, crops_per_image)] over [tree] *)
Definition loader (batch_size crops_per_image : Z) : t :=
  {| datapath := "d"; batch_size := batch_size;
     height_hr := 2; height_lr := 1; width_hr := 2; width_lr := 1;
     scale := 2; crops_per_image := crops_per_image; total_imgs := 3;
     options := [NEAREST; BILINEAR; BICUBIC; LANCZOS];
     img_paths := ["d/a.png"; "d/b.jpg"; "d/c.png"] |}.

Definition backend : SRGAN.keras :=
  {| SRGAN.initializer := fun _ => [Q2Qc 0];
     SRGAN.h5_files := <["gen.h5"%string := [Q2Qc 1; Q2Qc 2]]> (<["dis.h5"%string := [Q2Qc 3]]> ∅);
     SRGAN.vgg19_accepts := fun '(h, w) => (32 <=? h) && (32 <=? w) |}.

(** The object [SRGAN(24, 24, 3, 4, ...)] built in training mode over an
    empty backend. *)
Definition gan : SRGAN.state :=
  snd (SRGAN.__init__ backend 24 24 3 4 (Q2Qc (1 # 10000)) (Q2Qc (1 # 10000))
         [Q2Qc (1 # 1000); Q2Qc (6 # 1000)] true
         {| SRGAN.self := ∅; SRGAN.backend := ∅ |}).

End Demo.

(* ===================================================================== *)
(** * Floats: what rounding keeps *)
(* ===================================================================== *)

Lemma round_half_even_bounds (n d : Z) :
  0 < d -> 2 * n - d <= 2 * Py.round_half_even n d * d <= 2 * n + d.
Proof.
  intros Hd. unfold Py.round_half_even.
  pose proof (Z.div_mod n d ltac:(lia)) as Hdm.
  pose proof (Z.mod_pos_bound n d Hd) as Hm.
  destruct (Z.compare_spec (2 * (n mod d)) d) as [E|E|E];
    [destruct (Z.even (n / d))| |]; nia.
Qed.

Lemma log2_quotient_big (n d : Z) :
  0 < d -> d <= n ->
  0 <= Py.log2_quotient n d /\
  d * 2 ^ Py.log2_quotient n d <= n < d * 2 ^ (Py.log2_quotient n d + 1).
Proof.
  intros Hd Hn. unfold Py.log2_quotient.
  destruct (d <=? n) eqn:E; [|lia].
  assert (Hq : 1 <= n / d) by (apply Z.div_le_lower_bound; lia).
  pose proof (Z.log2_spec (n / d) ltac:(lia)) as (H1 & H2).
  pose proof (Z.log2_nonneg (n / d)) as H0.
  pose proof (Z.div_mod n d ltac:(lia)) as Hdm.
  pose proof (Z.mod_pos_bound n d Hd) as Hm.
  replace (Z.succ (Z.log2 (n / d))) with (Z.log2 (n / d) + 1) in H2 by lia.
  split; [exact H0|]. split; nia.
Qed.

Lemma log2_quotient_small (n d : Z) :
  0 < n -> n < d ->
  Py.log2_quotient n d <= -1 /\
  n * 2 ^ (- Py.log2_quotient n d - 1) < d.
Proof.
  intros Hn Hd. unfold Py.log2_quotient.
  destruct (d <=? n) eqn:E; [lia|].
  set (c := (d + n - 1) / n).
  pose proof (Z.div_mod (d + n - 1) n ltac:(lia)) as Hdm.
  pose proof (Z.mod_pos_bound (d + n - 1) n Hn) as Hm.
  fold c in Hdm.
  assert (Hc : 2 <= c) by (apply Z.div_le_lower_bound; lia).
  pose proof (Z.log2_up_spec c ltac:(lia)) as (H1 & H2).
  pose proof (Z.log2_up_pos c ltac:(lia)) as H0.
  replace (- - Z.log2_up c - 1) with (Z.pred (Z.log2_up c)) by lia.
  split; [lia|]. nia.
Qed.

Lemma nearest_mantissa_small (n d : Z) :
  0 < n < 2 ^ 53 -> 0 < d ->
  let e := Z.max (-1074) (Py.log2_quotient n d - 52) in
  let m := Py.round_half_even (n * 2 ^ Z.max 0 (- e)) (d * 2 ^ Z.max 0 e) in
  Z.max 0 e = 0 /\ 0 <= m <= 2 ^ 53 /\ m / 2 ^ Z.max 0 (- e) = n / d.
Proof.
  intros Hn Hd.
  destruct (Z_le_gt_dec d n) as [Hdn|Hdn].
  - destruct (log2_quotient_big n d Hd Hdn) as (Hk0 & Hk1 & Hk2).
    set (k := Py.log2_quotient n d) in *.
    assert (Hk : k <= 52).
    { destruct (Z_le_gt_dec k 52) as [?|Hgt]; [assumption|exfalso].
      assert (2 ^ 53 <= 2 ^ k) by (apply Z.pow_le_mono_r; lia). nia. }
    cbv zeta. replace (Z.max (-1074) (k - 52)) with (k - 52) by lia.
    replace (Z.max 0 (k - 52)) with 0 by lia.
    replace (Z.max 0 (- (k - 52))) with (52 - k) by lia.
    change (2 ^ 0) with 1. rewrite Z.mul_1_r.
    set (s := 2 ^ (52 - k)).
    assert (Hs : 0 < s) by (apply Z.pow_pos_nonneg; lia).
    assert (HP : 0 < 2 ^ k) by (apply Z.pow_pos_nonneg; lia).
    assert (Hps : 2 ^ k * s = 2 ^ 52).
    { unfold s. rewrite <- Z.pow_add_r by lia. f_equal. lia. }
    assert (H53 : 2 ^ 53 = 2 * 2 ^ 52) by reflexivity.
    assert (Hd2 : d < 2 * s) by nia.
    pose proof (round_half_even_bounds (n * s) d Hd) as (Hlo & Hhi).
    set (m := Py.round_half_even (n * s) d) in *.
    pose proof (Z.div_mod n d ltac:(lia)) as Hdm.
    pose proof (Z.mod_pos_bound n d Hd) as Hm.
    set (q := n / d) in *.
    assert (Hq1 : q * s <= m) by nia.
    assert (Hq2 : m < (q + 1) * s) by nia.
    assert (Hq53 : q < 2 ^ 53) by nia.
    split; [reflexivity|]. split.
    + split; [nia|].
      replace (k + 1) with (Z.succ k) in Hk2 by lia. rewrite Z.pow_succ_r in Hk2 by lia.
      nia.
    + symmetry. apply (Z.div_unique_pos m s q (m - q * s)); lia.
  - destruct (log2_quotient_small n d ltac:(lia) ltac:(lia)) as (Hk & Hk1).
    set (k := Py.log2_quotient n d) in *.
    cbv zeta. set (e := Z.max (-1074) (k - 52)).
    assert (He : -1074 <= e <= -53) by lia.
    replace (Z.max 0 e) with 0 by lia.
    replace (Z.max 0 (- e)) with (- e) by lia.
    change (2 ^ 0) with 1. rewrite Z.mul_1_r.
    set (s := 2 ^ (- e)).
    assert (Hs : 2 ^ 53 <= s) by (apply Z.pow_le_mono_r; lia).
    assert (Hsk : s <= 2 ^ 53 * 2 ^ (- k - 1)).
    { unfold s. rewrite <- Z.pow_add_r by lia. apply Z.pow_le_mono_r; lia. }
    assert (HP : 0 < 2 ^ (- k - 1)) by (apply Z.pow_pos_nonneg; lia).
    assert (H253 : 0 < 2 ^ 53) by (apply Z.pow_pos_nonneg; lia).
    pose proof (round_half_even_bounds (n * s) d Hd) as (Hlo & Hhi).
    set (m := Py.round_half_even (n * s) d) in *.
    assert (Hns : n * s < 2 ^ 53 * d) by nia.
    assert (Hm0 : 0 <= m) by nia.
    assert (Hm1 : m < s).
    { assert (d < 2 * s * (d - n)); [|nia].
      assert (2 ^ 54 = 2 * 2 ^ 53) by reflexivity. nia. }
    split; [reflexivity|]. split; [nia|].
    rewrite (Z.div_small m s) by lia. rewrite Z.div_small by lia. reflexivity.
Qed.

Lemma quot_same_fraction (a a' : Z) (p p' : positive) :
  a * Zpos p' = a' * Zpos p -> Z.quot a (Zpos p) = Z.quot a' (Zpos p').
Proof.
  assert (Hpos : forall a a' p p', 0 <= a -> a * Zpos p' = a' * Zpos p ->
                   Z.quot a (Zpos p) = Z.quot a' (Zpos p')).
  { clear. intros a a' p p' Ha H.
    assert (Ha' : 0 <= a') by nia.
    rewrite !Z.quot_div_nonneg by lia.
    pose proof (Z.div_mod a (Zpos p) ltac:(lia)) as H1.
    pose proof (Z.mod_pos_bound a (Zpos p) ltac:(lia)) as H2.
    apply (Z.div_unique_pos a' (Zpos p') (a / Zpos p) (a' - a / Zpos p * Zpos p')); nia. }
  intros H. destruct (Z_le_gt_dec 0 a) as [Ha|Ha]; [apply Hpos; assumption|].
  assert (H0 : Z.quot (- a) (Zpos p) = Z.quot (- a') (Zpos p')) by (apply Hpos; lia).
  rewrite !Z.quot_opp_l in H0 by lia. lia.
Qed.

Lemma trunc_Q2Qc (q : Q) :
  Z.quot (Qnum (Q2Qc q)) (QDen (Q2Qc q)) = Z.quot (Qnum q) (QDen q).
Proof.
  cbn [this Q2Qc]. apply quot_same_fraction.
  pose proof (Qred_correct q) as H. unfold Qeq in H. exact H.
Qed.

Lemma quot_by_signs (a b : Z) :
  b <> 0 -> Z.quot a b = Z.sgn a * Z.sgn b * (Z.abs a / Z.abs b).
Proof.
  intros Hb. rewrite <- Z.quot_div_nonneg by lia.
  destruct (Z.abs_spec a) as [[? ->]|[? ->]], (Z.abs_spec b) as [[? ->]|[? ->]];
    rewrite ?Z.quot_opp_l, ?Z.quot_opp_r by lia;
    destruct (Z.sgn_spec a) as [[? ->]|[[? ->]|[? ->]]];
    destruct (Z.sgn_spec b) as [[? ->]|[[? ->]|[? ->]]]; try lia;
    subst; rewrite ?Z.quot_0_l by lia; lia.
Qed.

(** Below 2^53 the rounded quotient truncates to the exact one. *)
Lemma nearest_double_trunc (a b : Z) :
  Z.abs a < 2 ^ 53 -> b <> 0 ->
  exists v, Py.nearest_double a b = Some v /\ Z.quot (Qnum v) (QDen v) = Z.quot a b.
Proof.
  intros Ha Hb. unfold Py.nearest_double.
  destruct (a =? 0) eqn:E.
  - apply Z.eqb_eq in E. subst a. eexists. split; [reflexivity|].
    rewrite (Z.quot_0_l b) by assumption. reflexivity.
  - apply Z.eqb_neq in E.
    destruct (nearest_mantissa_small (Z.abs a) (Z.abs b) ltac:(lia) ltac:(lia))
      as (He & (Hm0 & Hm1) & Hq).
    cbv zeta in He, Hm0, Hm1, Hq |- *.
    set (e := Z.max (-1074) (Py.log2_quotient (Z.abs a) (Z.abs b) - 52)) in *.
    rewrite He in *. change (2 ^ 0) with 1 in *. rewrite !Z.mul_1_r in *.
    set (m := Py.round_half_even (Z.abs a * 2 ^ Z.max 0 (- e)) (Z.abs b)) in *.
    assert (H1024 : 2 ^ 53 < 2 ^ 1024) by (apply Z.pow_lt_mono_r; lia).
    destruct (2 ^ 1024 <=? m) eqn:Eo; [lia|].
    eexists. split; [reflexivity|].
    rewrite trunc_Q2Qc. cbn [Qnum Qden].
    assert (Hs : 0 < 2 ^ Z.max 0 (- e)) by (apply Z.pow_pos_nonneg; lia).
    rewrite Z2Pos.id by exact Hs.
    rewrite (quot_by_signs a b Hb), <- Hq.
    rewrite <- (Z.quot_div_nonneg m) by lia.
    destruct (Z.sgn_spec a) as [[? ->]|[[? ->]|[? ->]]];
      destruct (Z.sgn_spec b) as [[? ->]|[[? ->]|[? ->]]]; try lia;
      rewrite ?Z.mul_1_l; 
      try (change (-1 * 1) with (-1)); try (change (1 * -1) with (-1));
      try (change (-1 * -1) with 1); rewrite ?Z.mul_1_l;
      try reflexivity;
      replace (-1 * m) with (- m) by lia; rewrite Z.quot_opp_l by lia; lia.
Qed.

(** An integer below 2^53 is a double. *)
Lemma nearest_double_int (n : Z) :
  Z.abs n < 2 ^ 53 -> Py.nearest_double n 1 = Some (Q2Qc (inject_Z n)).
Proof.
  intros Hn. unfold Py.nearest_double.
  destruct (n =? 0) eqn:E; [apply Z.eqb_eq in E; subst; reflexivity|].
  apply Z.eqb_neq in E.
  destruct (nearest_mantissa_small (Z.abs n) (Z.abs 1) ltac:(lia) ltac:(lia))
    as (He & (Hm0 & Hm1) & Hq).
  cbv zeta in He, Hm0, Hm1, Hq |- *.
  set (e := Z.max (-1074) (Py.log2_quotient (Z.abs n) (Z.abs 1) - 52)) in *.
  rewrite He in *. change (2 ^ 0) with 1 in *. change (Z.abs 1) with 1 in *.
  rewrite !Z.mul_1_r in *.
  set (s := 2 ^ Z.max 0 (- e)) in *.
  assert (Hs : 0 < s) by (apply Z.pow_pos_nonneg; lia).
  assert (Hm : Py.round_half_even (Z.abs n * s) 1 = Z.abs n * s).
  { unfold Py.round_half_even. rewrite Z.mod_1_r, Z.div_1_r. reflexivity. }
  rewrite Hm in *.
  assert (H1024 : 2 ^ 53 < 2 ^ 1024) by (apply Z.pow_lt_mono_r; lia).
  destruct (2 ^ 1024 <=? Z.abs n * s) eqn:Eo; [lia|].
  f_equal. apply Q2Qc_eq_iff. unfold Qeq, inject_Z. cbn [Qnum Qden].
  rewrite Z2Pos.id by exact Hs. change (Z.sgn 1) with 1.
  destruct (Z.abs_spec n) as [[? ->]|[? ->]];
    destruct (Z.sgn_spec n) as [[? ->]|[[? ->]|[? ->]]]; lia.
Qed.

(** A quotient of 2^1024 or more is beyond the doubles. *)
Lemma nearest_double_overflow (a b : Z) :
  b <> 0 -> 2 ^ 1024 * Z.abs b <= Z.abs a -> Py.nearest_double a b = None.
Proof.
  intros Hb Hbig. unfold Py.nearest_double.
  assert (H1024 : 0 < 2 ^ 1024) by (apply Z.pow_pos_nonneg; lia).
  destruct (a =? 0) eqn:E; [apply Z.eqb_eq in E; subst; cbn in Hbig; nia|].
  set (n := Z.abs a) in *. set (d := Z.abs b) in *.
  assert (Hd : 0 < d) by (unfold d; lia).
  destruct (log2_quotient_big n d Hd ltac:(nia)) as (Hk0 & Hk1 & Hk2).
  set (k := Py.log2_quotient n d) in *.
  assert (Hk : 1024 <= k).
  { destruct (Z_le_gt_dec 1024 k) as [?|Hlt]; [assumption|exfalso].
    assert (2 ^ (k + 1) <= 2 ^ 1024) by (apply Z.pow_le_mono_r; lia). nia. }
  cbv zeta. replace (Z.max (-1074) (k - 52)) with (k - 52) by lia.
  replace (Z.max 0 (k - 52)) with (k - 52) by lia.
  replace (Z.max 0 (- (k - 52))) with 0 by lia.
  change (2 ^ 0) with 1. rewrite Z.mul_1_r.
  set (t := 2 ^ (k - 52)).
  assert (Ht : 0 < t) by (apply Z.pow_pos_nonneg; lia).
  assert (Hkt : 2 ^ k = 2 ^ 52 * t).
  { unfold t. rewrite <- Z.pow_add_r by lia. f_equal. lia. }
  assert (H52 : 0 < 2 ^ 52) by (apply Z.pow_pos_nonneg; lia).
  pose proof (round_half_even_bounds n (d * t) ltac:(nia)) as (Hlo & Hhi).
  set (m := Py.round_half_even n (d * t)) in *.
  assert (Hm : 2 ^ 52 <= m) by nia.
  assert (2 ^ 1024 <= 2 ^ k) by (apply Z.pow_le_mono_r; lia).
  destruct (2 ^ 1024 <=? m * t) eqn:Eo; [reflexivity|]. apply Z.leb_gt in Eo. nia.
Qed.

(** [int(a / b)] is the integer quotient while [a] is below 2^53. *)
Lemma int_truediv_float (a b : Z) :
  Z.abs a < 2 ^ 53 ->
  Py.and_then (Py.truediv a b) Py.int_of_float = Py.int_truediv a b.
Proof.
  intros Ha. unfold Py.truediv, Py.int_truediv.
  destruct (b =? 0) eqn:E; [reflexivity|]. apply Z.eqb_neq in E.
  destruct (nearest_double_trunc a b Ha E) as (v & -> & Hv).
  cbn [Py.and_then Py.int_of_float]. rewrite Hv. reflexivity.
Qed.

Lemma float_of_int_small (n : Z) :
  Z.abs n < 2 ^ 53 -> Py.float_of_int n = Ok (Q2Qc (inject_Z n)).
Proof. intros Hn. unfold Py.float_of_int. rewrite nearest_double_int by exact Hn. reflexivity. Qed.

Lemma float_of_int_overflow (n : Z) :
  2 ^ 1024 <= Z.abs n -> Py.float_of_int n = Raise OverflowError.
Proof.
  intros Hn. unfold Py.float_of_int.
  rewrite nearest_double_overflow; [reflexivity|lia|]. change (Z.abs 1) with 1. lia.
Qed.

Lemma Qnum_inject (n : Z) : Qnum (Q2Qc (inject_Z n)) = n /\ QDen (Q2Qc (inject_Z n)) = 1.
Proof.
  cbn [this Q2Qc]. rewrite Qred_identity; [split; reflexivity|].
  cbn [Qnum Qden inject_Z]. apply Z.gcd_1_r.
Qed.

(** From 2^53 on the float of an integer is an integer of 2^53 or more. *)
Lemma float_of_int_big (n : Z) (v : Qc) :
  2 ^ 53 <= n -> Py.float_of_int n = Ok v -> QDen v = 1 /\ 2 ^ 53 <= Qnum v.
Proof.
  intros Hn. unfold Py.float_of_int, Py.nearest_double.
  assert (H53 : 0 < 2 ^ 53) by (apply Z.pow_pos_nonneg; lia).
  destruct (n =? 0) eqn:E; [apply Z.eqb_eq in E; lia|].
  rewrite (Z.abs_eq n) by lia. change (Z.abs 1) with 1.
  destruct (log2_quotient_big n 1 ltac:(lia) ltac:(lia)) as (Hk0 & Hk1 & Hk2).
  set (k := Py.log2_quotient n 1) in *.
  assert (Hk : 53 <= k).
  { destruct (Z_le_gt_dec 53 k) as [?|Hlt]; [assumption|exfalso].
    assert (2 ^ (k + 1) <= 2 ^ 53) by (apply Z.pow_le_mono_r; lia). lia. }
  cbv zeta. replace (Z.max (-1074) (k - 52)) with (k - 52) by lia.
  replace (Z.max 0 (k - 52)) with (k - 52) by lia.
  replace (Z.max 0 (- (k - 52))) with 0 by lia.
  change (2 ^ 0) with 1. rewrite Z.mul_1_r, Z.mul_1_l.
  set (t := 2 ^ (k - 52)).
  assert (Ht : 2 <= t).
  { change 2 with (2 ^ 1). apply Z.pow_le_mono_r; lia. }
  assert (Hkt : 2 ^ k = 2 ^ 52 * t).
  { unfold t. rewrite <- Z.pow_add_r by lia. f_equal. lia. }
  assert (H52 : 2 ^ 53 = 2 * 2 ^ 52) by reflexivity.
  pose proof (round_half_even_bounds n t ltac:(lia)) as (Hlo & Hhi).
  set (m := Py.round_half_even n t) in *.
  assert (Hm : 2 ^ 52 <= m) by nia.
  destruct (2 ^ 1024 <=? m * t); [discriminate|].
  intros H. injection H as <-. cbn [this Q2Qc].
  rewrite Qred_identity by (cbn [Qnum Qden]; apply Z.gcd_1_r).
  cbn [Qnum Qden]. rewrite (Z.sgn_pos n) by lia. change (Z.sgn 1) with 1.
  split; [reflexivity|]. nia.
Qed.

(** A positive integer below 2^1023 has a float. *)
Lemma float_of_int_finite (n : Z) :
  0 < n < 2 ^ 1023 -> exists v, Py.float_of_int n = Ok v.
Proof.
  intros Hn.
  destruct (Z_lt_le_dec n (2 ^ 53)) as [Hs|Hb].
  { eexists. apply float_of_int_small. lia. }
  unfold Py.float_of_int, Py.nearest_double.
  destruct (n =? 0) eqn:E; [apply Z.eqb_eq in E; lia|].
  rewrite (Z.abs_eq n) by lia. change (Z.abs 1) with 1.
  destruct (log2_quotient_big n 1 ltac:(lia) ltac:(lia)) as (Hk0 & Hk1 & Hk2).
  set (k := Py.log2_quotient n 1) in *.
  assert (H53 : 0 < 2 ^ 53) by (apply Z.pow_pos_nonneg; lia).
  assert (Hk : 53 <= k).
  { destruct (Z_le_gt_dec 53 k) as [?|Hlt]; [assumption|exfalso].
    assert (2 ^ (k + 1) <= 2 ^ 53) by (apply Z.pow_le_mono_r; lia). lia. }
  assert (Hk' : k <= 1022).
  { destruct (Z_le_gt_dec k 1022) as [?|Hgt]; [assumption|exfalso].
    assert (2 ^ 1023 <= 2 ^ k) by (apply Z.pow_le_mono_r; lia). lia. }
  cbv zeta. replace (Z.max (-1074) (k - 52)) with (k - 52) by lia.
  replace (Z.max 0 (k - 52)) with (k - 52) by lia.
  replace (Z.max 0 (- (k - 52))) with 0 by lia.
  change (2 ^ 0) with 1. rewrite Z.mul_1_r, Z.mul_1_l.
  set (t := 2 ^ (k - 52)).
  assert (Ht : 0 < t) by (apply Z.pow_pos_nonneg; lia).
  assert (Hkt : 2 ^ (k + 1) = 2 ^ 53 * t).
  { unfold t. rewrite <- Z.pow_add_r by lia. f_equal. lia. }
  pose proof (round_half_even_bounds n t Ht) as (Hlo & Hhi).
  set (m := Py.round_half_even n t) in *.
  assert (Hm : m <= 2 ^ 53) by nia.
  assert (Hle : 2 ^ (k + 1) <= 2 ^ 1023) by (apply Z.pow_le_mono_r; lia).
  assert (Hlt : 2 ^ 1023 < 2 ^ 1024) by (apply Z.pow_lt_mono_r; lia).
  destruct (2 ^ 1024 <=? m * t) eqn:Eo; [apply Z.leb_le in Eo; nia|].
  eexists. reflexivity.
Qed.
(* ===================================================================== *)
(** * Properties *)
(* ===================================================================== *)

(** ** Colour scaling *)

Lemma map_px_map_px {A B C} (f : A -> B) (g : B -> C) (img : image A) :
  map_px g (map_px f img) = map_px (fun v => g (f v)) img.
Proof.
  unfold map_px. rewrite map_map. apply map_ext; intros row.
  rewrite map_map. apply map_ext; intros [[r gr] b]; reflexivity.
Qed.

Lemma map_px_id {A} (f : A -> A) (img : image A) :
  (forall v, f v = v) -> map_px f img = img.
Proof.
  intros Hf. unfold map_px.
  rewrite <- (map_id img) at 2. apply map_ext; intros row.
  rewrite <- (map_id row) at 2. apply map_ext; intros [[r g] b].
  rewrite !Hf; reflexivity.
Qed.

(** C7. Unscaling undoes scaling, exactly, for both value ranges:
    [unscale_hr_imgs (scale_hr_imgs x) = x] and
    [unscale_lr_imgs (scale_lr_imgs x) = x] for every pixel array [x]. *)
Theorem scale_unscale_roundtrip (x : image Qc) :
  unscale_hr_imgs (scale_hr_imgs x) = x /\
  unscale_lr_imgs (scale_lr_imgs x) = x.
Proof.
  unfold unscale_hr_imgs, scale_hr_imgs, unscale_lr_imgs, scale_lr_imgs.
  rewrite !map_px_map_px. split; apply map_px_id; intros v.
  - field. discriminate.
  - field. discriminate.
Qed.

(** ** The generator's shapes *)

Lemma skip_shape (body : list SRGAN.layer) (s : SRGAN.shape3) :
  SRGAN.layer_shape (SRGAN.Skip body) s =
  match SRGAN.layers_shape body s with
  | Some s' => if SRGAN.shape3_eqb s' s then Some s else None
  | None => None
  end.
Proof.
  destruct s as [[h w] c]. cbn [SRGAN.layer_shape].
  match goal with |- match ?f body _ with _ => _ end = _ =>
    assert (Hf : forall ls x, f ls x = SRGAN.layers_shape ls x) end.
  { induction ls as [|l ls IH]; intros x; [reflexivity|].
    cbn [SRGAN.layers_shape]. destruct (SRGAN.layer_shape l x); [apply IH|reflexivity]. }
  rewrite Hf. reflexivity.
Qed.

Lemma layers_shape_app (l1 l2 : list SRGAN.layer) (s : SRGAN.shape3) :
  SRGAN.layers_shape (l1 ++ l2) s =
  match SRGAN.layers_shape l1 s with
  | Some s' => SRGAN.layers_shape l2 s'
  | None => None
  end.
Proof.
  revert s; induction l1 as [|l l1 IH]; intros s; cbn; [reflexivity|].
  destruct (SRGAN.layer_shape l s); [apply IH|reflexivity].
Qed.

Lemma same_out_1 (n : Z) : SRGAN.same_out n 1 = n.
Proof. unfold SRGAN.same_out. rewrite Z.div_1_r. lia. Qed.

Lemma layers_shape_cons (l : SRGAN.layer) (ls : list SRGAN.layer) (s : SRGAN.shape3) :
  SRGAN.layers_shape (l :: ls) s =
  match SRGAN.layer_shape l s with
  | Some s' => SRGAN.layers_shape ls s'
  | None => None
  end.
Proof. reflexivity. Qed.

Lemma conv_shape (f ks : Z) (a : SRGAN.activation) (n : string) (h w c : Z) :
  SRGAN.layer_shape (SRGAN.Conv2D f ks 1 a n) (h, w, c) = Some (h, w, f).
Proof. cbn [SRGAN.layer_shape]. rewrite !same_out_1. reflexivity. Qed.

Lemma prelu_shape (n : string) (s : SRGAN.shape3) :
  SRGAN.layer_shape (SRGAN.PReLU n) s = Some s.
Proof. destruct s as [[h w] c]; reflexivity. Qed.

Lemma batchnorm_shape (s : SRGAN.shape3) :
  SRGAN.layer_shape SRGAN.BatchNormalization s = Some s.
Proof. destruct s as [[h w] c]; reflexivity. Qed.

Lemma subpixel2_shape (n : string) (h w : Z) :
  SRGAN.layer_shape (SRGAN.SubpixelConv2D n 2) (h, w, 256) = Some (2 * h, 2 * w, 64).
Proof.
  cbn [SRGAN.layer_shape]. change (256 mod 2 ^ 2 =? 0) with true.
  cbn [SRGAN.subpixel_shape]. change (256 ÷ 2 ^ 2) with 64. do 3 f_equal; lia.
Qed.

Ltac shapes :=
  repeat (rewrite layers_shape_cons || rewrite conv_shape || rewrite prelu_shape
          || rewrite batchnorm_shape || rewrite subpixel2_shape); cbv iota.

Lemma shape3_eqb_refl (s : SRGAN.shape3) : SRGAN.shape3_eqb s s = true.
Proof. destruct s as [[h w] c]; cbn. rewrite !Z.eqb_refl. reflexivity. Qed.

Lemma residual_block_shape (h w : Z) :
  SRGAN.layer_shape SRGAN.residual_block (h, w, 64) = Some (h, w, 64).
Proof.
  unfold SRGAN.residual_block. rewrite skip_shape. shapes.
  cbn [SRGAN.layers_shape]. rewrite shape3_eqb_refl. reflexivity.
Qed.

Lemma residual_blocks_shape (n : list Z) (h w : Z) :
  SRGAN.layers_shape (map (fun _ => SRGAN.residual_block) n) (h, w, 64) = Some (h, w, 64).
Proof.
  induction n as [|? n IH]; [reflexivity|].
  cbn [map]. rewrite layers_shape_cons, residual_block_shape. apply IH.
Qed.

Lemma upsample_shape (number h w : Z) :
  SRGAN.layers_shape (SRGAN.upsample number) (h, w, 64) = Some (2 * h, 2 * w, 64).
Proof.
  unfold SRGAN.upsample. shapes. reflexivity.
Qed.

Lemma upsampling_shape (F h w : Z) :
  In F [2; 4; 8] ->
  SRGAN.layers_shape (SRGAN.upsampling F) (h, w, 64) = Some (F * h, F * w, 64).
Proof.
  intros HF. unfold SRGAN.upsampling.
  cbn in HF. destruct HF as [<-|[<-|[<-|[]]]];
    repeat match goal with
           | |- context [?a <? ?b] =>
               let v := eval vm_compute in (a <? b) in change (a <? b) with v
           end;
    cbv iota; rewrite ?app_nil_r;
    repeat (rewrite layers_shape_app, upsample_shape);
    rewrite ?upsample_shape; do 3 f_equal; lia.
Qed.

(** C1. For an upscaling factor F of 2, 4 or 8 the generator turns a
    3-channel input of size (h, w) into an output of size (F*h, F*w),
    with [self.channels] channels. Its upsampling part is log2(F) stages
    [upsample 1 .. upsample (log2 F)]; each stage is a convolution to 256
    channels followed by the depth-to-space rearrangement with block
    size 2, and doubles both spatial dimensions. *)
Theorem generator_output_size (F channels residual_blocks h w : Z) :
  In F [2; 4; 8] ->
  SRGAN.generator_output_shape F channels residual_blocks (h, w, 3)
    = Some (F * h, F * w, channels) /\
  SRGAN.upsampling F
    = concat (map SRGAN.upsample (map Z.of_nat (seq 1 (Z.to_nat (Z.log2 F))))) /\
  (forall number h' w',
      exists n1 n2 n3,
        SRGAN.upsample number
          = [SRGAN.Conv2D 256 3 1 SRGAN.linear n1; SRGAN.SubpixelConv2D n2 2; SRGAN.PReLU n3] /\
        SRGAN.layer_shape (SRGAN.Conv2D 256 3 1 SRGAN.linear n1) (h', w', 64)
          = Some (h', w', 256) /\
        SRGAN.layer_shape (SRGAN.SubpixelConv2D n2 2) (h', w', 256)
          = Some (2 * h', 2 * w', 64) /\
        SRGAN.layers_shape (SRGAN.upsample number) (h', w', 64)
          = Some (2 * h', 2 * w', 64)).
Proof.
  intros HF. split; [|split].
  - unfold SRGAN.generator_output_shape, SRGAN.build_generator.
    change (3 =? 3) with true. cbv iota.
    rewrite layers_shape_app.
    assert (Hhead : forall ls : list Z, SRGAN.layers_shape
              [SRGAN.Conv2D 64 9 1 SRGAN.linear ""; SRGAN.PReLU "";
               SRGAN.Skip ((SRGAN.residual_block :: map (fun _ => SRGAN.residual_block) ls) ++
                           [SRGAN.Conv2D 64 3 1 SRGAN.linear ""; SRGAN.BatchNormalization])]
              (h, w, 3) = Some (h, w, 64)).
    { intros ls. shapes. rewrite skip_shape, layers_shape_app.
      change (SRGAN.residual_block :: map (fun _ => SRGAN.residual_block) ls)
        with (map (fun _ : Z => SRGAN.residual_block) (0 :: ls)).
      rewrite residual_blocks_shape. shapes. cbn [SRGAN.layers_shape].
      rewrite shape3_eqb_refl. reflexivity. }
    rewrite Hhead, layers_shape_app, (upsampling_shape F h w HF). shapes. reflexivity.
  - cbn in HF. destruct HF as [<-|[<-|[<-|[]]]]; reflexivity.
  - intros number h' w'. eexists _, _, _. split; [reflexivity|].
    split; [|split].
    + apply conv_shape.
    + apply subpixel2_shape.
    + apply upsample_shape.
Qed.

Lemma generator_output_size_witness :
  In 4 [2; 4; 8] /\
  SRGAN.generator_output_shape 4 3 16 (24, 24, 3) = Some (96, 96, 3).
Proof.
  assert (H : In 4 [2; 4; 8]) by (simpl; auto).
  split; [exact H|].
  exact (proj1 (generator_output_size 4 3 16 24 24 H)).
Defined.

(** ** Shapes that construction relies on *)

Lemma generator_head_shape (ls : list Z) (h w : Z) :
  SRGAN.layers_shape
    [SRGAN.Conv2D 64 9 1 SRGAN.linear ""; SRGAN.PReLU "";
     SRGAN.Skip ((SRGAN.residual_block :: map (fun _ => SRGAN.residual_block) ls) ++
                 [SRGAN.Conv2D 64 3 1 SRGAN.linear ""; SRGAN.BatchNormalization])]
    (h, w, 3) = Some (h, w, 64).
Proof.
  shapes. rewrite skip_shape, layers_shape_app.
  change (SRGAN.residual_block :: map (fun _ => SRGAN.residual_block) ls)
    with (map (fun _ : Z => SRGAN.residual_block) (0 :: ls)).
  rewrite residual_blocks_shape. shapes. cbn [SRGAN.layers_shape].
  rewrite shape3_eqb_refl. reflexivity.
Qed.

Lemma leaky_shape (s : SRGAN.shape3) : SRGAN.layer_shape SRGAN.LeakyReLU s = Some s.
Proof. destruct s as [[h w] c]; reflexivity. Qed.

Lemma conv2d_block_shape (filters strides : Z) (bn : bool) (h w c : Z) :
  SRGAN.layers_shape (SRGAN.conv2d_block filters strides bn) (h, w, c)
  = Some (SRGAN.same_out h strides, SRGAN.same_out w strides, filters).
Proof.
  unfold SRGAN.conv2d_block. rewrite layers_shape_app.
  rewrite !layers_shape_cons. cbn [SRGAN.layer_shape SRGAN.layers_shape].
  destruct bn; reflexivity.
Qed.

Lemma generator_layers_shape (F channels residual_blocks h w : Z) :
  In F [2; 4; 8] ->
  SRGAN.layers_shape (SRGAN.build_generator F channels residual_blocks) (h, w, 3)
  = Some (F * h, F * w, channels).
Proof.
  intros HF. unfold SRGAN.build_generator.
  rewrite layers_shape_app, generator_head_shape, layers_shape_app,
    (upsampling_shape F h w HF).
  shapes. reflexivity.
Qed.

Lemma discriminator_layers_shape (filters h w c : Z) :
  exists out, SRGAN.layers_shape (SRGAN.build_discriminator filters) (h, w, c) = Some out.
Proof.
  unfold SRGAN.build_discriminator.
  repeat (rewrite layers_shape_app, conv2d_block_shape).
  cbn [SRGAN.layers_shape SRGAN.layer_shape]. eexists. reflexivity.
Qed.
(** ** Construction of the SRGAN object *)

Lemma in_list_In (x : Z) (l : list Z) : Py.in_list x l = true <-> In x l.
Proof.
  unfold Py.in_list. rewrite existsb_exists. split.
  - intros (y & Hy & Heq). apply Z.eqb_eq in Heq. subst; exact Hy.
  - intros H. exists x. split; [exact H|apply Z.eqb_refl].
Qed.

(** Running [__init__] symbolically: unfold the methods, then resolve the
    attribute lookups against the assignments made so far. *)
Ltac run_methods :=
  cbv [SRGAN.__init__ Py.bind Py.ret Py.raise Py.modify Py.lift
       SRGAN.setattr SRGAN.getattr SRGAN.getattr_int SRGAN.getattr_float
       SRGAN.getattr_shape SRGAN.getattr_model SRGAN.update_model
       SRGAN.Model SRGAN.compile SRGAN.set_trainable SRGAN.Model_load_weights
       SRGAN.build_generator_model SRGAN.build_vgg SRGAN.build_discriminator_model
       SRGAN.build_srgan SRGAN.compile_vgg SRGAN.compile_generator
       SRGAN.compile_discriminator SRGAN.compile_srgan SRGAN.load_weights SRGAN.truthy
       SRGAN.self SRGAN.backend negb].

Ltac resolve_attrs :=
  repeat (rewrite lookup_insert_ne by discriminate); rewrite ?lookup_insert_eq.

Ltac run_init := repeat (progress (run_methods; resolve_attrs)).

Lemma call_model_ok (k : SRGAN.keras) (ref : nat) (sh out : SRGAN.shape3)
    (st : SRGAN.state) (m : SRGAN.model) :
  SRGAN.backend st !! ref = Some m ->
  SRGAN.call_shape k (SRGAN.arch m) sh = Some out ->
  SRGAN.call_model k ref sh st = (Ok out, st).
Proof. intros H1 H2. unfold SRGAN.call_model. rewrite H1, H2. reflexivity. Qed.

Lemma fresh_ref_unused (b : gmap nat SRGAN.model) : b !! fresh (dom b) = None.
Proof. apply not_elem_of_dom, is_fresh. Qed.

Ltac tidy_backend :=
  rewrite ?alter_insert_eq;
  cbn [SRGAN.arch SRGAN.weights SRGAN.trainable SRGAN.loss SRGAN.learning_rate].

(** Construction in training mode, step by step: the four models in the
    order in which they are made. *)
Lemma training_construct
    (k : SRGAN.keras) (height_lr width_lr F : Z) (gen_lr dis_lr : Qc)
    (loss_weights : list Qc) (b : gmap nat SRGAN.model) :
  In F [2; 4; 8] ->
  SRGAN.vgg19_accepts k (height_lr * F, width_lr * F) = true ->
  let ag := SRGAN.Layers (None, None, 3) (SRGAN.build_generator F 3 16) in
  let av := SRGAN.VGG19_features (height_lr * F, width_lr * F, 3) in
  let ad := SRGAN.Layers (Some (height_lr * F), Some (width_lr * F), 3)
                         (SRGAN.build_discriminator 64) in
  let g := fresh (dom b) in
  let b1 := <[g := {| SRGAN.arch := ag; SRGAN.weights := SRGAN.initializer k ag;
                      SRGAN.trainable := true; SRGAN.loss := ["mse"%string];
                      SRGAN.learning_rate := Some gen_lr |}]> b in
  let v := fresh (dom b1) in
  let b2 := <[v := {| SRGAN.arch := av; SRGAN.weights := SRGAN.initializer k av;
                      SRGAN.trainable := false; SRGAN.loss := ["mse"%string];
                      SRGAN.learning_rate := Some gen_lr |}]> b1 in
  let d := fresh (dom b2) in
  let b3 := <[d := {| SRGAN.arch := ad; SRGAN.weights := SRGAN.initializer k ad;
                      SRGAN.trainable := false;
                      SRGAN.loss := ["binary_crossentropy"%string];
                      SRGAN.learning_rate := Some dis_lr |}]> b2 in
  let n := fresh (dom b3) in
  let an := SRGAN.Combined (height_lr, width_lr, 3) g v d in
  exists obj,
    SRGAN.construct k height_lr width_lr 3 F gen_lr dis_lr loss_weights true b
    = (Ok obj,
       <[n := {| SRGAN.arch := an; SRGAN.weights := SRGAN.initializer k an;
                 SRGAN.trainable := true;
                 SRGAN.loss := ["binary_crossentropy"%string; "mse"%string];
                 SRGAN.learning_rate := Some gen_lr |}]> b3) /\
    obj !! "upscaling_factor"%string = Some (SRGAN.VInt F) /\
    obj !! "generator"%string = Some (SRGAN.VModel g) /\
    obj !! "vgg"%string = Some (SRGAN.VModel v) /\
    obj !! "discriminator"%string = Some (SRGAN.VModel d) /\
    obj !! "srgan"%string = Some (SRGAN.VModel n).
Proof.
  intros HF Hacc ag av ad g b1 v b2 d b3 n an.
  pose proof HF as HF'. apply in_list_In in HF.
  unfold SRGAN.construct. run_methods. rewrite HF. run_init.
  cbv [SRGAN.call_shape]. change (3 =? 3) with true. rewrite Hacc. cbv [andb]. run_init.
  tidy_backend. fold ag av ad. fold g. fold b1. fold v. fold b2. fold d.
  assert (Hvg : v <> g).
  { intros E. pose proof (fresh_ref_unused b1) as H. fold v in H. rewrite E in H.
    unfold b1 in H. rewrite lookup_insert_eq in H. discriminate. }
  assert (G2 : b2 !! g = b1 !! g) by (unfold b2; apply lookup_insert_ne; exact Hvg).
  assert (Hdv : d <> v).
  { intros E. pose proof (fresh_ref_unused b2) as H. fold d in H. rewrite E in H.
    unfold b2 in H. rewrite lookup_insert_eq in H. discriminate. }
  assert (Hdg : d <> g).
  { intros E. pose proof (fresh_ref_unused b2) as H. fold d in H. rewrite E, G2 in H.
    unfold b1 in H. rewrite lookup_insert_eq in H. discriminate. }
  match goal with
  | |- context [SRGAN.call_model k g ?sh ?st] =>
      rewrite (call_model_ok k g sh (F * height_lr, F * width_lr, 3) st
                 {| SRGAN.arch := ag; SRGAN.weights := SRGAN.initializer k ag;
                    SRGAN.trainable := true; SRGAN.loss := ["mse"%string];
                    SRGAN.learning_rate := Some gen_lr |})
  end.
  2:{ cbn [SRGAN.backend]. rewrite lookup_insert_ne by exact Hdg. rewrite G2.
      unfold b1. apply lookup_insert_eq. }
  2:{ cbn [SRGAN.arch]. unfold ag, SRGAN.call_shape. change (3 =? 3) with true. cbv iota.
      apply generator_layers_shape. exact HF'. }
  run_init.
  match goal with
  | |- context [SRGAN.call_model k v ?sh ?st] =>
      rewrite (call_model_ok k v sh (F * height_lr / 16, F * width_lr / 16, 512) st
                 {| SRGAN.arch := av; SRGAN.weights := SRGAN.initializer k av;
                    SRGAN.trainable := false; SRGAN.loss := ["mse"%string];
                    SRGAN.learning_rate := Some gen_lr |})
  end.
  2:{ cbn [SRGAN.backend]. rewrite lookup_insert_ne by exact Hdv.
      unfold b2. apply lookup_insert_eq. }
  2:{ cbn [SRGAN.arch]. unfold av, SRGAN.call_shape. change (3 =? 3) with true.
      rewrite (Z.mul_comm F height_lr), (Z.mul_comm F width_lr), Hacc. reflexivity. }
  run_init. tidy_backend. fold b3.
  destruct (discriminator_layers_shape 64 (F * height_lr) (F * width_lr) 3) as (out & Hout).
  match goal with
  | |- context [SRGAN.call_model k d ?sh ?st] =>
      rewrite (call_model_ok k d sh out st
                 {| SRGAN.arch := ad; SRGAN.weights := SRGAN.initializer k ad;
                    SRGAN.trainable := false;
                    SRGAN.loss := ["binary_crossentropy"%string];
                    SRGAN.learning_rate := Some dis_lr |})
  end.
  2:{ cbn [SRGAN.backend]. unfold b3. apply lookup_insert_eq. }
  2:{ cbn [SRGAN.arch]. unfold ad, SRGAN.call_shape. change (3 =? 3) with true. cbv iota.
      exact Hout. }
  run_init. tidy_backend. fold n an.
  eexists. split; [reflexivity|].
  repeat split; resolve_attrs; reflexivity.
Qed.

(** In training mode with a channel count other than three, or with a
    size that VGG19 does not take, construction stops in [build_vgg]:
    the generator has been made by then. *)
Lemma training_construct_refused
    (k : SRGAN.keras) (height_lr width_lr channels F : Z) (gen_lr dis_lr : Qc)
    (loss_weights : list Qc) (b : gmap nat SRGAN.model) :
  In F [2; 4; 8] ->
  (channels =? 3) && SRGAN.vgg19_accepts k (height_lr * F, width_lr * F) = false ->
  let ag := SRGAN.Layers (None, None, 3) (SRGAN.build_generator F channels 16) in
  SRGAN.construct k height_lr width_lr channels F gen_lr dis_lr loss_weights true b
  = (Raise SRGAN.incompatible,
     <[fresh (dom b) := {| SRGAN.arch := ag; SRGAN.weights := SRGAN.initializer k ag;
                           SRGAN.trainable := true; SRGAN.loss := ["mse"%string];
                           SRGAN.learning_rate := Some gen_lr |}]> b).
Proof.
  intros HF Hno ag. apply in_list_In in HF.
  unfold SRGAN.construct. run_methods. rewrite HF. run_init.
  cbv [SRGAN.call_shape]. rewrite Hno. run_init. tidy_backend. reflexivity.
Qed.

Lemma inference_construct
    (k : SRGAN.keras) (height_lr width_lr channels F : Z) (gen_lr dis_lr : Qc)
    (loss_weights : list Qc) (b : gmap nat SRGAN.model) :
  In F [2; 4; 8] ->
  exists obj b' g,
    SRGAN.construct k height_lr width_lr channels F gen_lr dis_lr loss_weights false b
    = (Ok obj, b') /\
    obj !! "generator"%string = Some (SRGAN.VModel g) /\
    b !! g = None /\ is_Some (b' !! g) /\
    (forall r, r <> g -> b' !! r = b !! r) /\
    (obj !! "vgg"%string = None /\ obj !! "discriminator"%string = None /\
     obj !! "srgan"%string = None) /\
    obj !! "upscaling_factor"%string = Some (SRGAN.VInt F).
Proof.
  intros HF. apply in_list_In in HF.
  unfold SRGAN.construct. run_methods. rewrite HF. run_init.
  pose proof (fresh_ref_unused b) as H0.
  set (g := fresh (dom b)) in *.
  match goal with
  | |- context [alter ?f g (<[g := ?m]> b)] => set (b1 := alter f g (<[g := m]> b)) in *
  end.
  eexists _, b1, g. split; [reflexivity|].
  split; [resolve_attrs; reflexivity|]. split; [exact H0|].
  split; [unfold b1; rewrite lookup_alter_eq, lookup_insert_eq; eexists; reflexivity|].
  split.
  { intros r Hr. unfold b1. rewrite lookup_alter_ne, lookup_insert_ne by congruence.
    reflexivity. }
  split; [split; [|split]; vm_compute; reflexivity|].
  resolve_attrs. reflexivity.
Qed.


(** C2. Constructing [SRGAN] with an upscaling factor other than 2, 4 or
    8 raises the ValueError of the check, and at that point no model has
    been built: the backend is as it was and no object is returned. With
    a factor of 2, 4 or 8 construction never raises that error, whatever
    the other arguments; it returns the object when it is not in
    training mode, and in training mode when there are three channels
    and VGG19 takes the high-resolution size. *)
Theorem invalid_factor_fails_at_construction
    (k : SRGAN.keras) (height_lr width_lr channels F : Z) (gen_lr dis_lr : Qc)
    (loss_weights : list Qc) (training_mode : bool) (b : gmap nat SRGAN.model) :
  (~ In F [2; 4; 8] ->
   SRGAN.construct k height_lr width_lr channels F gen_lr dis_lr loss_weights training_mode b
   = (Raise (ValueError ("Upscaling factor must be either 2, 4, or 8. You chose " +:+ pretty F)),
      b)) /\
  (In F [2; 4; 8] ->
   (forall e b',
      SRGAN.construct k height_lr width_lr channels F gen_lr dis_lr loss_weights training_mode b
      = (Raise e, b') ->
      forall chosen,
        e <> ValueError ("Upscaling factor must be either 2, 4, or 8. You chose " +:+ chosen)) /\
   (training_mode = false \/
    (channels = 3 /\ SRGAN.vgg19_accepts k (height_lr * F, width_lr * F) = true) ->
    exists obj b',
      SRGAN.construct k height_lr width_lr channels F gen_lr dis_lr loss_weights training_mode b
      = (Ok obj, b') /\
      obj !! "upscaling_factor"%string = Some (SRGAN.VInt F))).
Proof.
  split.
  - intros HF.
    assert (Hin : Py.in_list F [2; 4; 8] = false).
    { destruct (Py.in_list F [2; 4; 8]) eqn:E; [|reflexivity].
      apply in_list_In in E. contradiction. }
    unfold SRGAN.construct. run_methods. rewrite Hin. run_methods. reflexivity.
  - intros HF.
    assert (Hok : training_mode = false \/
                  (channels = 3 /\
                   SRGAN.vgg19_accepts k (height_lr * F, width_lr * F) = true) ->
                  exists obj b',
                    SRGAN.construct k height_lr width_lr channels F gen_lr dis_lr
                      loss_weights training_mode b = (Ok obj, b') /\
                    obj !! "upscaling_factor"%string = Some (SRGAN.VInt F)).
    { intros [->|(-> & Hacc)].
      - destruct (inference_construct k height_lr width_lr channels F gen_lr dis_lr
                    loss_weights b HF) as (obj & b' & g & Hrun & _ & _ & _ & _ & _ & Hup).
        exists obj, b'. auto.
      - destruct training_mode.
        + destruct (training_construct k height_lr width_lr F gen_lr dis_lr loss_weights b
                      HF Hacc) as (obj & Hrun & Hup & _).
          eexists obj, _. split; [exact Hrun|exact Hup].
        + destruct (inference_construct k height_lr width_lr 3 F gen_lr dis_lr
                      loss_weights b HF) as (obj & b' & g & Hrun & _ & _ & _ & _ & _ & Hup).
          exists obj, b'. auto. }
    split; [|exact Hok].
    intros e b' Hrun chosen.
    destruct training_mode.
    + destruct ((channels =? 3) && SRGAN.vgg19_accepts k (height_lr * F, width_lr * F))
        eqn:Hacc.
      * apply andb_true_iff in Hacc. destruct Hacc as (Hc & Hacc). apply Z.eqb_eq in Hc.
        destruct (Hok (or_intror (conj Hc Hacc))) as (obj & b2 & Hrun2 & _). congruence.
      * rewrite (training_construct_refused k height_lr width_lr channels F gen_lr dis_lr
                   loss_weights b HF Hacc) in Hrun.
        injection Hrun as <- _. unfold SRGAN.incompatible. intros E. discriminate E.
    + destruct (Hok (or_introl eq_refl)) as (obj & b2 & Hrun2 & _). congruence.
Qed.

Lemma invalid_factor_fails_at_construction_witness :
  ~ In 3 [2; 4; 8] /\
  SRGAN.construct Demo.backend 24 24 3 3 (Q2Qc (1 # 10000)) (Q2Qc (1 # 10000)) [] true ∅
  = (Raise (ValueError "Upscaling factor must be either 2, 4, or 8. You chose 3"), ∅) /\
  In 4 [2; 4; 8] /\
  exists obj b',
    SRGAN.construct Demo.backend 24 24 3 4 (Q2Qc (1 # 10000)) (Q2Qc (1 # 10000)) [] true ∅
    = (Ok obj, b').
Proof.
  assert (H : ~ In 3 [2; 4; 8]) by (simpl; intros [?|[?|[?|[]]]]; discriminate).
  assert (H4 : In 4 [2; 4; 8]) by (simpl; auto).
  split; [exact H|]. split.
  - exact (proj1 (invalid_factor_fails_at_construction Demo.backend 24 24 3 3
                    (Q2Qc (1 # 10000)) (Q2Qc (1 # 10000)) [] true ∅) H).
  - split; [exact H4|].
    destruct (proj2 (proj2 (invalid_factor_fails_at_construction Demo.backend 24 24 3 4
                              (Q2Qc (1 # 10000)) (Q2Qc (1 # 10000)) [] true ∅) H4)
                (or_intror (conj eq_refl eq_refl)))
      as (obj & b' & Hrun & _).
    exists obj, b'. exact Hrun.
Defined.

(** ** Loading weights *)

Lemma truthy_nonempty (p : string) : p <> ""%string -> SRGAN.truthy (Some p) = true.
Proof.
  intros Hp. unfold SRGAN.truthy. destruct (String.eqb p "") eqn:E; [|reflexivity].
  apply String.eqb_eq in E. contradiction.
Qed.

Lemma load_into (k : SRGAN.keras) (attr : string) (s : SRGAN.state) (r : nat)
    (p : string) (ws : list Qc) :
  SRGAN.self s !! attr = Some (SRGAN.VModel r) ->
  SRGAN.h5_files k !! p = Some ws ->
  (ref <- SRGAN.getattr_model attr ;; SRGAN.Model_load_weights k ref p) s
  = (Ok tt, {| SRGAN.self := SRGAN.self s;
               SRGAN.backend := alter (with_weights ws) r (SRGAN.backend s) |}).
Proof.
  intros Hattr Hfile.
  unfold Py.bind, SRGAN.getattr_model, SRGAN.getattr, Py.bind. rewrite Hattr.
  unfold Py.ret, SRGAN.Model_load_weights. rewrite Hfile. reflexivity.
Qed.

(** C9. [load_weights] treats its two arguments independently. With the
    generator file alone it succeeds, the generator holds the weights of
    the file, and every other model of the backend, the discriminator
    among them, is what it was; the object need not even have a
    discriminator. With the discriminator file alone it is the other way
    round. With neither nothing changes. *)
Theorem load_weights_independent
    (k : SRGAN.keras) (s : SRGAN.state) (g : nat) (pg pd : string) (wg wd : list Qc) :
  SRGAN.self s !! "generator"%string = Some (SRGAN.VModel g) ->
  SRGAN.h5_files k !! pg = Some wg -> pg <> ""%string ->
  SRGAN.h5_files k !! pd = Some wd -> pd <> ""%string ->
  (exists s',
      SRGAN.load_weights k (Some pg) None s = (Ok tt, s') /\
      SRGAN.self s' = SRGAN.self s /\
      SRGAN.backend s' !! g = with_weights wg <$> SRGAN.backend s !! g /\
      forall r, r <> g -> SRGAN.backend s' !! r = SRGAN.backend s !! r) /\
  (forall d,
      SRGAN.self s !! "discriminator"%string = Some (SRGAN.VModel d) ->
      exists s',
        SRGAN.load_weights k None (Some pd) s = (Ok tt, s') /\
        SRGAN.self s' = SRGAN.self s /\
        SRGAN.backend s' !! d = with_weights wd <$> SRGAN.backend s !! d /\
        forall r, r <> d -> SRGAN.backend s' !! r = SRGAN.backend s !! r) /\
  SRGAN.load_weights k None None s = (Ok tt, s).
Proof.
  intros Hg Hfg Hpg Hfd Hpd. split; [|split].
  - eexists. split.
    + unfold SRGAN.load_weights. rewrite (truthy_nonempty pg Hpg).
      unfold Py.bind at 1. rewrite (load_into k _ s g pg wg Hg Hfg). reflexivity.
    + cbn [SRGAN.self SRGAN.backend]. split; [reflexivity|]. split.
      * apply lookup_alter_eq.
      * intros r Hr. apply lookup_alter_ne. congruence.
  - intros d Hd. eexists. split.
    + unfold SRGAN.load_weights. rewrite (truthy_nonempty pd Hpd).
      unfold Py.bind at 1. unfold Py.ret at 1.
      rewrite (load_into k _ s d pd wd Hd Hfd). reflexivity.
    + cbn [SRGAN.self SRGAN.backend]. split; [reflexivity|]. split.
      * apply lookup_alter_eq.
      * intros r Hr. apply lookup_alter_ne. congruence.
  - reflexivity.
Qed.

Lemma load_weights_independent_witness :
  SRGAN.self Demo.gan !! "discriminator"%string = Some (SRGAN.VModel 2%nat) /\
  exists s',
    SRGAN.load_weights Demo.backend (Some "gen.h5"%string) None Demo.gan = (Ok tt, s') /\
    SRGAN.weights <$> SRGAN.backend s' !! 0%nat = Some [Q2Qc 1; Q2Qc 2] /\
    SRGAN.backend s' !! 2%nat = SRGAN.backend Demo.gan !! 2%nat /\
    SRGAN.weights <$> SRGAN.backend Demo.gan !! 2%nat
      = Some (SRGAN.initializer Demo.backend (SRGAN.Layers (Some 96, Some 96, 3) (SRGAN.build_discriminator 64))).
Proof.
  split; [vm_compute; reflexivity|].
  assert (Hg : SRGAN.self Demo.gan !! "generator"%string = Some (SRGAN.VModel 0%nat))
    by (vm_compute; reflexivity).
  assert (Hfg : SRGAN.h5_files Demo.backend !! "gen.h5"%string = Some [Q2Qc 1; Q2Qc 2])
    by (vm_compute; reflexivity).
  assert (Hfd : SRGAN.h5_files Demo.backend !! "dis.h5"%string = Some [Q2Qc 3])
    by (vm_compute; reflexivity).
  destruct (load_weights_independent Demo.backend Demo.gan 0%nat "gen.h5" "dis.h5" _ _
              Hg Hfg ltac:(discriminate) Hfd ltac:(discriminate))
    as [(s' & Hrun & _ & Hgen & Hframe) _].
  exists s'. split; [exact Hrun|]. split; [|split].
  - rewrite Hgen. vm_compute. reflexivity.
  - apply Hframe. discriminate.
  - vm_compute. reflexivity.
Defined.

(** ** The candidate pool *)

Lemma prefix_app (t post : string) : String.prefix t (t +:+ post) = true.
Proof.
  induction t as [|c t IH]; [destruct post; reflexivity|].
  change (String c t +:+ post) with (String c (t +:+ post)).
  cbn [String.prefix]. destruct (ascii_dec c c); [exact IH|contradiction].
Qed.

Lemma contains_prefix (t s : string) :
  String.prefix t s = true -> Py.contains t s = true.
Proof. intros H. destruct s; cbn [Py.contains]; rewrite H; reflexivity. Qed.

Lemma prefix_inv (t s : string) :
  String.prefix t s = true -> exists post, s = t +:+ post.
Proof.
  revert s; induction t as [|c t IH]; intros s H.
  - exists s. reflexivity.
  - destruct s as [|c' s]; [discriminate|].
    cbn in H. destruct (ascii_dec c c') as [->|]; [|discriminate].
    destruct (IH s H) as [post ->]. exists post. reflexivity.
Qed.

Lemma contains_spec (t s : string) :
  Py.contains t s = true <-> exists pre post, s = pre +:+ t +:+ post.
Proof.
  split.
  - induction s as [|c s IH]; cbn [Py.contains]; intros H.
    + rewrite orb_false_r in H. destruct (prefix_inv _ _ H) as [post Hp].
      exists ""%string, post. exact Hp.
    + apply orb_true_iff in H. destruct H as [H|H].
      * destruct (prefix_inv _ _ H) as [post Hp]. exists ""%string, post. exact Hp.
      * destruct (IH H) as (pre & post & ->). exists (String c pre), post. reflexivity.
  - intros (pre & post & ->). induction pre as [|c pre IH].
    + change ("" +:+ t +:+ post) with (t +:+ post).
      apply contains_prefix, prefix_app.
    + change (String c pre +:+ t +:+ post) with (String c (pre +:+ t +:+ post)).
      cbn [Py.contains]. rewrite IH. apply orb_true_r.
Qed.

Lemma str_app_cons (c : ascii) (a b : string) :
  String c a +:+ b = String c (a +:+ b).
Proof. reflexivity. Qed.

Lemma str_app_assoc (a b c : string) : (a +:+ b) +:+ c = a +:+ b +:+ c.
Proof.
  induction a as [|x a IH]; [reflexivity|].
  rewrite !str_app_cons, IH. reflexivity.
Qed.

Lemma str_app_nil_r (a : string) : a +:+ "" = a.
Proof.
  induction a as [|x a IH]; [reflexivity|].
  rewrite str_app_cons, IH. reflexivity.
Qed.

Lemma lower_app (a b : string) : Py.lower (a +:+ b) = Py.lower a +:+ Py.lower b.
Proof.
  induction a as [|c a IH]; [reflexivity|].
  rewrite str_app_cons. cbn [Py.lower]. rewrite str_app_cons, IH. reflexivity.
Qed.

Lemma after_last_dot_spec (s : string) (acc : option string) (e : string) :
  Py.after_last_dot s acc = Some e ->
  acc = Some e \/ exists pre, s = pre +:+ "." +:+ e.
Proof.
  revert acc; induction s as [|c s IH]; intros acc H; cbn in H.
  - left. exact H.
  - destruct (Ascii.eqb c ".") eqn:Ec.
    + apply Ascii.eqb_eq in Ec. subst c. right.
      destruct (IH _ H) as [Hacc|(pre & ->)].
      * injection Hacc as ->. exists ""%string. reflexivity.
      * exists (String "." pre). reflexivity.
    + destruct (IH _ H) as [Hacc|(pre & ->)]; [left; exact Hacc|].
      right. exists (String c pre). reflexivity.
Qed.

Lemma has_image_type_spec (f : string) :
  has_image_type f = true <->
  exists filetype pre post,
    In filetype ["jpeg"; "png"; "jpg"]%string /\
    Py.lower f = pre +:+ filetype +:+ post.
Proof.
  unfold has_image_type. rewrite existsb_exists. split.
  - intros (t & Ht & Hc). apply contains_spec in Hc. destruct Hc as (pre & post & Hc).
    exists t, pre, post. split; assumption.
  - intros (t & pre & post & Ht & Hc). exists t. split; [exact Ht|].
    apply contains_spec. exists pre, post. exact Hc.
Qed.

Lemma extension_has_image_type (f : string) :
  In (Py.lower (Py.extension f)) ["jpeg"; "jpg"; "png"]%string ->
  has_image_type f = true.
Proof.
  intros He. apply has_image_type_spec.
  unfold Py.extension in He.
  destruct (Py.after_last_dot f None) as [e|] eqn:E.
  - destruct (after_last_dot_spec _ _ _ E) as [?|(pre & ->)]; [discriminate|].
    exists (Py.lower e), (Py.lower pre +:+ "."), ""%string. split.
    + cbn in He |- *. tauto.
    + rewrite !lower_app, str_app_nil_r, str_app_assoc. reflexivity.
  - cbn in He. destruct He as [He|[He|[He|[]]]]; discriminate.
Qed.

Lemma collect_by_file (top : string) (es : list entry) :
  collect top es
  = map (fun '(d, f) => path_join d f)
        (filter (fun '(d, f) => has_image_type f = true) (files_under top es)).
Proof.
  unfold collect, files_under.
  induction (walk top es) as [|[[d ds] fs] l IH]; [reflexivity|].
  cbn [flat_map]. rewrite filter_app, map_app, <- IH. f_equal.
  clear. induction fs as [|f fs IHf]; [reflexivity|].
  cbn [map]. rewrite !filter_cons.
  destruct (decide (has_image_type f = true)); cbn [map]; rewrite IHf; reflexivity.
Qed.

Lemma init_inversion (root : list entry) (datapath : string) (B H W F cpi : Z) (self : t) :
  DataLoader.__init__ root datapath B H W F cpi = Ok self ->
  exists h_lr w_lr,
    Py.and_then (Py.truediv H F) Py.int_of_float = Ok h_lr /\
    Py.and_then (Py.truediv W F) Py.int_of_float = Ok w_lr /\
    self = {| datapath := datapath; batch_size := B;
              height_hr := H; height_lr := h_lr; width_hr := W; width_lr := w_lr;
              scale := F; crops_per_image := cpi;
              total_imgs := Z.of_nat (length (collect datapath root));
              options := [NEAREST; BILINEAR; BICUBIC; LANCZOS];
              img_paths := collect datapath root |}.
Proof.
  unfold DataLoader.__init__. intros Hinit.
  destruct (Py.and_then (Py.truediv H F) Py.int_of_float) as [h_lr|e]; [|discriminate].
  destruct (Py.and_then (Py.truediv W F) Py.int_of_float) as [w_lr|e]; [|discriminate].
  cbn [Py.and_then] in Hinit. injection Hinit as <-. eexists _, _. auto.
Qed.

(** C4, as the code has it. The pool is filled once, in [__init__], from
    one recursive walk, and a file below the root is in it exactly when
    its lower-cased name contains "jpeg", "png" or "jpg" somewhere. Every
    file whose extension is one of the three, in any case, is therefore
    in the pool. *)
Theorem pool_matches_by_substring
    (root : list entry) (datapath : string) (B H W F cpi : Z) (self : t) :
  DataLoader.__init__ root datapath B H W F cpi = Ok self ->
  img_paths self
    = map (fun '(d, f) => path_join d f)
          (filter (fun '(d, f) => has_image_type f = true) (files_under datapath root)) /\
  total_imgs self = Z.of_nat (length (img_paths self)) /\
  (forall f, has_image_type f = true <->
             exists filetype pre post,
               In filetype ["jpeg"; "png"; "jpg"]%string /\
               Py.lower f = pre +:+ filetype +:+ post) /\
  (forall f, In (Py.lower (Py.extension f)) ["jpeg"; "jpg"; "png"]%string ->
             has_image_type f = true).
Proof.
  intros Hinit. destruct (init_inversion _ _ _ _ _ _ _ _ Hinit) as (h_lr & w_lr & _ & _ & ->).
  cbn [img_paths total_imgs].
  split; [apply collect_by_file|]. split; [reflexivity|].
  split; [apply has_image_type_spec|apply extension_has_image_type].
Qed.

Lemma pool_matches_by_substring_witness :
  DataLoader.__init__ Demo.tree "d" 3 2 2 2 2 = Ok (Demo.loader 3 2) /\
  img_paths (Demo.loader 3 2)
    = map (fun '(d, f) => path_join d f)
          (filter (fun '(d, f) => has_image_type f = true) (files_under "d" Demo.tree)).
Proof.
  assert (H : DataLoader.__init__ Demo.tree "d" 3 2 2 2 2 = Ok (Demo.loader 3 2))
    by (vm_compute; reflexivity).
  split; [exact H|].
  exact (proj1 (pool_matches_by_substring Demo.tree "d" 3 2 2 2 2 (Demo.loader 3 2) H)).
Defined.

(** C4 as stated fails: "jpg.txt" has the extension "txt" and is in the pool. *)
Lemma pool_by_extension_counterexample :
  exists self,
    DataLoader.__init__ [File "jpg.txt"] "d" 1 2 2 2 1 = Ok self /\
    In ("d", "jpg.txt")%string (files_under "d" [File "jpg.txt"]) /\
    In (path_join "d" "jpg.txt") (img_paths self) /\
    ~ In (Py.lower (Py.extension "jpg.txt")) ["jpeg"; "jpg"; "png"]%string.
Proof.
  eexists. split; [vm_compute; reflexivity|].
  cbn [img_paths]. split; [|split].
  - vm_compute. left. reflexivity.
  - vm_compute. left. reflexivity.
  - vm_compute. intros [H|[H|[H|[]]]]; discriminate.
Qed.

(** ** Reasoning about the loader's computations *)

Section LoaderFacts.

Variable w : world.
Variable self : t.

Lemma bind_ok {S A B} (m : Py.M S A) (k : A -> Py.M S B) (s s' : S) (a : A) :
  m s = (Ok a, s') -> Py.bind m k s = k a s'.
Proof. intros H. unfold Py.bind. rewrite H. reflexivity. Qed.

Lemma bind_raise {S A B} (m : Py.M S A) (k : A -> Py.M S B) (s s' : S) (e : exn) :
  m s = (Raise e, s') -> Py.bind m k s = (Raise e, s').
Proof. intros H. unfold Py.bind. rewrite H. reflexivity. Qed.

Lemma preserves_ret {A} J (a : A) : preserves J (Py.ret a).
Proof. intros s H; exact H. Qed.

Lemma preserves_lift {A} J (r : result A) : preserves J (Py.lift r).
Proof. intros s H; exact H. Qed.

Lemma preserves_get J : preserves J Py.get.
Proof. intros s H; exact H. Qed.

Lemma preserves_bind {A B} J (m : DataLoader.M A) (k : A -> DataLoader.M B) :
  preserves J m -> (forall a, preserves J (k a)) -> preserves J (Py.bind m k).
Proof.
  intros Hm Hk s Hs. unfold Py.bind. specialize (Hm s Hs).
  destruct (m s) as [[a|e] s']; cbn [snd] in *; [apply Hk; exact Hm|exact Hm].
Qed.

Lemma preserves_bind_val {A B} J (Q : A -> Prop) (m : DataLoader.M A)
    (k : A -> DataLoader.M B) :
  preserves J m -> (forall s a, fst (m s) = Ok a -> Q a) ->
  (forall a, Q a -> preserves J (k a)) -> preserves J (Py.bind m k).
Proof.
  intros Hm HQ Hk s Hs. unfold Py.bind. specialize (Hm s Hs). specialize (HQ s).
  destruct (m s) as [[a|e] s']; cbn [fst snd] in *; [|exact Hm].
  apply Hk; [apply HQ; reflexivity|exact Hm].
Qed.

Lemma preserves_mapM {A B} J (f : A -> DataLoader.M B) (l : list A) :
  (forall a, preserves J (f a)) -> preserves J (Py.mapM f l).
Proof.
  intros Hf. induction l as [|a l IH]; cbn [Py.mapM]; [apply preserves_ret|].
  apply preserves_bind; [apply Hf|]. intros b.
  apply preserves_bind; [exact IH|]. intros bs. apply preserves_ret.
Qed.

Lemma preserves_randint J (lo hi : Z) :
  tick_stable J -> preserves J (randint w lo hi).
Proof.
  intros Ht s Hs. unfold randint. destruct (hi <=? lo); cbn [snd]; auto.
Qed.

Lemma preserves_choice {A} J (l : list A) :
  tick_stable J -> preserves J (choice w l).
Proof.
  intros Ht s Hs. unfold choice. destruct l; cbn [snd]; auto.
Qed.

Lemma preserves_load_img J (path : string) (training : bool) :
  tick_stable J -> preserves J (load_img w path training).
Proof.
  intros Ht. unfold load_img. apply preserves_bind; [apply preserves_lift|].
  intros img. destruct training; [|apply preserves_ret].
  apply preserves_bind; [apply preserves_randint; exact Ht|].
  intros flag. apply preserves_ret.
Qed.

Lemma preserves_random_crop J (img : image Z) (size : Z * Z) :
  tick_stable J -> preserves J (random_crop w img size).
Proof.
  intros Ht. unfold random_crop. destruct size as [dy dx].
  apply preserves_bind; [apply preserves_randint; exact Ht|]. intros x.
  apply preserves_bind; [apply preserves_randint; exact Ht|]. intros y.
  apply preserves_ret.
Qed.

Lemma preserves_downscale J (bicubic : bool) (img : image Z) :
  tick_stable J -> log_stable bicubic J -> store_stable J ->
  preserves J (downscale w self bicubic img).
Proof.
  intros Ht Hl Hs. unfold downscale.
  apply (preserves_bind_val J (fun m => bicubic = true -> m = BICUBIC)).
  { destruct bicubic; [apply preserves_ret|apply preserves_choice; exact Ht]. }
  { intros s m Hm Hb. subst bicubic. cbn in Hm. congruence. }
  intros m Hmb. apply preserves_bind; [apply preserves_lift|]. intros lw.
  apply preserves_bind; [apply preserves_lift|]. intros lh.
  apply preserves_bind.
  { intros s HJ. unfold pil_resize. cbn [snd]. apply Hl; assumption. }
  intros lr s HJ. unfold Py.modify. cbn [snd]. apply Hs; exact HJ.
Qed.

Lemma preserves_downscale_loop J img_paths (bicubic : bool) (crops : list (image Z)) :
  tick_stable J -> log_stable bicubic J -> store_stable J -> wrap_stable self img_paths J ->
  preserves J (downscale_loop w self img_paths bicubic crops).
Proof.
  intros Ht Hl Hs Hw. induction crops as [|c crops IH]; [apply preserves_ret|].
  intros s HJ. cbn [downscale_loop].
  specialize (Hw s HJ). destruct (batch_done self img_paths s) as [done s1].
  cbn [snd] in Hw. destruct done; [exact Hw|].
  apply (preserves_bind J); [apply preserves_downscale; assumption| |exact Hw].
  intros _. exact IH.
Qed.

Lemma preserves_try_body J img_paths (training bicubic : bool) :
  tick_stable J -> log_stable bicubic J -> store_stable J -> wrap_stable self img_paths J ->
  preserves J (try_body w self img_paths training bicubic).
Proof.
  intros Ht Hl Hs Hw. unfold try_body.
  apply preserves_bind; [apply preserves_get|]. intros s0.
  apply preserves_bind; [apply preserves_lift|]. intros path.
  apply preserves_bind; [apply preserves_load_img; exact Ht|]. intros img.
  apply preserves_bind.
  { destruct training; [|apply preserves_ret].
    apply preserves_mapM. intros _. apply preserves_random_crop; exact Ht. }
  intros crops. apply preserves_downscale_loop; assumption.
Qed.

(** ** The cursor *)

Lemma wrapped_idem img_paths (c : Z) :
  wrapped self img_paths (wrapped self img_paths c) = wrapped self img_paths c.
Proof.
  unfold wrapped. destruct img_paths; [reflexivity|].
  destruct (total_imgs self <=? c) eqn:E; [|rewrite E; reflexivity].
  destruct (total_imgs self <=? 0); reflexivity.
Qed.

Lemma batch_done_cur img_paths (s : loop_state) :
  cur_idx (snd (batch_done self img_paths s)) = wrapped self img_paths (cur_idx s).
Proof.
  unfold batch_done, wrapped. destruct img_paths; [reflexivity|].
  destruct (total_imgs self <=? cur_idx s); reflexivity.
Qed.

Lemma batch_done_imgs img_paths (s : loop_state) :
  imgs_hr (snd (batch_done self img_paths s)) = imgs_hr s /\
  imgs_lr (snd (batch_done self img_paths s)) = imgs_lr s /\
  draws (snd (batch_done self img_paths s)) = draws s /\
  resize_calls (snd (batch_done self img_paths s)) = resize_calls s.
Proof.
  unfold batch_done. destruct img_paths; [cbn; auto|].
  destruct (total_imgs self <=? cur_idx s); cbn; auto.
Qed.

Lemma batch_done_test img_paths (s : loop_state) :
  fst (batch_done self img_paths s)
  = match img_paths with
    | None => batch_size self <=? Z.of_nat (length (imgs_hr s))
    | Some ps => Z.of_nat (length (imgs_hr s)) =? Z.of_nat (length ps)
    end.
Proof.
  unfold batch_done. destruct img_paths; [reflexivity|].
  destruct (total_imgs self <=? cur_idx s); reflexivity.
Qed.

Lemma try_body_cur img_paths (training bicubic : bool) (s : loop_state) :
  cur_idx s = wrapped self img_paths (cur_idx s) ->
  cur_idx (snd (try_body w self img_paths training bicubic s)) = cur_idx s.
Proof.
  intros Hc.
  apply (preserves_try_body (fun s' => cur_idx s' = cur_idx s) img_paths training bicubic);
    try (intros ? **; cbn; assumption); [|reflexivity].
  intros s' Hs'. rewrite batch_done_cur, Hs'. symmetry. exact Hc.
Qed.

(** A turn that does not leave the loop moves the cursor one past the
    candidate it looked at, whatever happened in the [try]. *)
Lemma iteration_continues img_paths (training bicubic : bool) (s : loop_state) :
  fst (batch_done self img_paths s) = false ->
  exists s',
    iteration w self img_paths training bicubic s = inl s' /\
    cur_idx s' = wrapped self img_paths (cur_idx s) + 1 /\
    s' = set_cur (wrapped self img_paths (cur_idx s) + 1)
           (snd (try_body w self img_paths training bicubic (snd (batch_done self img_paths s)))).
Proof.
  intros Hd. unfold iteration.
  pose proof (batch_done_cur img_paths s) as Hc.
  destruct (batch_done self img_paths s) as [done s1]. cbn [fst snd] in *. subst done.
  pose proof (try_body_cur img_paths training bicubic s1) as Ht.
  destruct (try_body w self img_paths training bicubic s1) as [r s2]. cbn [snd] in *.
  rewrite Ht by (rewrite Hc, wrapped_idem; reflexivity).
  rewrite Hc. eexists. split; [reflexivity|]. split; reflexivity.
Qed.

Lemma iteration_breaks img_paths (training bicubic : bool) (s : loop_state) :
  fst (batch_done self img_paths s) = true ->
  iteration w self img_paths training bicubic s = inr (snd (batch_done self img_paths s)).
Proof.
  intros Hd. unfold iteration.
  destruct (batch_done self img_paths s) as [done s1]. cbn [fst snd] in *. subst done.
  reflexivity.
Qed.

(** ** The loop under fuel *)

Lemma while_true_more img_paths (training bicubic : bool) (fuel extra : nat)
    (s r : loop_state) :
  while_true w self fuel img_paths training bicubic s = Some r ->
  while_true w self (fuel + extra) img_paths training bicubic s = Some r.
Proof.
  revert s; induction fuel as [|fuel IH]; intros s H; [discriminate|].
  cbn [while_true Nat.add] in *.
  destruct (iteration w self img_paths training bicubic s); [apply IH|]; exact H.
Qed.

(** A loop whose every turn goes on under an invariant never returns. *)
Lemma while_true_never img_paths (training bicubic : bool) (I : loop_state -> Prop) :
  (forall s, I s -> exists s', iteration w self img_paths training bicubic s = inl s' /\ I s') ->
  forall fuel s, I s -> while_true w self fuel img_paths training bicubic s = None.
Proof.
  intros Hstep. induction fuel as [|fuel IH]; intros s Hs; [reflexivity|].
  cbn [while_true]. destruct (Hstep s Hs) as (s' & -> & Hs'). apply IH; exact Hs'.
Qed.

(** A loop whose every turn either leaves with [Post] or goes on under an
    invariant with a smaller measure returns, with [Post]. *)
Lemma while_true_returns img_paths (training bicubic : bool)
    (I Post : loop_state -> Prop) (mu : loop_state -> nat) :
  (forall s, I s ->
     (exists r, iteration w self img_paths training bicubic s = inr r /\ Post r) \/
     (exists s', iteration w self img_paths training bicubic s = inl s' /\ I s' /\
                 (mu s' < mu s)%nat)) ->
  forall s, I s ->
    exists fuel r, while_true w self fuel img_paths training bicubic s = Some r /\ Post r.
Proof.
  intros Hstep s. remember (mu s) as n eqn:Hn. revert s Hn.
  induction n as [n IH] using lt_wf_ind. intros s Hn Hs.
  destruct (Hstep s Hs) as [(r & Hit & Hr)|(s' & Hit & Hs' & Hlt)].
  - exists 1%nat, r. cbn [while_true]. rewrite Hit. split; [reflexivity|exact Hr].
  - subst n. destruct (IH (mu s') Hlt s' eq_refl Hs') as (fuel & r & Hrun & Hr).
    exists (S fuel), r. cbn [while_true]. rewrite Hit. split; assumption.
Qed.

(** An invariant of the turns holds after any number of them. *)
Lemma after_turns_invariant img_paths (training bicubic : bool) (I : loop_state -> Prop) :
  (forall s s', I s -> iteration w self img_paths training bicubic s = inl s' -> I s') ->
  (forall s s', I s -> iteration w self img_paths training bicubic s = inr s' -> I s') ->
  forall n s, I s -> I (after_turns w self n img_paths training bicubic s).
Proof.
  intros Hl Hr. induction n as [|n IH]; intros s Hs; [exact Hs|].
  cbn [after_turns].
  destruct (iteration w self img_paths training bicubic s) as [s'|s'] eqn:E.
  - apply IH. eapply Hl; eassumption.
  - eapply Hr; eassumption.
Qed.

End LoaderFacts.

(** ** Length and cursor *)

Section Cursor.

Variable w : world.
Variable self : t.

Lemma iteration_inl img_paths (training bicubic : bool) (s s' : loop_state) :
  iteration w self img_paths training bicubic s = inl s' ->
  fst (batch_done self img_paths s) = false /\
  cur_idx s' = wrapped self img_paths (cur_idx s) + 1 /\
  s' = set_cur (wrapped self img_paths (cur_idx s) + 1)
         (snd (try_body w self img_paths training bicubic (snd (batch_done self img_paths s)))).
Proof.
  intros H. destruct (fst (batch_done self img_paths s)) eqn:E.
  - rewrite (iteration_breaks w self _ _ _ _ E) in H. discriminate.
  - destruct (iteration_continues w self img_paths training bicubic s E) as (s2 & H2 & Hc & Hs).
    rewrite H2 in H. injection H as <-. auto.
Qed.

Lemma iteration_inr img_paths (training bicubic : bool) (s s' : loop_state) :
  iteration w self img_paths training bicubic s = inr s' ->
  fst (batch_done self img_paths s) = true /\ s' = snd (batch_done self img_paths s).
Proof.
  intros H. destruct (fst (batch_done self img_paths s)) eqn:E.
  - rewrite (iteration_breaks w self _ _ _ _ E) in H. injection H as <-. auto.
  - destruct (iteration_continues w self img_paths training bicubic s E) as (s2 & H2 & _).
    rewrite H2 in H. discriminate.
Qed.

Lemma wrapped_range (c : Z) :
  0 <= c -> 0 <= wrapped self None c /\ (0 < total_imgs self -> wrapped self None c < total_imgs self).
Proof.
  intros Hc. unfold wrapped. destruct (total_imgs self <=? c) eqn:E; lia.
Qed.

Lemma index_in_range {A} (l : list A) (i : Z) :
  0 <= i < Z.of_nat (length l) ->
  exists x, Py.index l i = Ok x /\ l !! Z.to_nat i = Some x.
Proof.
  intros Hi. unfold Py.index.
  destruct (i <? 0) eqn:E1; [lia|]. rewrite E1. cbn [orb].
  destruct (Z.of_nat (length l) <=? i) eqn:E2; [lia|].
  destruct (lookup_lt_is_Some_2 l (Z.to_nat i)) as [x Hx]; [lia|].
  exists x. rewrite Hx. auto.
Qed.

Lemma index_past_end {A} (l : list A) (i : Z) :
  Z.of_nat (length l) <= i -> Py.index l i = Raise IndexError.
Proof.
  intros Hi. unfold Py.index.
  destruct (i <? 0) eqn:E1; [lia|]. rewrite E1. cbn [orb].
  destruct (Z.of_nat (length l) <=? i) eqn:E2; [reflexivity|lia].
Qed.

Lemma len_value :
  0 <= total_imgs self < 2 ^ 53 -> 0 < batch_size self < 2 ^ 1023 ->
  DataLoader.__len__ self = Ok (total_imgs self / batch_size self).
Proof.
  intros HT HB. unfold DataLoader.__len__, Py.truediv_by_float.
  rewrite (float_of_int_small (total_imgs self)) by lia.
  destruct (Qnum_inject (total_imgs self)) as (Hn & Hd).
  assert (H53 : 0 < 2 ^ 53) by (apply Z.pow_pos_nonneg; lia).
  destruct (float_of_int_finite (batch_size self) HB) as (v & Hv).
  rewrite Hv. cbn [Py.and_then]. rewrite Hn, Hd.
  assert (Hb : QDen v = 1 /\ 0 < Qnum v /\
               total_imgs self / Qnum v = total_imgs self / batch_size self).
  { destruct (Z_lt_le_dec (batch_size self) (2 ^ 53)) as [Hs|Hbig].
    - rewrite float_of_int_small in Hv by lia. injection Hv as <-.
      destruct (Qnum_inject (batch_size self)) as (-> & ->).
      split; [reflexivity|]. split; [lia|reflexivity].
    - destruct (float_of_int_big _ _ Hbig Hv) as (Hden & Hnum).
      split; [exact Hden|]. split; [lia|].
      rewrite !Z.div_small by lia. reflexivity. }
  destruct Hb as (Hden & Hpos & Hq). rewrite Hden.
  destruct (Qnum v =? 0) eqn:E; [apply Z.eqb_eq in E; lia|].
  rewrite Z.mul_1_r, Z.mul_1_l.
  destruct (nearest_double_trunc (total_imgs self) (Qnum v)) as (x & -> & Hx); [lia|lia|].
  cbn [Py.and_then Py.int_of_float]. rewrite Hx, Z.quot_div_nonneg by lia.
  rewrite Hq. reflexivity.
Qed.

Lemma len_overflow :
  2 ^ 1024 <= batch_size self -> DataLoader.__len__ self = Raise OverflowError.
Proof.
  intros HB. unfold DataLoader.__len__.
  rewrite float_of_int_overflow by lia. reflexivity.
Qed.

(** The turn that the loop makes after [n] turns is its last one of
    [n + 1]. *)
Lemma after_turns_last img_paths (training bicubic : bool) (n : nat) (s : loop_state) :
  while_true w self (S n) img_paths training bicubic s = None ->
  while_true w self n img_paths training bicubic s = None /\
  iteration w self img_paths training bicubic
    (after_turns w self n img_paths training bicubic s)
  = inl (after_turns w self (S n) img_paths training bicubic s).
Proof.
  revert s. induction n as [|n IH]; intros s H.
  - cbn [while_true after_turns] in *.
    destruct (iteration w self img_paths training bicubic s); [auto|discriminate].
  - cbn [while_true] in H.
    change (after_turns w self (S (S n)) img_paths training bicubic s)
      with (match iteration w self img_paths training bicubic s with
            | inr s' => s'
            | inl s' => after_turns w self (S n) img_paths training bicubic s'
            end).
    change (after_turns w self (S n) img_paths training bicubic s)
      with (match iteration w self img_paths training bicubic s with
            | inr s' => s'
            | inl s' => after_turns w self n img_paths training bicubic s'
            end).
    change (while_true w self (S n) img_paths training bicubic s)
      with (match iteration w self img_paths training bicubic s with
            | inr s' => Some s'
            | inl s' => while_true w self n img_paths training bicubic s'
            end).
    destruct (iteration w self img_paths training bicubic s) as [s'|s'];
      [apply IH; exact H|discriminate].
Qed.

Lemma batch_done_state (s : loop_state) :
  snd (batch_done self None s) = set_cur (wrapped self None (cur_idx s)) s.
Proof.
  unfold batch_done, wrapped. cbn [snd].
  destruct (total_imgs self <=? cur_idx s); [reflexivity|]. destruct s; reflexivity.
Qed.

Lemma wrapped_next (x : Z) :
  0 < total_imgs self ->
  wrapped self None (x mod total_imgs self + 1) = (x + 1) mod total_imgs self.
Proof.
  intros HT. pose proof (Z.mod_pos_bound x (total_imgs self) HT) as Hr.
  rewrite <- (Z.add_mod_idemp_l x 1) by lia. unfold wrapped.
  destruct (total_imgs self <=? x mod total_imgs self + 1) eqn:E.
  - replace (x mod total_imgs self + 1) with (total_imgs self) by lia.
    rewrite Z.mod_same by lia. reflexivity.
  - rewrite (Z.mod_small (x mod total_imgs self + 1)) by lia. reflexivity.
Qed.

(** A turn over a pool that is not empty reads the candidate under the
    wrapped cursor, and no other. *)
Lemma turn_reads_candidate (training bicubic : bool) (s s' : loop_state) :
  total_imgs self = Z.of_nat (length (img_paths self)) ->
  0 < total_imgs self -> 0 <= cur_idx s ->
  iteration w self None training bicubic s = inl s' ->
  exists p,
    img_paths self !! Z.to_nat (wrapped self None (cur_idx s)) = Some p /\
    s' = set_cur (wrapped self None (cur_idx s) + 1)
           (snd (with_candidate w self p training bicubic
                   (set_cur (wrapped self None (cur_idx s)) s))).
Proof.
  intros Htotal HT Hcur Hit.
  apply iteration_inl in Hit. destruct Hit as (_ & _ & ->).
  destruct (wrapped_range (cur_idx s) Hcur) as (Hr0 & Hr1). specialize (Hr1 HT).
  destruct (index_in_range (img_paths self) (wrapped self None (cur_idx s)))
    as (p & Hidx & Hp); [lia|].
  exists p. split; [exact Hp|]. f_equal. f_equal.
  rewrite batch_done_state.
  set (s1 := set_cur (wrapped self None (cur_idx s)) s).
  unfold try_body, with_candidate.
  rewrite (bind_ok Py.get _ s1 s1 s1 eq_refl).
  rewrite (bind_ok _ _ s1 s1 p) by (unfold Py.lift; cbv iota; cbn [cur_idx s1 set_cur]; rewrite Hidx; reflexivity).
  reflexivity.
Qed.

Lemma scan_position (k0 : nat) (idx : Z) (training bicubic : bool) (n : nat) :
  0 < total_imgs self -> 0 < batch_size self -> 0 <= idx ->
  while_true w self n None training bicubic (entry_state self k0 idx None) = None ->
  0 <= cur_idx (after_turns w self n None training bicubic (entry_state self k0 idx None)) /\
  wrapped self None
    (cur_idx (after_turns w self n None training bicubic (entry_state self k0 idx None)))
  = (wrapped self None (idx * batch_size self) + Z.of_nat n) mod total_imgs self.
Proof.
  intros HT HB Hidx. induction n as [|n IH]; intros Hrun.
  - cbn [after_turns entry_state cur_idx]. split; [nia|].
    rewrite Z.add_0_r, Z.mod_small; [reflexivity|].
    destruct (wrapped_range (idx * batch_size self)) as (? & Hlt); [nia|].
    specialize (Hlt HT). lia.
  - destruct (after_turns_last None training bicubic n _ Hrun) as (Hrun' & Hit).
    destruct (IH Hrun') as (H0 & Hw).
    apply iteration_inl in Hit. destruct Hit as (_ & Hc & _).
    rewrite Hc, Hw.
    pose proof (Z.mod_pos_bound (wrapped self None (idx * batch_size self) + Z.of_nat n)
                  (total_imgs self) HT) as Hr.
    split; [lia|]. rewrite wrapped_next by exact HT. f_equal. lia.
Qed.

(** C6, as the code has it. For a pool of fewer than 2^53 images and a
    batch size from 1 to below 2^1023, [__len__] is floor(pool size /
    batch size); for a batch size of 2^1024 or more it raises
    OverflowError, [float(batch_size)] being out of range. For an index
    [idx >= 0], whether below [__len__] or not, [load_batch] enters its
    loop with the cursor at [idx * batch_size], and the turns of the
    scan read the pool one candidate after the other from that
    position, taken for 0 when it is at or past the end, and from the
    last candidate on to the first again: the turn after [n] turns reads
    the candidate at position [(start + n) mod pool size] and no other,
    and leaves the cursor behind it. On an empty pool every turn ends
    with the batch as it was and the cursor at 1: the IndexError does
    not leave the loop. *)
Theorem length_and_cursor_wrap (k0 : nat) (idx : Z) (training bicubic : bool) :
  total_imgs self = Z.of_nat (length (img_paths self)) ->
  0 < batch_size self ->
  0 <= idx ->
  (total_imgs self < 2 ^ 53 -> batch_size self < 2 ^ 1023 ->
   DataLoader.__len__ self = Ok (total_imgs self / batch_size self)) /\
  (2 ^ 1024 <= batch_size self -> DataLoader.__len__ self = Raise OverflowError) /\
  cur_idx (entry_state self k0 idx None) = idx * batch_size self /\
  (0 < total_imgs self ->
   forall n,
     while_true w self (S n) None training bicubic (entry_state self k0 idx None) = None ->
     let start := if total_imgs self <=? idx * batch_size self
                  then 0 else idx * batch_size self in
     let c := (start + Z.of_nat n) mod total_imgs self in
     exists p,
       img_paths self !! Z.to_nat c = Some p /\
       after_turns w self (S n) None training bicubic (entry_state self k0 idx None)
       = set_cur (c + 1)
           (snd (with_candidate w self p training bicubic
                   (set_cur c (after_turns w self n None training bicubic
                                 (entry_state self k0 idx None)))))) /\
  (total_imgs self = 0 ->
   forall n,
     while_true w self n None training bicubic (entry_state self k0 idx None) = None /\
     after_turns w self (S n) None training bicubic (entry_state self k0 idx None)
     = set_cur 1 (entry_state self k0 idx None)).
Proof.
  intros Htotal HB Hidx. split; [|split; [|split; [|split]]].
  - intros HT HB'. apply len_value; lia.
  - apply len_overflow.
  - reflexivity.
  - intros HT n Hrun start c.
    destruct (after_turns_last None training bicubic n _ Hrun) as (Hrun' & Hit).
    destruct (scan_position k0 idx training bicubic n HT HB Hidx Hrun') as (H0 & Hw).
    destruct (turn_reads_candidate training bicubic _ _ Htotal HT H0 Hit) as (p & Hp & Hs).
    fold start in Hw. change (wrapped self None (idx * batch_size self)) with start in Hw.
    fold c in Hw. rewrite Hw in Hp, Hs. exists p. split; [exact Hp|exact Hs].
  - intros HT.
    assert (Hturn : forall s, imgs_hr s = [] -> 0 <= cur_idx s ->
              iteration w self None training bicubic s = inl (set_cur 1 s)).
    { intros s Hs Hc.
      destruct (iteration_continues w self None training bicubic s) as (s' & Hit & _ & Hs').
      { rewrite batch_done_test, Hs. cbn [length]. apply Z.leb_gt. lia. }
      rewrite Hit, Hs'. f_equal. rewrite batch_done_state.
      assert (Hw : wrapped self None (cur_idx s) = 0).
      { unfold wrapped. destruct (total_imgs self <=? cur_idx s) eqn:E; lia. }
      rewrite Hw. unfold try_body.
      rewrite (bind_ok Py.get _ _ _ _ eq_refl).
      rewrite (bind_raise _ _ (set_cur 0 s) (set_cur 0 s) IndexError).
      - reflexivity.
      - unfold Py.lift. cbv iota. cbn [cur_idx set_cur].
        rewrite index_past_end by lia. reflexivity. }
    assert (Hall : forall n s, imgs_hr s = [] -> 0 <= cur_idx s ->
              while_true w self n None training bicubic s = None /\
              after_turns w self (S n) None training bicubic s = set_cur 1 s).
    { induction n as [|n IH]; intros s Hs Hc.
      - cbn [while_true after_turns]. rewrite (Hturn s Hs Hc). auto.
      - destruct (IH (set_cur 1 s) Hs) as (IH1 & IH2); [cbn; lia|].
        split.
        + cbn [while_true]. rewrite (Hturn s Hs Hc). exact IH1.
        + change (after_turns w self (S (S n)) None training bicubic s)
            with (match iteration w self None training bicubic s with
                  | inr s' => s'
                  | inl s' => after_turns w self (S n) None training bicubic s'
                  end).
          rewrite (Hturn s Hs Hc), IH2. reflexivity. }
    intros n. apply Hall; [reflexivity|]. cbn [entry_state cur_idx]. nia.
Qed.

End Cursor.

Lemma length_and_cursor_wrap_witness :
  total_imgs (Demo.loader 2 1) = Z.of_nat (length (img_paths (Demo.loader 2 1))) /\
  DataLoader.__len__ (Demo.loader 2 1) = Ok 1 /\
  cur_idx (entry_state (Demo.loader 2 1) 0 5 None) = 10 /\
  while_true Demo.disk (Demo.loader 2 1) 1 None true false
    (entry_state (Demo.loader 2 1) 0 5 None) = None /\
  exists p,
    img_paths (Demo.loader 2 1) !! 0%nat = Some p /\
    cur_idx (after_turns Demo.disk (Demo.loader 2 1) 1 None true false
               (entry_state (Demo.loader 2 1) 0 5 None)) = 1.
Proof.
  assert (Ht : total_imgs (Demo.loader 2 1) = Z.of_nat (length (img_paths (Demo.loader 2 1))))
    by reflexivity.
  assert (Hrun : while_true Demo.disk (Demo.loader 2 1) 1 None true false
                   (entry_state (Demo.loader 2 1) 0 5 None) = None)
    by (vm_compute; reflexivity).
  destruct (length_and_cursor_wrap Demo.disk (Demo.loader 2 1) 0 5 true false Ht)
    as (Hlen & _ & Hentry & Hscan & _); [simpl; lia|lia|].
  split; [exact Ht|]. split.
  { apply Hlen; [simpl|simpl]; [reflexivity|reflexivity]. }
  split; [exact Hentry|]. split; [exact Hrun|].
  destruct (Hscan ltac:(simpl; lia) 0%nat Hrun) as (p & Hp & Hs).
  exists p. split; [exact Hp|]. rewrite Hs. reflexivity.
Defined.

(** C6 as stated fails beyond the floats: with a batch size of 10^309
    over three images, floor(pool size / batch size) is 0, and
    [__len__] raises OverflowError. *)
Lemma length_beyond_floats_counterexample :
  total_imgs (Demo.loader (10 ^ 309) 1) / batch_size (Demo.loader (10 ^ 309) 1) = 0 /\
  DataLoader.__len__ (Demo.loader (10 ^ 309) 1) = Raise OverflowError /\
  DataLoader.__len__ (Demo.loader (10 ^ 309) 1)
  <> Ok (total_imgs (Demo.loader (10 ^ 309) 1) / batch_size (Demo.loader (10 ^ 309) 1)).
Proof.
  split; [vm_compute; reflexivity|].
  assert (H : DataLoader.__len__ (Demo.loader (10 ^ 309) 1) = Raise OverflowError)
    by (vm_compute; reflexivity).
  split; [exact H|]. rewrite H. discriminate.
Qed.

(** ** Samples that fail *)

Section Skip.

Variable w : world.
Variable self : t.

Lemma same_batch_refl (s : loop_state) : same_batch s s.
Proof. repeat split. Qed.

Lemma same_batch_tick (s0 : loop_state) : tick_stable (same_batch s0).
Proof. intros s H. exact H. Qed.

Lemma height_flip {A} (img : image A) :
  Raster.height (flip_left_right img) = Raster.height img.
Proof. unfold Raster.height, flip_left_right. rewrite length_map. reflexivity. Qed.

Lemma width_flip {A} (img : image A) :
  Raster.width (flip_left_right img) = Raster.width img.
Proof. destruct img as [|row img]; cbn; [reflexivity|]. rewrite length_rev. reflexivity. Qed.

Lemma random_crop_undersized (img : image Z) (dy dx : Z) (s : loop_state) :
  Raster.height img < dy \/ Raster.width img < dx ->
  same_batch s (snd (random_crop w img (dy, dx) s)) /\
  exists e, fst (random_crop w img (dy, dx) s) = Raise e.
Proof.
  intros Hsmall. split.
  - apply (preserves_random_crop w _ img (dy, dx) (same_batch_tick s)), same_batch_refl.
  - unfold random_crop, Py.bind, randint.
    destruct (Raster.width img - dx + 1 <=? 0) eqn:Ex; [eexists; reflexivity|].
    destruct (Raster.height img - dy + 1 <=? 0) eqn:Ey; [eexists; reflexivity|].
    lia.
Qed.

Lemma crops_undersized (img : image Z) (dy dx : Z) (l : list Z) (s : loop_state) :
  Raster.height img < dy \/ Raster.width img < dx ->
  same_batch s (snd (Py.mapM (fun _ => random_crop w img (dy, dx)) l s)) /\
  (fst (Py.mapM (fun _ => random_crop w img (dy, dx)) l s) = Ok [] \/
   exists e, fst (Py.mapM (fun _ => random_crop w img (dy, dx)) l s) = Raise e).
Proof.
  intros Hsmall. destruct l as [|a l]; cbn [Py.mapM].
  - split; [apply same_batch_refl|left; reflexivity].
  - destruct (random_crop_undersized img dy dx s Hsmall) as (Hsame & e & He).
    destruct (random_crop w img (dy, dx) s) as [r s'] eqn:E.
    cbn [fst snd] in *. subst r. rewrite (bind_raise _ _ _ _ _ E).
    split; [exact Hsame|right; eexists; reflexivity].
Qed.

(** C8. While an indexed batch is filled, a candidate that cannot be
    opened or decoded, or that is smaller than the crop, adds no pair and
    does not stop the loop: the turn ends with the pairs as they were and
    the cursor on the next candidate. Whatever the [try] raises, the turn
    goes on in the same way and nothing reaches the caller. *)
Theorem sample_failure_is_skipped (training bicubic : bool) (s : loop_state) :
  fst (batch_done self None s) = false ->
  (forall path,
     Py.index (img_paths self) (wrapped self None (cur_idx s)) = Ok path ->
     (exists e, Image_open w path = Raise e) \/
     (training = true /\
      exists img, Image_open w path = Ok img /\
                  (Raster.height img < height_hr self \/ Raster.width img < width_hr self)) ->
     exists s',
       iteration w self None training bicubic s = inl s' /\
       cur_idx s' = wrapped self None (cur_idx s) + 1 /\
       imgs_hr s' = imgs_hr s /\ imgs_lr s' = imgs_lr s) /\
  (forall e,
     fst (try_body w self None training bicubic (snd (batch_done self None s))) = Raise e ->
     exists s',
       iteration w self None training bicubic s = inl s' /\
       cur_idx s' = wrapped self None (cur_idx s) + 1).
Proof.
  intros Hd.
  destruct (iteration_continues w self None training bicubic s Hd) as (s' & Hit & Hcur & Hs').
  split.
  - intros path Hidx Hfail. exists s'. split; [exact Hit|]. split; [exact Hcur|].
    pose proof (batch_done_cur self None s) as Hc1.
    destruct (batch_done_imgs self None s) as (Hhr & Hlr & _).
    set (s1 := snd (batch_done self None s)) in *.
    assert (Hsame : same_batch s1 (snd (try_body w self None training bicubic s1))).
    { unfold try_body.
      rewrite (bind_ok Py.get _ s1 s1 s1 eq_refl).
      rewrite Hc1.
      destruct Hfail as [(e & He)|(-> & img & Himg & Hsmall)].
      - rewrite (bind_ok _ _ s1 s1 path) by (unfold Py.lift; rewrite Hidx; reflexivity).
        rewrite (bind_raise _ _ s1 s1 e); [apply same_batch_refl|].
        unfold load_img. apply bind_raise. unfold Py.lift. rewrite He. reflexivity.
      - rewrite (bind_ok _ _ s1 s1 path) by (unfold Py.lift; rewrite Hidx; reflexivity).
        set (img' := if 3 <? 0 + rnd w (draws s1) mod (8 - 0)
                     then flip_left_right img else img).
        rewrite (bind_ok _ _ s1 (tick s1) img').
        2:{ unfold load_img. rewrite (bind_ok _ _ s1 s1 img)
              by (unfold Py.lift; rewrite Himg; reflexivity).
            rewrite (bind_ok _ _ s1 (tick s1) (0 + rnd w (draws s1) mod (8 - 0)))
              by reflexivity.
            reflexivity. }
        assert (Hsmall' : Raster.height img' < height_hr self \/
                          Raster.width img' < width_hr self).
        { subst img'. destruct (3 <? _); [rewrite height_flip, width_flip|]; exact Hsmall. }
        destruct (crops_undersized img' (height_hr self) (width_hr self)
                    (Py.range (crops_per_image self)) (tick s1) Hsmall') as (Hsame & Hres).
        destruct (Py.mapM _ _ (tick s1)) as [r s2] eqn:E. cbn [fst snd] in *.
        destruct Hres as [->|(e & ->)].
        + rewrite (bind_ok _ _ _ _ _ E). exact Hsame.
        + rewrite (bind_raise _ _ _ _ _ E). exact Hsame. }
    destruct Hsame as (_ & H1 & H2). subst s'. cbn [imgs_hr imgs_lr set_cur].
    rewrite H1, H2. auto.
  - intros e _. exists s'. auto.
Qed.

End Skip.

Lemma sample_failure_is_skipped_witness :
  fst (batch_done (Demo.loader 2 1) None (entry_state (Demo.loader 2 1) 0 1 None)) = false /\
  exists s',
    iteration Demo.disk (Demo.loader 2 1) None true false
      (entry_state (Demo.loader 2 1) 0 1 None) = inl s' /\
    cur_idx s' = 3 /\ imgs_hr s' = [] /\ imgs_lr s' = [].
Proof.
  assert (H : fst (batch_done (Demo.loader 2 1) None (entry_state (Demo.loader 2 1) 0 1 None))
              = false) by reflexivity.
  split; [exact H|].
  destruct (sample_failure_is_skipped Demo.disk (Demo.loader 2 1) true false
              (entry_state (Demo.loader 2 1) 0 1 None) H) as [Hskip _].
  apply (Hskip "d/c.png"%string); [reflexivity|].
  left. exists IOError. reflexivity.
Defined.

(** ** Pools without a usable candidate *)

Section Unusable.

Variable w : world.
Variable self : t.
Variable bicubic : bool.

Lemma index_In {A} (l : list A) (i : Z) (x : A) : Py.index l i = Ok x -> In x l.
Proof.
  unfold Py.index. intros H.
  destruct ((_ <? 0) || _); [discriminate|].
  destruct (l !! _) as [y|] eqn:E; [|discriminate]. injection H as <-.
  apply list_elem_of_In. eapply list_elem_of_lookup_2. exact E.
Qed.

Lemma range_nonpos (n : Z) : n <= 0 -> Py.range n = [].
Proof.
  intros Hn. unfold Py.range. replace (Z.to_nat n) with 0%nat by lia. reflexivity.
Qed.

(** In training, a turn over a pool without a usable candidate, or with
    no crop asked of an image, stores nothing. *)
Lemma try_body_unusable (s : loop_state) :
  crops_per_image self <= 0 \/
  (forall p, In p (img_paths self) -> valid_image w self p = false) ->
  imgs_hr (snd (try_body w self None true bicubic s)) = imgs_hr s.
Proof.
  intros Hbad. unfold try_body.
  rewrite (bind_ok Py.get _ s s s eq_refl).
  destruct (Py.index (img_paths self) (cur_idx s)) as [path|e] eqn:Hidx.
  2:{ rewrite (bind_raise _ _ s s e) by (unfold Py.lift; cbv iota; try rewrite Hidx; reflexivity).
      reflexivity. }
  rewrite (bind_ok _ _ s s path) by (unfold Py.lift; cbv iota; try rewrite Hidx; reflexivity).
  destruct (Image_open w path) as [img|e] eqn:Hopen.
  2:{ rewrite (bind_raise _ _ s s e); [reflexivity|].
      unfold load_img. apply bind_raise. unfold Py.lift. rewrite Hopen. reflexivity. }
  set (img' := if 3 <? 0 + rnd w (draws s) mod (8 - 0) then flip_left_right img else img).
  rewrite (bind_ok _ _ s (tick s) img').
  2:{ unfold load_img. rewrite (bind_ok _ _ s s img)
        by (unfold Py.lift; rewrite Hopen; reflexivity).
      rewrite (bind_ok _ _ s (tick s) (0 + rnd w (draws s) mod (8 - 0))) by reflexivity.
      reflexivity. }
  destruct Hbad as [Hcpi|Hnone].
  - rewrite (range_nonpos _ Hcpi). cbn [Py.mapM].
    rewrite (bind_ok (Py.ret []) _ (tick s) (tick s) [] eq_refl). reflexivity.
  - specialize (Hnone path (index_In _ _ _ Hidx)).
    unfold valid_image in Hnone. rewrite Hopen in Hnone.
    assert (Hsmall : Raster.height img' < height_hr self \/ Raster.width img' < width_hr self).
    { subst img'. destruct (3 <? _); [rewrite height_flip, width_flip|];
        apply andb_false_iff in Hnone; destruct Hnone as [H|H]; apply Z.leb_gt in H; auto. }
    destruct (crops_undersized w img' (height_hr self) (width_hr self)
                (Py.range (crops_per_image self)) (tick s) Hsmall) as ((_ & Hh & _) & Hres).
    destruct (Py.mapM _ _ (tick s)) as [r s2] eqn:E. cbn [fst snd] in *.
    destruct Hres as [->|(e & ->)].
    + rewrite (bind_ok _ _ _ _ _ E). cbn [downscale_loop]. exact Hh.
    + rewrite (bind_raise _ _ _ _ _ E). exact Hh.
Qed.


(** While no candidate is usable, or no crop is taken, the indexed loop
    of a training batch of one pair or more goes on with an empty
    batch. *)
Lemma unusable_turn (s : loop_state) :
  1 <= batch_size self ->
  crops_per_image self <= 0 \/
  (forall p, In p (img_paths self) -> valid_image w self p = false) ->
  imgs_hr s = [] ->
  exists s', iteration w self None true bicubic s = inl s' /\ imgs_hr s' = [].
Proof.
  intros HB Hbad Hs.
  destruct (iteration_continues w self None true bicubic s) as (s' & Hit & _ & Hs').
  { rewrite batch_done_test, Hs. cbn [length]. apply Z.leb_gt. lia. }
  exists s'. split; [exact Hit|]. rewrite Hs'. cbn [imgs_hr set_cur].
  rewrite (try_body_unusable _ Hbad).
  destruct (batch_done_imgs self None s) as (-> & _). exact Hs.
Qed.

End Unusable.

(** ** The resampling filter *)

Section Filter.

Variable w : world.
Variable self : t.

Lemma iteration_preserves (J : loop_state -> Prop) img_paths (training bicubic : bool) :
  tick_stable J -> log_stable bicubic J -> store_stable J -> wrap_stable self img_paths J ->
  (forall c s, J s -> J (set_cur c s)) ->
  forall s s', J s ->
    iteration w self img_paths training bicubic s = inl s' \/
    iteration w self img_paths training bicubic s = inr s' ->
    J s'.
Proof.
  intros Ht Hl Hs Hw Hc s s' HJ [Hit|Hit].
  - apply iteration_inl in Hit. destruct Hit as (_ & _ & ->).
    apply Hc. apply preserves_try_body; try assumption. apply Hw; exact HJ.
  - apply iteration_inr in Hit. destruct Hit as (_ & ->). apply Hw; exact HJ.
Qed.

Lemma choice_of_four (s : loop_state) :
  options self = [NEAREST; BILINEAR; BICUBIC; LANCZOS] ->
  exists m,
    Py.index [NEAREST; BILINEAR; BICUBIC; LANCZOS] (rnd w (draws s) mod 4) = Ok m /\
    choice w (options self) s = (Ok m, tick s).
Proof.
  intros Hopt. rewrite Hopt.
  destruct (index_in_range [NEAREST; BILINEAR; BICUBIC; LANCZOS] (rnd w (draws s) mod 4))
    as (m & Hm & _).
  { cbn [length]. pose proof (Z.mod_pos_bound (rnd w (draws s)) 4). lia. }
  exists m. split; [exact Hm|]. unfold choice. cbn [length]. 
  change (Z.of_nat 4) with 4. rewrite Hm. reflexivity.
Qed.

(** The loop keeps what every call of [downscale] and the elementary
    steps around it keep. *)
Lemma downscale_loop_keeps (J : loop_state -> Prop) img_paths (bicubic : bool)
    (crops : list (image Z)) :
  wrap_stable self img_paths J ->
  (forall img, preserves J (downscale w self bicubic img)) ->
  preserves J (downscale_loop w self img_paths bicubic crops).
Proof.
  intros Hw Hd. induction crops as [|c crops IH]; [apply preserves_ret|].
  intros s HJ. cbn [downscale_loop].
  specialize (Hw s HJ). destruct (batch_done self img_paths s) as [done s1].
  cbn [snd] in Hw. destruct done; [exact Hw|].
  apply (preserves_bind J); [apply Hd| |exact Hw].
  intros _. exact IH.
Qed.

Lemma try_body_keeps (J : loop_state -> Prop) img_paths (training bicubic : bool) :
  tick_stable J -> wrap_stable self img_paths J ->
  (forall img, preserves J (downscale w self bicubic img)) ->
  preserves J (try_body w self img_paths training bicubic).
Proof.
  intros Ht Hw Hd. unfold try_body.
  apply preserves_bind; [apply preserves_get|]. intros s0.
  apply preserves_bind; [apply preserves_lift|]. intros path.
  apply preserves_bind; [apply preserves_load_img; exact Ht|]. intros img.
  apply preserves_bind.
  { destruct training; [|apply preserves_ret].
    apply preserves_mapM. intros _. apply preserves_random_crop; exact Ht. }
  intros crops. apply downscale_loop_keeps; assumption.
Qed.

Lemma iteration_keeps (J : loop_state -> Prop) img_paths (training bicubic : bool) :
  tick_stable J -> wrap_stable self img_paths J ->
  (forall img, preserves J (downscale w self bicubic img)) ->
  (forall c s, J s -> J (set_cur c s)) ->
  forall s s', J s ->
    iteration w self img_paths training bicubic s = inl s' \/
    iteration w self img_paths training bicubic s = inr s' ->
    J s'.
Proof.
  intros Ht Hw Hd Hc s s' HJ [Hit|Hit].
  - apply iteration_inl in Hit. destruct Hit as (_ & _ & ->).
    apply Hc. apply try_body_keeps; try assumption. apply Hw; exact HJ.
  - apply iteration_inr in Hit. destruct Hit as (_ & ->). apply Hw; exact HJ.
Qed.

Lemma while_true_invariant img_paths (training bicubic : bool) (J : loop_state -> Prop) :
  (forall s s', J s ->
     iteration w self img_paths training bicubic s = inl s' \/
     iteration w self img_paths training bicubic s = inr s' -> J s') ->
  forall fuel s r, J s -> while_true w self fuel img_paths training bicubic s = Some r -> J r.
Proof.
  intros Hstep. induction fuel as [|fuel IH]; intros s r HJ Hrun; [discriminate|].
  cbn [while_true] in Hrun.
  destruct (iteration w self img_paths training bicubic s) as [s'|s'] eqn:Hit.
  - apply (IH s' r); [apply (Hstep s s' HJ); left; exact Hit|exact Hrun].
  - injection Hrun as <-. apply (Hstep s s' HJ). right; exact Hit.
Qed.

Lemma drawn_since_refl (s : loop_state) : drawn_since w s s.
Proof.
  split; [lia|]. split; [lia|]. exists [], []. rewrite app_nil_r.
  split; [reflexivity|]. split; [constructor|]. split; [constructor|].
  intros i j ki kj _ Hi. rewrite lookup_nil in Hi. discriminate.
Qed.

Lemma drawn_since_tick (s0 : loop_state) : tick_stable (drawn_since w s0).
Proof.
  intros s (Hd & Hl & new & ks & Hc & Hdr & Hall & Hinc). cbn [tick].
  split; [cbn; lia|]. split; [exact Hl|]. exists new, ks.
  split; [exact Hc|]. split; [exact Hdr|]. split; [|exact Hinc].
  eapply Forall_impl; [exact Hall|]. cbn. intros k Hk. lia.
Qed.

Lemma drawn_since_wrap (s0 : loop_state) img_paths :
  wrap_stable self img_paths (drawn_since w s0).
Proof.
  intros s HJ. unfold drawn_since in *.
  destruct (batch_done_imgs self img_paths s) as (_ & -> & -> & ->). exact HJ.
Qed.

Lemma drawn_since_set_cur (s0 : loop_state) (c : Z) (s : loop_state) :
  drawn_since w s0 s -> drawn_since w s0 (set_cur c s).
Proof. intros HJ. exact HJ. Qed.

Lemma drawn_since_store (s0 : loop_state) (hr lr : image Qc) (size : Z * Z) (m : resample)
    (s : loop_state) :
  drawn_since w s0 s ->
  Py.index [NEAREST; BILINEAR; BICUBIC; LANCZOS] (rnd w (draws s) mod 4) = Ok m ->
  drawn_since w s0 (log_resize (size, m) (tick s)) /\
  drawn_since w s0 (store hr lr (log_resize (size, m) (tick s))).
Proof.
  intros (Hd & Hl & new & ks & Hc & Hdr & Hall & Hinc) Hm.
  assert (Hks : length new = length ks) by (eapply Forall2_length; exact Hdr).
  assert (Hlog : exists new' ks',
             resize_calls s ++ [(size, m)] = resize_calls s0 ++ new' /\
             drawn w new' ks' /\ increasing_within (draws s0) (S (draws s)) ks').
  { exists (new ++ [(size, m)]), (ks ++ [draws s]).
    split; [rewrite Hc, app_assoc; reflexivity|].
    split; [apply Forall2_app; [exact Hdr|]; constructor; [exact Hm|constructor]|].
    split.
    - apply Forall_app. split.
      + eapply Forall_impl; [exact Hall|]. cbn. intros k Hk. lia.
      + constructor; [lia|constructor].
    - intros i j ki kj Hij Hi Hj.
      pose proof (lookup_lt_Some _ _ _ Hj) as Hjlt. rewrite length_app in Hjlt.
      cbn [length] in Hjlt.
      rewrite lookup_app_l in Hi by lia.
      destruct (decide (j < length ks)%nat) as [Hlt|Hge].
      + rewrite lookup_app_l in Hj by exact Hlt. exact (Hinc i j ki kj Hij Hi Hj).
      + rewrite lookup_app_r in Hj by lia.
        replace (j - length ks)%nat with 0%nat in Hj by lia.
        cbn in Hj. injection Hj as <-.
        rewrite Forall_forall in Hall.
        assert (Hki : (draws s0 <= ki < draws s)%nat)
          by (apply (Hall ki); eapply list_elem_of_lookup_2; exact Hi).
        lia. }
  split.
  - split; [cbn; lia|]. split; [cbn; rewrite length_app; cbn; lia|]. exact Hlog.
  - split; [cbn; lia|]. split; [cbn; rewrite !length_app; cbn; lia|]. exact Hlog.
Qed.

Lemma drawn_since_downscale (s0 : loop_state) (img : image Z) :
  options self = [NEAREST; BILINEAR; BICUBIC; LANCZOS] ->
  preserves (drawn_since w s0) (downscale w self false img).
Proof.
  intros Hopt s HJ. destruct (choice_of_four s Hopt) as (m & Hm & Hch).
  unfold downscale. rewrite (bind_ok _ _ _ _ _ Hch).
  unfold Py.bind, Py.lift, pil_resize, Py.modify.
  destruct (Py.int_truediv (Raster.width img) (scale self)) as [lw|e];
    [|apply drawn_since_tick; exact HJ].
  destruct (Py.int_truediv (Raster.height img) (scale self)) as [lh|e];
    [|apply drawn_since_tick; exact HJ].
  destruct (resize w (astype_uint8 img) (lw, lh) m) as [lr|e]; cbn [snd].
  - apply (drawn_since_store s0 _ _ (lw, lh) m s HJ Hm).
  - apply (drawn_since_store s0 (scale_hr_imgs (to_float img))
             (scale_hr_imgs (to_float img)) (lw, lh) m s HJ Hm).
Qed.

(** C5, as the code has it. The filter follows the argument [bicubic] of
    [load_batch] and nothing else. With [bicubic] set, every call to
    [resize] made by the loop, in training or not, asks for BICUBIC. With
    [bicubic] unset, in training or not, every call to [resize] that the
    loop makes, after any number of turns, asks for the filter that
    [random.choice] took from the four options, each call with a draw
    of its own, later on the random tape than the draw of the call
    before; each of the four filters is the pick of exactly one of the
    four equally likely positions. One call of the downscaling step
    draws once and calls [resize] once, with that filter and the size
    divided by the scale. This is how [__getitem__], the training path,
    loads: the calls of the batch it returns are all such draws, and
    every low-resolution image of the batch has had its call. *)
Theorem filter_follows_bicubic_flag (img_paths : option (list string)) (training : bool) :
  options self = [NEAREST; BILINEAR; BICUBIC; LANCZOS] ->
  scale self <> 0 ->
  (forall n s0,
     Forall (fun c => snd c = BICUBIC) (resize_calls s0) ->
     Forall (fun c => snd c = BICUBIC)
            (resize_calls (after_turns w self n img_paths training true s0))) /\
  (forall n s0,
     exists new ks,
       resize_calls (after_turns w self n img_paths training false s0)
       = resize_calls s0 ++ new /\
       drawn w new ks /\
       increasing_within (draws s0)
         (draws (after_turns w self n img_paths training false s0)) ks) /\
  (forall img s,
     exists m,
       Py.index [NEAREST; BILINEAR; BICUBIC; LANCZOS] (rnd w (draws s) mod 4) = Ok m /\
       resize_calls (snd (downscale w self false img s))
       = resize_calls s ++
         [(Z.quot (Raster.width img) (scale self), Z.quot (Raster.height img) (scale self), m)]) /\
  (forall m, exists r,
       0 <= r < 4 /\ Py.index [NEAREST; BILINEAR; BICUBIC; LANCZOS] r = Ok m /\
       forall r', 0 <= r' < 4 ->
                  Py.index [NEAREST; BILINEAR; BICUBIC; LANCZOS] r' = Ok m -> r' = r) /\
  (forall fuel k0 idx lr hr,
     __getitem__ w self fuel k0 idx = Some (lr, hr) ->
     exists s ks,
       load_batch_run w self fuel k0 idx None true false = Some s /\
       imgs_lr s = lr /\ imgs_hr s = hr /\
       drawn w (resize_calls s) ks /\ increasing_within k0 (draws s) ks /\
       (length lr <= length (resize_calls s))%nat).
Proof.
  intros Hopt Hscale.
  assert (Hfalse : forall ps tr s0 s s', drawn_since w s0 s ->
            iteration w self ps tr false s = inl s' \/
            iteration w self ps tr false s = inr s' -> drawn_since w s0 s').
  { intros ps tr s0. apply (iteration_keeps (drawn_since w s0) ps tr false).
    - apply drawn_since_tick.
    - apply drawn_since_wrap.
    - intros img. apply drawn_since_downscale. exact Hopt.
    - intros c s. apply drawn_since_set_cur. }
  split; [|split; [|split; [|split]]].
  - intros n s0 H0.
    set (J := fun s : loop_state => Forall (fun c => snd c = BICUBIC) (resize_calls s)).
    assert (Hstep : forall s s', J s ->
              iteration w self img_paths training true s = inl s' \/
              iteration w self img_paths training true s = inr s' -> J s').
    { apply (iteration_preserves J img_paths training true).
      - intros s1 H1; exact H1.
      - intros size m s1 Hm H1. unfold J. cbn [resize_calls log_resize].
        apply Forall_app. split; [exact H1|]. constructor; [cbn; auto|constructor].
      - intros hr lr s1 H1; exact H1.
      - intros s1 H1. unfold J.
        destruct (batch_done_imgs self img_paths s1) as (_ & _ & _ & ->). exact H1.
      - intros c s1 H1; exact H1. }
    apply (after_turns_invariant w self img_paths training true J); [| |exact H0].
    + intros s s' HJ Hit. apply (Hstep s s' HJ). left; exact Hit.
    + intros s s' HJ Hit. apply (Hstep s s' HJ). right; exact Hit.
  - intros n s0.
    assert (HJ : drawn_since w s0 (after_turns w self n img_paths training false s0)).
    { apply (after_turns_invariant w self img_paths training false (drawn_since w s0)).
      - intros s s' H Hit. apply (Hfalse img_paths training s0 s s' H). left; exact Hit.
      - intros s s' H Hit. apply (Hfalse img_paths training s0 s s' H). right; exact Hit.
      - apply drawn_since_refl. }
    destruct HJ as (_ & _ & new & ks & Hc & Hdr & Hinc). exists new, ks. auto.
  - intros img s. destruct (choice_of_four s Hopt) as (m & Hm & Hch).
    exists m. split; [exact Hm|].
    unfold downscale. rewrite (bind_ok _ _ _ _ _ Hch).
    unfold Py.int_truediv. destruct (scale self =? 0) eqn:E; [lia|].
    rewrite (bind_ok (Py.lift (Ok (Z.quot (Raster.width img) (scale self)))) _
               (tick s) (tick s) _ eq_refl).
    rewrite (bind_ok (Py.lift (Ok (Z.quot (Raster.height img) (scale self)))) _
               (tick s) (tick s) _ eq_refl).
    unfold Py.bind, pil_resize.
    destruct (resize w _ _ m); reflexivity.
  - intros m.
    destruct m; [exists 0|exists 1|exists 2|exists 3];
      (split; [lia|]; split; [reflexivity|]);
      intros r' Hr' Hidx;
      assert (Hc : r' = 0 \/ r' = 1 \/ r' = 2 \/ r' = 3) by lia;
      destruct Hc as [-> | [-> | [-> | ->]]]; vm_compute in Hidx;
      first [reflexivity | discriminate Hidx].
  - intros fuel k0 idx lr hr. unfold __getitem__, load_batch.
    destruct (load_batch_run w self fuel k0 idx None true false) as [s|] eqn:Hrun;
      [|discriminate].
    intros H. injection H as <- <-.
    assert (HJ : drawn_since w (entry_state self k0 idx None) s).
    { apply (while_true_invariant None true false
               (drawn_since w (entry_state self k0 idx None))
               (Hfalse None true (entry_state self k0 idx None))
               fuel (entry_state self k0 idx None) s);
        [apply drawn_since_refl|exact Hrun]. }
    destruct HJ as (_ & Hl & new & ks & Hc & Hdr & Hinc).
    cbn [entry_state resize_calls imgs_lr draws app length] in Hl, Hc, Hinc.
    exists s, ks. split; [reflexivity|]. split; [reflexivity|]. split; [reflexivity|].
    rewrite Hc. split; [exact Hdr|]. split; [exact Hinc|]. rewrite <- Hc. lia.
Qed.

End Filter.

Lemma filter_follows_bicubic_flag_witness :
  options (Demo.loader 2 1) = [NEAREST; BILINEAR; BICUBIC; LANCZOS] /\
  scale (Demo.loader 2 1) <> 0 /\
  Forall (fun c => snd c = BICUBIC)
         (resize_calls (after_turns Demo.disk (Demo.loader 2 1) 5
                          (Some ["d/b.jpg"; "d/a.png"]%string) false true
                          (entry_state (Demo.loader 2 1) 0 0
                             (Some ["d/b.jpg"; "d/a.png"]%string)))) /\
  exists ks,
    drawn Demo.disk
      (resize_calls (after_turns Demo.disk (Demo.loader 2 1) 5
                       (Some ["d/b.jpg"; "d/a.png"]%string) false false
                       (entry_state (Demo.loader 2 1) 0 0
                          (Some ["d/b.jpg"; "d/a.png"]%string)))) ks.
Proof.
  assert (Ho : options (Demo.loader 2 1) = [NEAREST; BILINEAR; BICUBIC; LANCZOS])
    by reflexivity.
  assert (Hs : scale (Demo.loader 2 1) <> 0) by (simpl; lia).
  split; [exact Ho|]. split; [exact Hs|].
  pose proof (filter_follows_bicubic_flag Demo.disk (Demo.loader 2 1)
                (Some ["d/b.jpg"; "d/a.png"]%string) false Ho Hs) as (H1 & H2 & _).
  split.
  - apply H1. constructor.
  - destruct (H2 5%nat (entry_state (Demo.loader 2 1) 0 0
                          (Some ["d/b.jpg"; "d/a.png"]%string)))
      as (new & ks & Hc & Hdr & _).
    exists ks. rewrite Hc. exact Hdr.
Defined.

(** C5 as stated fails: a load that is not training and leaves [bicubic]
    unset, as [plot_bigger_images] makes it, resizes with NEAREST and
    BILINEAR here. *)
Lemma evaluation_filter_counterexample :
  exists s,
    load_batch_run Demo.disk (Demo.loader 2 1) 10 0 0
      (Some ["d/a.png"; "d/a.png"]%string) false false = Some s /\
    resize_calls s = [(2, 2, NEAREST); (2, 2, BILINEAR)] /\
    ~ Forall (fun c => snd c = BICUBIC) (resize_calls s).
Proof.
  eexists. split; [vm_compute; reflexivity|]. split; [reflexivity|].
  intros H. inversion H as [|c l Hc Hl]. discriminate Hc.
Qed.

(** ** Downscaling one crop *)

Section Downscale.

Variable w : world.
Variable self : t.

(** [downscale] either raises and leaves the pairs alone, or stores the
    scaled crop together with the scaled result of resizing that crop. *)
Lemma downscale_dichotomy (bicubic : bool) (img : image Z) (s : loop_state) :
  cur_idx (snd (downscale w self bicubic img s)) = cur_idx s /\
  (((exists e, fst (downscale w self bicubic img s) = Raise e) /\
    imgs_hr (snd (downscale w self bicubic img s)) = imgs_hr s /\
    imgs_lr (snd (downscale w self bicubic img s)) = imgs_lr s) \/
   (fst (downscale w self bicubic img s) = Ok tt /\
    exists m lr0,
      resize w (astype_uint8 img) (lr_size self img) m = Ok lr0 /\
      imgs_hr (snd (downscale w self bicubic img s))
        = imgs_hr s ++ [scale_hr_imgs (to_float img)] /\
      imgs_lr (snd (downscale w self bicubic img s))
        = imgs_lr s ++ [scale_lr_imgs (to_float lr0)])).
Proof.
  unfold downscale.
  set (pick := if bicubic then Py.ret BICUBIC else choice w (options self)).
  assert (Hpick : same_batch s (snd (pick s))).
  { subst pick. destruct bicubic; [apply same_batch_refl|].
    apply (preserves_choice w _ (options self) (same_batch_tick s)), same_batch_refl. }
  destruct (pick s) as [[m|e] s1] eqn:Epick; cbn [snd] in Hpick;
    destruct Hpick as (Hc & Hh & Hl).
  2:{ rewrite (bind_raise _ _ _ _ _ Epick). cbn [fst snd].
      split; [exact Hc|]. left. split; [eexists; reflexivity|]. auto. }
  rewrite (bind_ok _ _ _ _ _ Epick).
  unfold Py.int_truediv. destruct (scale self =? 0) eqn:Escale.
  { cbn [fst snd Py.bind Py.lift]. split; [exact Hc|]. left.
    split; [eexists; reflexivity|]. auto. }
  rewrite (bind_ok (Py.lift (Ok (Z.quot (Raster.width img) (scale self)))) _ s1 s1 _ eq_refl).
  rewrite (bind_ok (Py.lift (Ok (Z.quot (Raster.height img) (scale self)))) _ s1 s1 _ eq_refl).
  unfold Py.bind, pil_resize, Py.modify.
  fold (lr_size self img).
  destruct (resize w (astype_uint8 img) (lr_size self img) m) as [lr0|e] eqn:Eres; cbn [fst snd].
  - split; [exact Hc|]. right. split; [reflexivity|].
    exists m, lr0. cbn [imgs_hr imgs_lr store log_resize]. rewrite Hh, Hl. auto.
  - split; [exact Hc|]. left. split; [eexists; reflexivity|].
    cbn [imgs_hr imgs_lr log_resize]. auto.
Qed.

(** With the four options, a non-zero scale and a PIL that accepts the
    size, [downscale] does not raise. *)
Lemma downscale_succeeds (bicubic : bool) (img : image Z) (s : loop_state) :
  options self = [NEAREST; BILINEAR; BICUBIC; LANCZOS] ->
  scale self <> 0 ->
  (forall m, Py.is_ok (resize w (astype_uint8 img) (lr_size self img) m) = true) ->
  fst (downscale w self bicubic img s) = Ok tt.
Proof.
  intros Hopt Hscale Hres. unfold downscale.
  assert (Hpick : exists m s1,
             (if bicubic then Py.ret BICUBIC else choice w (options self)) s = (Ok m, s1)).
  { destruct bicubic; [eexists _, _; reflexivity|].
    destruct (choice_of_four w self s Hopt) as (m & _ & Hm). eexists _, _; exact Hm. }
  destruct Hpick as (m & s1 & Epick). rewrite (bind_ok _ _ _ _ _ Epick).
  unfold Py.int_truediv. destruct (scale self =? 0) eqn:Escale; [lia|].
  rewrite (bind_ok (Py.lift (Ok (Z.quot (Raster.width img) (scale self)))) _ s1 s1 _ eq_refl).
  rewrite (bind_ok (Py.lift (Ok (Z.quot (Raster.height img) (scale self)))) _ s1 s1 _ eq_refl).
  unfold Py.bind, pil_resize, Py.modify. fold (lr_size self img).
  specialize (Hres m).
  destruct (resize w (astype_uint8 img) (lr_size self img) m); [reflexivity|discriminate].
Qed.

End Downscale.

(** ** Explicit paths *)

Section Explicit.

Variable w : world.
Variable self : t.
Variable paths : list string.
Variable bicubic : bool.
Hypothesis paths_nonempty : paths <> [].

Lemma explicit_not_done (s : loop_state) :
  (length (imgs_hr s) < length paths)%nat ->
  batch_done self (Some paths) s = (false, s).
Proof.
  intros Hlt. unfold batch_done. f_equal. apply Z.eqb_neq. lia.
Qed.

(** One turn without training, by what the candidate under the cursor is. *)
Lemma try_body_no_path (s : loop_state) (e : exn) :
  Py.index paths (cur_idx s) = Raise e ->
  try_body w self (Some paths) false bicubic s = (Raise e, s).
Proof.
  intros Hidx. unfold try_body. rewrite (bind_ok Py.get _ s s s eq_refl).
  destruct paths as [|p0 ps]; [contradiction|].
  apply bind_raise. unfold Py.lift. rewrite Hidx. reflexivity.
Qed.

Lemma try_body_unreadable (s : loop_state) (p : string) (e : exn) :
  Py.index paths (cur_idx s) = Ok p ->
  Image_open w p = Raise e ->
  try_body w self (Some paths) false bicubic s = (Raise e, s).
Proof.
  intros Hidx Hopen. unfold try_body. rewrite (bind_ok Py.get _ s s s eq_refl).
  destruct paths as [|p0 ps]; [contradiction|].
  rewrite (bind_ok _ _ s s p) by (unfold Py.lift; rewrite Hidx; reflexivity).
  apply bind_raise. unfold load_img. apply bind_raise.
  unfold Py.lift. rewrite Hopen. reflexivity.
Qed.

Lemma try_body_readable (s : loop_state) (p : string) (img : image Z) :
  Py.index paths (cur_idx s) = Ok p ->
  Image_open w p = Ok img ->
  (length (imgs_hr s) < length paths)%nat ->
  try_body w self (Some paths) false bicubic s
  = (downscale w self bicubic img ;;; Py.ret tt) s.
Proof.
  intros Hidx Hopen Hlt. unfold try_body. rewrite (bind_ok Py.get _ s s s eq_refl).
  destruct paths as [|p0 ps] eqn:Ep; [contradiction|]. rewrite <- Ep in *.
  rewrite (bind_ok _ _ s s p) by (unfold Py.lift; rewrite Hidx; reflexivity).
  rewrite (bind_ok _ _ s s img).
  2:{ unfold load_img. rewrite (bind_ok _ _ s s img) by (unfold Py.lift; rewrite Hopen; reflexivity).
      reflexivity. }
  rewrite (bind_ok (Py.ret [img]) _ s s _ eq_refl).
  cbn [downscale_loop]. rewrite (explicit_not_done s Hlt). reflexivity.
Qed.

(** The number of pairs after a turn that does not train: at most one
    more, and no more when the candidate is missing or unreadable. *)
Lemma try_body_eval_count (s : loop_state) :
  (length (imgs_hr s) < length paths)%nat ->
  let s' := snd (try_body w self (Some paths) false bicubic s) in
  (length (imgs_hr s) <= length (imgs_hr s') <= S (length (imgs_hr s)))%nat /\
  (forall e, Py.index paths (cur_idx s) = Raise e -> length (imgs_hr s') = length (imgs_hr s)) /\
  (forall p e, Py.index paths (cur_idx s) = Ok p -> Image_open w p = Raise e ->
               length (imgs_hr s') = length (imgs_hr s)) /\
  (forall p img, Py.index paths (cur_idx s) = Ok p -> Image_open w p = Ok img ->
                 options self = [NEAREST; BILINEAR; BICUBIC; LANCZOS] ->
                 scale self <> 0 ->
                 (forall m, Py.is_ok (resize w (astype_uint8 img) (lr_size self img) m) = true) ->
                 length (imgs_hr s') = S (length (imgs_hr s))).
Proof.
  intros Hlt s'. subst s'.
  destruct (Py.index paths (cur_idx s)) as [p|e] eqn:Hidx.
  2:{ rewrite (try_body_no_path s e Hidx). cbn [snd].
      split; [lia|]. split; [reflexivity|]. split; intros; discriminate. }
  destruct (Image_open w p) as [img|e] eqn:Hopen.
  2:{ rewrite (try_body_unreadable s p e Hidx Hopen). cbn [snd].
      split; [lia|]. split; [reflexivity|]. split; [reflexivity|].
      intros p' img' Hp' Himg'. injection Hp' as <-. congruence. }
  rewrite (try_body_readable s p img Hidx Hopen Hlt).
  destruct (downscale_dichotomy w self bicubic img s) as (_ & Hcase).
  pose proof (downscale_succeeds w self bicubic img s) as Hsucc.
  unfold Py.bind. destruct (downscale w self bicubic img s) as [[[]|e] s1];
    cbn [fst snd Py.ret] in *.
  - destruct Hcase as [((e & He) & _)|(_ & m & lr0 & _ & Hh & _)]; [discriminate|].
    rewrite Hh, length_app. cbn [length].
    split; [lia|]. split; [intros; discriminate|]. split; [intros; congruence|].
    intros; lia.
  - destruct Hcase as [(_ & Hh & _)|(He & _)]; [|discriminate].
    rewrite Hh. split; [lia|]. split; [reflexivity|]. split; [reflexivity|].
    intros p' img' Hp' Himg' Hopt Hscale Hres. injection Hp' as <-.
    rewrite Hopen in Himg'. injection Himg' as <-.
    discriminate (Hsucc Hopt Hscale Hres).
Qed.

Lemma explicit_turn (s : loop_state) :
  (length (imgs_hr s) < length paths)%nat ->
  exists s',
    iteration w self (Some paths) false bicubic s = inl s' /\
    cur_idx s' = cur_idx s + 1 /\
    imgs_hr s' = imgs_hr (snd (try_body w self (Some paths) false bicubic s)).
Proof.
  intros Hlt.
  destruct (iteration_continues w self (Some paths) false bicubic s) as (s' & Hit & Hc & Hs').
  { rewrite (explicit_not_done s Hlt). reflexivity. }
  exists s'. split; [exact Hit|]. split; [exact Hc|].
  rewrite Hs', (explicit_not_done s Hlt). reflexivity.
Qed.

Lemma behind_step (j : nat) (p : string) (e : exn) (c : nat) (s : loop_state) :
  paths !! j = Some p -> Image_open w p = Raise e ->
  behind paths j c s ->
  (length (imgs_hr s) < length paths)%nat /\
  (length paths <= c -> Py.index paths (cur_idx s) = Raise IndexError)%nat /\
  exists s', iteration w self (Some paths) false bicubic s = inl s' /\ behind paths j (S c) s'.
Proof.
  intros Hj Hfail (Hcur & Hle & Hlt).
  pose proof (lookup_lt_Some _ _ _ Hj) as Hjn.
  assert (Hcount : (length (imgs_hr s) < length paths)%nat).
  { destruct (le_lt_dec c j); [lia|]. specialize (Hlt ltac:(lia)). lia. }
  split; [exact Hcount|]. split.
  { intros Hc. apply index_past_end. lia. }
  destruct (explicit_turn s Hcount) as (s' & Hit & Hc' & Hh').
  exists s'. split; [exact Hit|].
  destruct (try_body_eval_count s Hcount) as (Hbound & Hnone & Hbad & _).
  rewrite <- Hh' in *. unfold behind. split; [lia|].
  destruct (le_lt_dec (length paths) c) as [Hpast|Hin].
  - rewrite (Hnone IndexError) by (apply index_past_end; lia).
    specialize (Hlt ltac:(lia)). lia.
  - destruct (index_in_range paths (cur_idx s)) as (q & Hq & Hq'); [lia|].
    rewrite Hcur, Nat2Z.id in Hq'.
    destruct (Nat.eq_dec c j) as [->|Hne].
    + rewrite Hj in Hq'. injection Hq' as <-.
      rewrite (Hbad p e Hq Hfail). lia.
    + destruct (le_lt_dec c j); [lia|]. specialize (Hlt ltac:(lia)). lia.
Qed.

Lemma behind_forever (j : nat) (p : string) (e : exn) :
  paths !! j = Some p -> Image_open w p = Raise e ->
  forall n c s, behind paths j c s ->
    behind paths j (c + n) (after_turns w self n (Some paths) false bicubic s) /\
    while_true w self n (Some paths) false bicubic s = None.
Proof.
  intros Hj Hfail. induction n as [|n IH]; intros c s Hb.
  - rewrite Nat.add_0_r. split; [exact Hb|reflexivity].
  - destruct (behind_step j p e c s Hj Hfail Hb) as (_ & _ & s' & Hit & Hb').
    cbn [after_turns while_true]. rewrite Hit.
    replace (c + S n)%nat with (S c + n)%nat by lia. apply IH; exact Hb'.
Qed.

End Explicit.

Lemma all_open_or_one_fails (w : world) (paths : list string) :
  Forall (fun p => Py.is_ok (Image_open w p) = true) paths \/
  exists j p e, paths !! j = Some p /\ Image_open w p = Raise e.
Proof.
  induction paths as [|p ps IH]; [left; constructor|].
  destruct (Image_open w p) as [img|e] eqn:Hopen.
  - destruct IH as [Hall|(j & q & e & Hj & Hq)].
    + left. constructor; [rewrite Hopen; reflexivity|exact Hall].
    + right. exists (S j), q, e. auto.
  - right. exists 0%nat, p, e. auto.
Qed.

Section ExplicitRuns.

Variable w : world.
Variable self : t.
Variable paths : list string.
Variable bicubic : bool.

Hypothesis paths_nonempty : paths <> [].
Hypothesis four_options : options self = [NEAREST; BILINEAR; BICUBIC; LANCZOS].
Hypothesis scale_nonzero : scale self <> 0.
Hypothesis resize_accepts :
  forall p img m, In p paths -> Image_open w p = Ok img ->
    Py.is_ok (resize w (astype_uint8 img) (lr_size self img) m) = true.

Lemma abreast_step (s : loop_state) :
  Forall (fun p => Py.is_ok (Image_open w p) = true) paths ->
  abreast paths s ->
  (length (imgs_hr s) = length paths /\
   iteration w self (Some paths) false bicubic s = inr s) \/
  (exists s', iteration w self (Some paths) false bicubic s = inl s' /\
              abreast paths s' /\
              length (imgs_hr s') = S (length (imgs_hr s))).
Proof.
  intros Hall (Hcur & Hle).
  destruct (Nat.eq_dec (length (imgs_hr s)) (length paths)) as [Heq|Hne].
  - left. split; [exact Heq|].
    rewrite (iteration_breaks w self (Some paths) false bicubic s).
    + reflexivity.
    + unfold batch_done. cbn [fst]. apply Z.eqb_eq. lia.
  - right. assert (Hlt : (length (imgs_hr s) < length paths)%nat) by lia.
    destruct (explicit_turn w self paths bicubic s Hlt) as (s' & Hit & Hc' & Hh').
    destruct (index_in_range paths (cur_idx s)) as (p & Hp & Hp'); [lia|].
    assert (Hin : In p paths).
    { apply list_elem_of_In. eapply list_elem_of_lookup_2. exact Hp'. }
    pose proof (proj1 (List.Forall_forall _ _) Hall p Hin) as Hload. cbn beta in Hload.
    destruct (Image_open w p) as [img|e] eqn:Hopen; [|cbn in Hload; discriminate Hload].
    destruct (try_body_eval_count w self paths bicubic paths_nonempty s Hlt)
      as (_ & _ & _ & Hgood).
    specialize (Hgood p img Hp Hopen four_options scale_nonzero
                  (fun m => resize_accepts p img m Hin Hopen)).
    rewrite <- Hh' in Hgood.
    exists s'. split; [exact Hit|]. unfold abreast. rewrite Hgood. lia.
Qed.

Lemma explicit_returns (s : loop_state) :
  Forall (fun p => Py.is_ok (Image_open w p) = true) paths ->
  abreast paths s ->
  exists fuel r,
    while_true w self fuel (Some paths) false bicubic s = Some r /\
    length (imgs_hr r) = length paths.
Proof.
  intros Hall.
  apply (while_true_returns w self (Some paths) false bicubic (abreast paths)
           (fun r => length (imgs_hr r) = length paths)
           (fun s => (length paths - length (imgs_hr s))%nat)).
  intros s0 Hs0. pose proof Hs0 as (_ & Hle).
  destruct (abreast_step s0 Hall Hs0) as [(Heq & Hit)|(s' & Hit & Hs' & Hlen)].
  - left. exists s0. auto.
  - right. exists s'. split; [exact Hit|]. split; [exact Hs'|].
    destruct Hs' as (_ & Hle'). lia.
Qed.

Lemma entry_state_explicit (k0 : nat) (idx : Z) :
  entry_state self k0 idx (Some paths)
  = {| cur_idx := 0; imgs_hr := []; imgs_lr := []; draws := k0; resize_calls := [] |}.
Proof. unfold entry_state. destruct paths; [contradiction|reflexivity]. Qed.

(** C10, as the code has it. With training off, when each listed image
    gives one pair, and with a PIL that resizes every listed image that
    opens, [load_batch] over a non-empty list of paths returns if and
    only if every listed path opens. If one does not, then after any
    number of turns the call has not returned, the pairs are fewer than
    the paths, the cursor has moved once a turn, and from the end of the
    list on the read of the list raises IndexError, which the turn
    survives. *)
Theorem explicit_paths_without_training (k0 : nat) (idx : Z) :
  ((exists fuel s,
       load_batch_run w self fuel k0 idx (Some paths) false bicubic = Some s) <->
   Forall (fun p => Py.is_ok (Image_open w p) = true) paths) /\
  (forall j p e,
     paths !! j = Some p -> Image_open w p = Raise e ->
     forall n,
       load_batch_run w self n k0 idx (Some paths) false bicubic = None /\
       (length (imgs_hr (after_turns w self n (Some paths) false bicubic
                           (entry_state self k0 idx (Some paths)))) < length paths)%nat /\
       cur_idx (after_turns w self n (Some paths) false bicubic
                  (entry_state self k0 idx (Some paths))) = Z.of_nat n /\
       ((length paths <= n)%nat ->
        Py.index paths (cur_idx (after_turns w self n (Some paths) false bicubic
                                   (entry_state self k0 idx (Some paths))))
        = Raise IndexError)).
Proof.
  assert (Hstart : forall j, behind paths j 0 (entry_state self k0 idx (Some paths))).
  { intros j. rewrite entry_state_explicit. unfold behind. cbn. split; [reflexivity|]. lia. }
  assert (Hstuck : forall j p e,
     paths !! j = Some p -> Image_open w p = Raise e ->
     forall n,
       load_batch_run w self n k0 idx (Some paths) false bicubic = None /\
       behind paths j n (after_turns w self n (Some paths) false bicubic
                           (entry_state self k0 idx (Some paths)))).
  { intros j p e Hj Hfail n.
    destruct (behind_forever w self paths bicubic paths_nonempty j p e Hj Hfail n 0%nat _
                (Hstart j)) as (Hb & Hnone).
    split; [exact Hnone|exact Hb]. }
  split.
  - split.
    + intros (fuel & s & Hrun).
      destruct (all_open_or_one_fails w paths) as [Hall|(j & p & e & Hj & Hopen)];
        [exact Hall|].
      destruct (Hstuck j p e Hj Hopen fuel) as (Hnone & _). congruence.
    + intros Hall.
      destruct (explicit_returns (entry_state self k0 idx (Some paths)) Hall)
        as (fuel & r & Hrun & _).
      { rewrite entry_state_explicit. unfold abreast. cbn. split; [reflexivity|lia]. }
      exists fuel, r. exact Hrun.
  - intros j p e Hj Hfail n.
    destruct (Hstuck j p e Hj Hfail n) as (Hnone & Hb).
    destruct (behind_step w self paths bicubic paths_nonempty j p e n _ Hj Hfail Hb)
      as (Hcount & Hpast & _).
    destruct Hb as (Hcur & _).
    split; [exact Hnone|]. split; [exact Hcount|]. split; [exact Hcur|exact Hpast].
Qed.

End ExplicitRuns.

Lemma explicit_paths_without_training_witness :
  ["d/b.jpg"; "d/a.png"]%string <> [] /\
  Forall (fun p => Py.is_ok (Image_open Demo.disk p) = true) ["d/b.jpg"; "d/a.png"]%string /\
  exists fuel s,
    load_batch_run Demo.disk (Demo.loader 2 1) fuel 0 0
      (Some ["d/b.jpg"; "d/a.png"]%string) false true = Some s.
Proof.
  assert (Hne : ["d/b.jpg"; "d/a.png"]%string <> []) by discriminate.
  assert (Hall : Forall (fun p => Py.is_ok (Image_open Demo.disk p) = true)
                        ["d/b.jpg"; "d/a.png"]%string)
    by (repeat constructor).
  assert (Hres : forall p img m,
             In p ["d/b.jpg"; "d/a.png"]%string -> Image_open Demo.disk p = Ok img ->
             Py.is_ok (resize Demo.disk (astype_uint8 img) (lr_size (Demo.loader 2 1) img) m)
             = true).
  { intros p img m [<-|[<-|[]]] Hopen; vm_compute in Hopen;
      injection Hopen as <-; destruct m; reflexivity. }
  split; [exact Hne|]. split; [exact Hall|].
  apply (proj1 (explicit_paths_without_training Demo.disk (Demo.loader 2 1)
                  ["d/b.jpg"; "d/a.png"]%string true Hne eq_refl
                  ltac:(simpl; lia) Hres 0%nat 0)).
  exact Hall.
Defined.

(** C10 as stated fails: in training, with two crops an image, the list
    ["d/zz.jpg"; "d/a.png"] is served although "d/zz.jpg" does not open:
    both pairs come from "d/a.png". *)
Lemma explicit_paths_counterexample :
  Image_open Demo.disk "d/zz.jpg" = Raise IOError /\
  exists s,
    load_batch_run Demo.disk (Demo.loader 2 2) 3 0 0
      (Some ["d/zz.jpg"; "d/a.png"]%string) true false = Some s /\
    length (imgs_hr s) = 2%nat /\ cur_idx s = 2.
Proof.
  split; [reflexivity|].
  eexists. split; [vm_compute; reflexivity|]. split; reflexivity.
Qed.

(** ** Rasters: crops, flips and value ranges *)

Lemma slice_in_range {A} (l : list A) (lo d : Z) :
  0 <= lo -> 0 <= d -> lo + d <= Z.of_nat (length l) ->
  Py.slice l lo (lo + d) = take (Z.to_nat d) (drop (Z.to_nat lo) l).
Proof.
  intros Hlo Hd Hhi. unfold Py.slice, Py.clamp_bound.
  destruct (lo <? 0) eqn:E1; [lia|]. destruct (lo + d <? 0) eqn:E2; [lia|].
  f_equal; [|f_equal]; lia.
Qed.

Lemma slice_length {A} (l : list A) (lo d : Z) :
  0 <= lo -> 0 <= d -> lo + d <= Z.of_nat (length l) ->
  Z.of_nat (length (Py.slice l lo (lo + d))) = d.
Proof.
  intros Hlo Hd Hhi. rewrite slice_in_range by assumption.
  rewrite length_take, length_drop. lia.
Qed.

Lemma slice_Forall {A} (P : A -> Prop) (l : list A) (lo hi : Z) :
  Forall P l -> Forall P (Py.slice l lo hi).
Proof. intros H. unfold Py.slice. apply Forall_take, Forall_drop, H. Qed.

Lemma lookup_map {A B} (f : A -> B) (l : list A) (i : nat) :
  map f l !! i = option_map f (l !! i).
Proof.
  revert i. induction l as [|a l IH]; intros [|i]; cbn; try reflexivity. apply IH.
Qed.

Lemma window_lookup {A} (l : list A) (lo d : Z) (i : nat) :
  0 <= lo -> 0 <= d -> lo + d <= Z.of_nat (length l) -> Z.of_nat i < d ->
  Py.slice l lo (lo + d) !! i = l !! (Z.to_nat lo + i)%nat.
Proof.
  intros Hlo Hd Hhi Hi. rewrite slice_in_range by assumption.
  rewrite lookup_take_lt by lia. apply lookup_drop.
Qed.

Lemma crop_pixel {A} (img : image A) (y dy x dx : Z) (i j : nat) :
  rect img ->
  0 <= y -> 0 <= dy -> y + dy <= Raster.height img ->
  0 <= x -> 0 <= dx -> x + dx <= Raster.width img ->
  Z.of_nat i < dy -> Z.of_nat j < dx ->
  pixel (crop img y dy x dx) i j = pixel img (Z.to_nat y + i) (Z.to_nat x + j).
Proof.
  intros Hrect Hy Hdy Hyh Hx Hdx Hxw Hi Hj. unfold pixel, crop, image in *.
  rewrite lookup_map, window_lookup by (unfold Raster.height in Hyh; lia).
  destruct (img !! (Z.to_nat y + i)%nat) as [row|] eqn:Hrow; [|reflexivity].
  cbn [option_map]. apply window_lookup; try assumption.
  unfold rect in Hrect. rewrite List.Forall_forall in Hrect.
  rewrite (Hrect row); [exact Hxw|].
  apply list_elem_of_In. eapply list_elem_of_lookup_2. exact Hrow.
Qed.


Lemma crop_decoded (img : image Z) (y dy x dx : Z) :
  decoded img ->
  0 <= y -> 1 <= dy -> y + dy <= Raster.height img ->
  0 <= x -> 1 <= dx -> x + dx <= Raster.width img ->
  decoded (crop img y dy x dx) /\ shape (crop img y dy x dx) = (dy, dx).
Proof.
  intros (Hrect & Hpx) Hy Hdy Hyh Hx Hdx Hxw. unfold crop.
  assert (Hrows : Forall (fun row => Z.of_nat (length row) = Raster.width img)
                         (Py.slice img y (y + dy))) by (apply slice_Forall, Hrect).
  assert (Hlen : Z.of_nat (length (Py.slice img y (y + dy))) = dy)
    by (apply slice_length; unfold Raster.height in Hyh; lia).
  set (rows := Py.slice img y (y + dy)) in *.
  assert (Hcut : Forall (fun row => Z.of_nat (length row) = dx)
                        (map (fun row => Py.slice row x (x + dx)) rows)).
  { apply Forall_map. eapply Forall_impl; [exact Hrows|].
    intros row Hrow. cbv beta delta [compose] in Hrow |- *. apply slice_length; lia. }
  assert (Hw : Raster.width (map (fun row => Py.slice row x (x + dx)) rows) = dx).
  { destruct rows as [|r rows']; [cbn in Hlen; lia|].
    cbn [map Raster.width]. inversion Hcut; assumption. }
  split; [split|].
  - unfold rect. rewrite Hw. exact Hcut.
  - unfold px_all. apply Forall_map.
    assert (Hpx' : Forall (Forall (fun '(r, g, b) => is_uint8 r /\ is_uint8 g /\ is_uint8 b)) rows)
      by (apply slice_Forall, Hpx).
    eapply Forall_impl; [exact Hpx'|]. intros row Hrow. apply slice_Forall, Hrow.
  - unfold shape, Raster.height. rewrite length_map, Hlen, Hw. reflexivity.
Qed.

Lemma crop_window (img : image Z) (y dy x dx : Z) :
  decoded img ->
  0 <= y -> 1 <= dy -> y + dy <= Raster.height img ->
  0 <= x -> 1 <= dx -> x + dx <= Raster.width img ->
  window (crop img y dy x dx) img y x dy dx.
Proof.
  intros Hdec Hy Hdy Hyh Hx Hdx Hxw.
  destruct (crop_decoded img y dy x dx Hdec Hy Hdy Hyh Hx Hdx Hxw) as ((Hrect & _) & Hshape).
  unfold shape in Hshape. injection Hshape as Hh Hw.
  unfold window. repeat (split; [assumption|]). split.
  - unfold rect in Hrect. rewrite Hw in Hrect. exact Hrect.
  - intros i j Hi Hj. apply crop_pixel; try assumption; try lia. exact (proj1 Hdec).
Qed.

Lemma flip_decoded (img : image Z) : decoded img -> decoded (flip_left_right img).
Proof.
  intros (Hrect & Hpx). split.
  - unfold rect. rewrite width_flip. unfold flip_left_right. apply Forall_map.
    eapply Forall_impl; [exact Hrect|]. intros row Hrow.
    cbv beta delta [compose] in Hrow |- *. rewrite length_rev. exact Hrow.
  - unfold px_all, flip_left_right. apply Forall_map.
    eapply Forall_impl; [exact Hpx|]. intros row Hrow. apply Forall_rev, Hrow.
Qed.

Lemma shape_map_px {A B} (f : A -> B) (img : image A) :
  shape (map_px f img) = shape img.
Proof.
  unfold shape, Raster.height, map_px. rewrite length_map. f_equal.
  destruct img as [|row img]; cbn; [reflexivity|]. rewrite length_map. reflexivity.
Qed.

Lemma px_all_map_px {A B} (f : A -> B) (P : A -> Prop) (Q : B -> Prop) (img : image A) :
  (forall v, P v -> Q (f v)) -> px_all P img -> px_all Q (map_px f img).
Proof.
  intros HPQ Hpx. unfold px_all, map_px. apply Forall_map.
  eapply Forall_impl; [exact Hpx|]. intros row Hrow. apply Forall_map.
  eapply Forall_impl; [exact Hrow|]. intros [[r g] b] (Hr & Hg & Hb).
  cbv beta delta [compose]. auto.
Qed.

Lemma rect_map_px {A B} (f : A -> B) (img : image A) : rect img -> rect (map_px f img).
Proof.
  intros Hrect. unfold rect.
  assert (Hw : Raster.width (map_px f img) = Raster.width img).
  { pose proof (shape_map_px f img) as Hs. unfold shape in Hs. congruence. }
  rewrite Hw. unfold map_px. apply Forall_map.
  eapply Forall_impl; [exact Hrect|]. intros row Hrow.
  cbv beta delta [compose] in Hrow |- *. rewrite length_map. exact Hrow.
Qed.

Lemma astype_uint8_decoded (img : image Z) : decoded img -> decoded (astype_uint8 img).
Proof.
  intros (Hrect & Hpx). split; [apply rect_map_px, Hrect|].
  unfold astype_uint8. eapply px_all_map_px; [|exact Hpx].
  intros v _. unfold is_uint8. pose proof (Z.mod_pos_bound v 256). lia.
Qed.

Lemma lr_range (v : Z) :
  is_uint8 v ->
  (0 <= Q2Qc (inject_Z v) / Q2Qc 255 /\ Q2Qc (inject_Z v) / Q2Qc 255 <= 1)%Qc.
Proof.
  intros Hv. unfold is_uint8 in Hv.
  assert (H0 : (0 <= inject_Z v)%Q) by (unfold Qle; cbn; lia).
  assert (H1 : (inject_Z v <= 255)%Q) by (unfold Qle; cbn; lia).
  unfold Qcle, Qcdiv, Qcmult, Qcinv. cbn [this Q2Qc].
  rewrite !Qred_correct. split.
  - change (this 0%Qc) with 0%Q. change (/ 255)%Q with (1 # 255)%Q. lra.
  - change (this 1%Qc) with 1%Q. change (/ 255)%Q with (1 # 255)%Q. lra.
Qed.

Lemma hr_range (v : Z) :
  is_uint8 v ->
  (- (1) <= Q2Qc (inject_Z v) / Q2Qc (255 # 2) - 1 /\
   Q2Qc (inject_Z v) / Q2Qc (255 # 2) - 1 <= 1)%Qc.
Proof.
  intros Hv. unfold is_uint8 in Hv.
  assert (H0 : (0 <= inject_Z v)%Q) by (unfold Qle; cbn; lia).
  assert (H1 : (inject_Z v <= 255)%Q) by (unfold Qle; cbn; lia).
  unfold Qcle, Qcminus, Qcplus, Qcopp, Qcdiv, Qcmult, Qcinv. cbn [this Q2Qc].
  rewrite !Qred_correct.
  change (this 1%Qc) with 1%Q. change (/ (255 # 2))%Q with (2 # 255)%Q.
  split; lra.
Qed.

Lemma scaled_hr_range (img : image Z) :
  decoded img ->
  px_all (fun v => (- (1) <= v /\ v <= 1)%Qc) (scale_hr_imgs (to_float img)) /\
  shape (scale_hr_imgs (to_float img)) = shape img.
Proof.
  intros (_ & Hpx). unfold scale_hr_imgs, to_float. rewrite map_px_map_px. split.
  - eapply px_all_map_px; [|exact Hpx]. intros v Hv. apply hr_range, Hv.
  - apply shape_map_px.
Qed.

Lemma scaled_lr_range (img : image Z) :
  decoded img ->
  px_all (fun v => (0 <= v /\ v <= 1)%Qc) (scale_lr_imgs (to_float img)) /\
  shape (scale_lr_imgs (to_float img)) = shape img.
Proof.
  intros (_ & Hpx). unfold scale_lr_imgs, to_float. rewrite map_px_map_px. split.
  - eapply px_all_map_px; [|exact Hpx]. intros v Hv. apply lr_range, Hv.
  - apply shape_map_px.
Qed.

(** ** Indexed batches in training *)

Section Training.

Variable w : world.
Variable self : t.
Variable bicubic : bool.

Hypothesis pil : pil_ok w.
Hypothesis four_options : options self = [NEAREST; BILINEAR; BICUBIC; LANCZOS].
Hypothesis total_is_length : total_imgs self = Z.of_nat (length (img_paths self)).
Hypothesis batch_nonneg : 0 <= batch_size self.
Hypothesis crops_positive : 1 <= crops_per_image self.
Hypothesis scale_positive : 1 <= scale self.
Hypothesis scale_le_height : scale self <= height_hr self.
Hypothesis scale_le_width : scale self <= width_hr self.

Lemma batch_ok_same (s s' : loop_state) :
  imgs_hr s' = imgs_hr s -> imgs_lr s' = imgs_lr s -> batch_ok w self s -> batch_ok w self s'.
Proof. intros Hh Hl (H1 & H2). unfold batch_ok. rewrite Hh, Hl. auto. Qed.

Lemma randint_in_range (n : Z) (s : loop_state) :
  1 <= n ->
  exists x, randint w 0 n s = (Ok x, tick s) /\ 0 <= x < n.
Proof.
  intros Hn. unfold randint. destruct (n <=? 0) eqn:E; [lia|].
  eexists. split; [reflexivity|].
  pose proof (Z.mod_pos_bound (rnd w (draws s)) (n - 0)). lia.
Qed.

Lemma load_img_valid (p : string) (img : image Z) (s : loop_state) :
  Image_open w p = Ok img ->
  exists img',
    load_img w p true s = (Ok img', tick s) /\ decoded img' /\
    Raster.height img' = Raster.height img /\ Raster.width img' = Raster.width img /\
    (img' = img \/ img' = map (@rev _) img).
Proof.
  intros Hopen. pose proof (proj1 pil p img Hopen) as Hdec.
  unfold load_img.
  rewrite (bind_ok _ _ s s img) by (unfold Py.lift; rewrite Hopen; reflexivity).
  destruct (randint_in_range 8 s) as (flag & Hflag & _); [lia|].
  rewrite (bind_ok _ _ _ _ _ Hflag). unfold Py.ret.
  eexists. split; [reflexivity|].
  destruct (3 <? flag).
  - split; [apply flip_decoded, Hdec|]. split; [apply height_flip|].
    split; [apply width_flip|]. right. reflexivity.
  - auto.
Qed.

(** A crop of [img] as [random_crop] is to make it. *)
Lemma random_crop_valid (img : image Z) (s : loop_state) :
  decoded img ->
  height_hr self <= Raster.height img -> width_hr self <= Raster.width img ->
  exists c y x,
    random_crop w img (height_hr self, width_hr self) s = (Ok c, tick (tick s)) /\
    decoded c /\ shape c = (height_hr self, width_hr self) /\
    window c img y x (height_hr self) (width_hr self).
Proof.
  intros Hdec Hh Hw. unfold random_crop.
  destruct (randint_in_range (Raster.width img - width_hr self + 1) s) as (x & Hx & Hxr); [lia|].
  rewrite (bind_ok _ _ _ _ _ Hx).
  destruct (randint_in_range (Raster.height img - height_hr self + 1) (tick s))
    as (y & Hy & Hyr); [lia|].
  rewrite (bind_ok _ _ _ _ _ Hy). unfold Py.ret.
  eexists _, y, x. split; [reflexivity|].
  destruct (crop_decoded img y (height_hr self) x (width_hr self) Hdec) as (H1 & H2);
    try lia.
  split; [exact H1|]. split; [exact H2|].
  apply crop_window; try assumption; lia.
Qed.

Lemma crops_valid (img : image Z) (l : list Z) (s : loop_state) :
  decoded img ->
  height_hr self <= Raster.height img -> width_hr self <= Raster.width img ->
  exists cs s',
    Py.mapM (fun _ => random_crop w img (height_hr self, width_hr self)) l s = (Ok cs, s') /\
    length cs = length l /\
    Forall (fun c => decoded c /\ shape c = (height_hr self, width_hr self) /\
                     exists y x, window c img y x (height_hr self) (width_hr self)) cs /\
    same_batch s s'.
Proof.
  intros Hdec Hh Hw. revert s. induction l as [|a l IH]; intros s.
  - exists [], s. cbn. split; [reflexivity|]. split; [reflexivity|].
    split; [constructor|apply same_batch_refl].
  - destruct (random_crop_valid img s Hdec Hh Hw) as (c & y & x & Hc & Hd & Hs & Hwin).
    destruct (IH (tick (tick s))) as (cs & s' & Hcs & Hlen & Hall & Hsame).
    exists (c :: cs), s'. cbn [Py.mapM].
    rewrite (bind_ok _ _ _ _ _ Hc), (bind_ok _ _ _ _ _ Hcs).
    split; [reflexivity|]. split; [cbn; lia|].
    split; [constructor; [eauto|assumption]|].
    exact Hsame.
Qed.

Lemma lr_size_positive (c : image Z) :
  crop_ok w self c ->
  lr_size self c = (Z.quot (width_hr self) (scale self), Z.quot (height_hr self) (scale self)) /\
  1 <= Z.quot (width_hr self) (scale self) /\ 1 <= Z.quot (height_hr self) (scale self).
Proof.
  intros (_ & Hshape & _). unfold shape in Hshape. injection Hshape as Hh Hw.
  unfold lr_size. rewrite Hh, Hw.
  split; [reflexivity|].
  split; apply Z.quot_le_lower_bound; lia.
Qed.

Lemma scale_hr_formula (c : image Z) :
  scale_hr_imgs (to_float c)
  = map_px (fun v => Q2Qc (inject_Z v) / Q2Qc (255 # 2) - 1)%Qc c.
Proof. unfold scale_hr_imgs, to_float. apply map_px_map_px. Qed.

Lemma scale_lr_formula (c : image Z) :
  scale_lr_imgs (to_float c) = map_px (fun v => Q2Qc (inject_Z v) / Q2Qc 255)%Qc c.
Proof. unfold scale_lr_imgs, to_float. apply map_px_map_px. Qed.

Lemma downscale_good (c : image Z) (s : loop_state) :
  batch_ok w self s ->
  Z.of_nat (length (imgs_hr s)) < batch_size self ->
  crop_ok w self c ->
  fst (downscale w self bicubic c s) = Ok tt /\
  batch_ok w self (snd (downscale w self bicubic c s)) /\
  length (imgs_hr (snd (downscale w self bicubic c s))) = S (length (imgs_hr s)).
Proof.
  intros (Hpairs & Hlen) Hroom Hc.
  destruct (lr_size_positive c Hc) as (Hsize & Hw1 & Hh1).
  pose proof Hc as (Hdec & Hshape & _).
  assert (Hres : forall m, exists out,
             resize w (astype_uint8 c) (lr_size self c) m = Ok out /\
             decoded out /\
             shape out = (Z.quot (height_hr self) (scale self),
                          Z.quot (width_hr self) (scale self))).
  { intros m. rewrite Hsize.
    apply (proj2 pil); [apply astype_uint8_decoded, Hdec|assumption|assumption]. }
  assert (Hok : fst (downscale w self bicubic c s) = Ok tt).
  { apply downscale_succeeds; [exact four_options|lia|].
    intros m. destruct (Hres m) as (out & -> & _). reflexivity. }
  destruct (downscale_dichotomy w self bicubic c s) as (_ & [((e & He) & _)|(_ & Hstored)]);
    [congruence|].
  destruct Hstored as (m & lr0 & Hresize & Hh & Hl).
  split; [exact Hok|]. split.
  - unfold batch_ok. rewrite Hh, Hl. split.
    + apply Forall2_app; [exact Hpairs|]. constructor; [|constructor].
      destruct (Hres m) as (out & Hout & Hdout & Hsout).
      rewrite Hresize in Hout. injection Hout as <-.
      destruct (scaled_hr_range c Hdec) as (Hr1 & Hs1).
      destruct (scaled_lr_range lr0 Hdout) as (Hr2 & Hs2).
      unfold paired. rewrite Hs1, Hs2, Hshape, Hsout.
      split; [reflexivity|]. split; [exact Hr1|]. split; [reflexivity|].
      split; [exact Hr2|]. exists c, m, lr0.
      split; [exact Hc|]. split; [apply scale_hr_formula|].
      split; [rewrite <- Hsize; exact Hresize|apply scale_lr_formula].
    + rewrite length_app. cbn [length]. lia.
  - rewrite Hh, length_app. cbn [length]. lia.
Qed.

Lemma downscale_loop_good (cs : list (image Z)) (s : loop_state) :
  batch_ok w self s ->
  Forall (crop_ok w self) cs ->
  batch_ok w self (snd (downscale_loop w self None bicubic cs s)) /\
  (length (imgs_hr s) <= length (imgs_hr (snd (downscale_loop w self None bicubic cs s))))%nat /\
  (cs <> [] -> Z.of_nat (length (imgs_hr s)) < batch_size self ->
   (length (imgs_hr s) < length (imgs_hr (snd (downscale_loop w self None bicubic cs s))))%nat).
Proof.
  intros Hok Hcs. revert s Hok. induction Hcs as [|c cs Hc Hcs IH]; intros s Hok.
  - cbn. split; [exact Hok|]. split; [lia|]. intros Hne; contradiction.
  - cbn [downscale_loop].
    destruct (batch_done_imgs self None s) as (Hh & Hl & _).
    assert (Hdone : fst (batch_done self None s)
                    = (batch_size self <=? Z.of_nat (length (imgs_hr s)))).
    { unfold batch_done. cbn [fst]. destruct (total_imgs self <=? cur_idx s); reflexivity. }
    destruct (batch_done self None s) as [done s1]. cbn [fst snd] in *. subst done.
    pose proof (batch_ok_same s s1 Hh Hl Hok) as Hok1.
    destruct (batch_size self <=? Z.of_nat (length (imgs_hr s))) eqn:E.
    + cbn [snd]. rewrite Hh. split; [exact Hok1|]. split; [lia|]. intros _ Hroom. lia.
    + assert (Hroom : Z.of_nat (length (imgs_hr s1)) < batch_size self) by (rewrite Hh; lia).
      destruct (downscale_good c s1 Hok1 Hroom Hc) as (Hres & Hok2 & Hlen2).
      destruct (downscale w self bicubic c s1) as [r s2] eqn:Ed. cbn [fst snd] in *. subst r.
      rewrite (bind_ok _ _ _ _ _ Ed).
      destruct (IH s2 Hok2) as (Hok3 & Hle3 & _).
      split; [exact Hok3|]. rewrite Hh in Hlen2. split; [lia|]. intros _ _. lia.
Qed.

Lemma range_length (n : Z) : length (Py.range n) = Z.to_nat n.
Proof. unfold Py.range. rewrite length_map, length_seq. reflexivity. Qed.

(** One [try] in training: the pairs stay as they should be, none is
    lost, and a usable candidate adds at least one while the batch has
    room. *)
Lemma try_body_training (s : loop_state) :
  batch_ok w self s ->
  batch_ok w self (snd (try_body w self None true bicubic s)) /\
  (length (imgs_hr s) <= length (imgs_hr (snd (try_body w self None true bicubic s))))%nat /\
  (forall p,
     Py.index (img_paths self) (cur_idx s) = Ok p ->
     valid_image w self p = true ->
     Z.of_nat (length (imgs_hr s)) < batch_size self ->
     (length (imgs_hr s) < length (imgs_hr (snd (try_body w self None true bicubic s))))%nat).
Proof.
  intros Hok. unfold try_body. rewrite (bind_ok Py.get _ s s s eq_refl).
  destruct (Py.index (img_paths self) (cur_idx s)) as [p|e] eqn:Hidx.
  2:{ rewrite (bind_raise _ _ s s e) by reflexivity. cbn [snd].
      split; [exact Hok|]. split; [lia|]. intros p Hp. discriminate. }
  rewrite (bind_ok _ _ s s p) by reflexivity.
  unfold valid_image.
  destruct (Image_open w p) as [img|e] eqn:Hopen.
  2:{ rewrite (bind_raise _ _ s s e).
      - cbn [snd]. split; [exact Hok|]. split; [lia|].
        intros p' Hp'. injection Hp' as <-. rewrite Hopen. discriminate.
      - unfold load_img. apply bind_raise. unfold Py.lift. rewrite Hopen. reflexivity. }
  destruct (load_img_valid p img s Hopen) as (img' & Hload & Hdec & Hh & Hw & Hsrc).
  rewrite (bind_ok _ _ _ _ _ Hload).
  destruct ((height_hr self <=? Raster.height img) && (width_hr self <=? Raster.width img))
    eqn:Hvalid.
  - apply andb_true_iff in Hvalid. destruct Hvalid as (Hv1 & Hv2).
    apply Z.leb_le in Hv1, Hv2.
    destruct (crops_valid img' (Py.range (crops_per_image self)) (tick s) Hdec)
      as (cs & s1 & Hcs & Hlen & Hall0 & (_ & Hsh & Hsl)); [lia|lia|].
    rewrite (bind_ok _ _ _ _ _ Hcs).
    assert (Hall : Forall (crop_ok w self) cs).
    { eapply Forall_impl; [exact Hall0|]. intros c (Hcd & Hcs' & y & x & Hwin).
      split; [exact Hcd|]. split; [exact Hcs'|].
      exists p, img, img', y, x. split; [exact (index_In _ _ _ Hidx)|].
      split; [exact Hopen|]. split; [exact Hsrc|exact Hwin]. }
    assert (Hok1 : batch_ok w self s1) by (apply (batch_ok_same s s1); assumption).
    destruct (downscale_loop_good cs s1 Hok1 Hall) as (Hok2 & Hle & Hlt).
    cbn [imgs_hr tick] in Hsh. rewrite Hsh in Hle, Hlt.
    split; [exact Hok2|]. split; [exact Hle|].
    intros p' _ _ Hroom. apply Hlt; [|exact Hroom].
    intros ->. rewrite range_length in Hlen. cbn in Hlen. lia.
  - assert (Hsmall : Raster.height img' < height_hr self \/ Raster.width img' < width_hr self).
    { rewrite Hh, Hw. apply andb_false_iff in Hvalid.
      destruct Hvalid as [Hv|Hv]; apply Z.leb_gt in Hv; auto. }
    destruct (crops_undersized w img' (height_hr self) (width_hr self)
                (Py.range (crops_per_image self)) (tick s) Hsmall) as ((_ & Hsh & Hsl) & Hres).
    destruct (Py.mapM _ _ (tick s)) as [r s1] eqn:Ecs. cbn [fst snd] in *.
    cbn [imgs_hr imgs_lr tick] in Hsh, Hsl.
    assert (Hok1 : batch_ok w self s1) by (apply (batch_ok_same s s1); assumption).
    destruct Hres as [->|(e & ->)].
    + rewrite (bind_ok _ _ _ _ _ Ecs). cbn [downscale_loop Py.ret snd].
      rewrite Hsh. split; [exact Hok1|]. split; [lia|].
      intros p' Hp'. injection Hp' as <-. rewrite Hopen, Hvalid. discriminate.
    + rewrite (bind_raise _ _ _ _ _ Ecs). cbn [snd].
      rewrite Hsh. split; [exact Hok1|]. split; [lia|].
      intros p' Hp'. injection Hp' as <-. rewrite Hopen, Hvalid. discriminate.
Qed.

End Training.

Section TrainingRuns.

Variable w : world.
Variable self : t.
Variable bicubic : bool.

Hypothesis pil : pil_ok w.
Hypothesis four_options : options self = [NEAREST; BILINEAR; BICUBIC; LANCZOS].
Hypothesis total_is_length : total_imgs self = Z.of_nat (length (img_paths self)).
Hypothesis batch_nonneg : 0 <= batch_size self.
Hypothesis crops_positive : 1 <= crops_per_image self.
Hypothesis scale_positive : 1 <= scale self.
Hypothesis scale_le_height : scale self <= height_hr self.
Hypothesis scale_le_width : scale self <= width_hr self.

(** A turn with the batch full leaves the loop. *)
Lemma training_turn_full (s : loop_state) :
  batch_ok w self s ->
  batch_size self <= Z.of_nat (length (imgs_hr s)) ->
  exists r, iteration w self None true bicubic s = inr r /\
            batch_ok w self r /\ Z.of_nat (length (imgs_hr r)) = batch_size self.
Proof.
  intros Hok Hfull.
  destruct (batch_done_imgs self None s) as (Hh & Hl & _).
  exists (snd (batch_done self None s)). split.
  - apply iteration_breaks. unfold batch_done. cbn [fst].
    destruct (total_imgs self <=? cur_idx s); cbn [imgs_hr set_cur]; apply Z.leb_le; lia.
  - split; [apply (batch_ok_same w self s); assumption|].
    rewrite Hh. destruct Hok as (_ & Hle). lia.
Qed.

Lemma turns_to_range (v c : Z) :
  0 <= v < total_imgs self -> 0 <= c < total_imgs self ->
  0 <= turns_to self v c < total_imgs self.
Proof. intros Hv Hc. unfold turns_to. destruct (c <=? v) eqn:E; lia. Qed.

Lemma turns_to_next (v c : Z) :
  0 <= v < total_imgs self -> 0 <= c < total_imgs self -> c <> v ->
  turns_to self v (wrapped self None (c + 1)) = turns_to self v c - 1.
Proof.
  intros Hv Hc Hne. unfold turns_to, wrapped.
  destruct (total_imgs self <=? c + 1) eqn:E1;
    destruct (c <=? v) eqn:E2;
    try destruct (0 <=? v) eqn:E3; try destruct (c + 1 <=? v) eqn:E4; lia.
Qed.

(** A turn with room in the batch goes on, with the pairs in order and
    closer to the end. *)
Lemma training_turn_room (v : Z) (pv : string) (s : loop_state) :
  0 <= v < total_imgs self ->
  img_paths self !! Z.to_nat v = Some pv ->
  valid_image w self pv = true ->
  batch_ok w self s -> 0 <= cur_idx s ->
  Z.of_nat (length (imgs_hr s)) < batch_size self ->
  exists s', iteration w self None true bicubic s = inl s' /\
             (batch_ok w self s' /\ 0 <= cur_idx s') /\
             (to_go self v s' < to_go self v s)%nat.
Proof.
  intros Hv Hpv Hvalid Hok Hcur Hroom.
  destruct (batch_done_imgs self None s) as (Hh & Hl & _).
  pose proof (batch_done_cur self None s) as Hc1.
  destruct (iteration_continues w self None true bicubic s) as (s' & Hit & Hc' & Hs').
  { unfold batch_done. cbn [fst].
    destruct (total_imgs self <=? cur_idx s); cbn [imgs_hr set_cur]; apply Z.leb_gt; lia. }
  set (s1 := snd (batch_done self None s)) in *.
  assert (Hok1 : batch_ok w self s1) by (apply (batch_ok_same w self s); assumption).
  destruct (try_body_training w self bicubic pil four_options
              crops_positive scale_positive scale_le_height scale_le_width s1 Hok1)
    as (Hok2 & Hle & Hprog).
  set (s2 := snd (try_body w self None true bicubic s1)) in *.
  assert (Hh' : imgs_hr s' = imgs_hr s2) by (rewrite Hs'; reflexivity).
  assert (Hl' : imgs_lr s' = imgs_lr s2) by (rewrite Hs'; reflexivity).
  assert (Hok' : batch_ok w self s') by (apply (batch_ok_same w self s2); assumption).
  destruct (wrapped_range self (cur_idx s) Hcur) as (Hw0 & Hw1).
  specialize (Hw1 ltac:(lia)).
  set (c := wrapped self None (cur_idx s)) in *.
  exists s'. split; [exact Hit|]. split; [split; [exact Hok'|lia]|].
  unfold to_go. rewrite Hc', Hh'. fold c. rewrite Hh in Hle.
  pose proof Hok2 as (_ & Hcap).
  assert (Hnext : 0 <= wrapped self None (c + 1) < total_imgs self).
  { destruct (wrapped_range self (c + 1)) as (? & Hn); [lia|]. split; [assumption|]. apply Hn; lia. }
  pose proof (turns_to_range v c Hv ltac:(lia)) as Hd.
  pose proof (turns_to_range v _ Hv Hnext) as Hd'.
  destruct (Z.eq_dec c v) as [Heq|Hne].
  - destruct (index_in_range (img_paths self) (cur_idx s1)) as (p & Hp & Hp'); [lia|].
    rewrite Hc1 in Hp'. fold c in Hp'. rewrite Heq, Hpv in Hp'. injection Hp' as <-.
    specialize (Hprog pv Hp Hvalid ltac:(rewrite Hh; lia)). rewrite Hh in Hprog.
    assert (Hmul : (batch_size self - Z.of_nat (length (imgs_hr s2))) * (total_imgs self + 1)
                   <= (batch_size self - Z.of_nat (length (imgs_hr s)) - 1)
                      * (total_imgs self + 1))
      by (apply Z.mul_le_mono_nonneg_r; lia).
    assert (Hnn : 0 <= (batch_size self - Z.of_nat (length (imgs_hr s2)))
                       * (total_imgs self + 1))
      by (apply Z.mul_nonneg_nonneg; lia).
    lia.
  - rewrite (turns_to_next v c Hv ltac:(lia) Hne).
    assert (Hmul : (batch_size self - Z.of_nat (length (imgs_hr s2))) * (total_imgs self + 1)
                   <= (batch_size self - Z.of_nat (length (imgs_hr s)))
                      * (total_imgs self + 1))
      by (apply Z.mul_le_mono_nonneg_r; lia).
    assert (Hnn : 0 <= (batch_size self - Z.of_nat (length (imgs_hr s2)))
                       * (total_imgs self + 1))
      by (apply Z.mul_nonneg_nonneg; lia).
    assert (Hd1 : 1 <= turns_to self v c).
    { unfold turns_to in *. destruct (c <=? v) eqn:E; lia. }
    lia.
Qed.

Lemma training_returns (k0 : nat) (idx : Z) :
  0 <= idx ->
  batch_size self
    <= Z.of_nat (length (filter (fun p => valid_image w self p = true) (img_paths self))) ->
  exists fuel r,
    while_true w self fuel None true bicubic (entry_state self k0 idx None) = Some r /\
    batch_ok w self r /\ Z.of_nat (length (imgs_hr r)) = batch_size self.
Proof.
  intros Hidx Hpool.
  assert (Hstart : batch_ok w self (entry_state self k0 idx None) /\
                   0 <= cur_idx (entry_state self k0 idx None)).
  { split; [split; [constructor|cbn; lia]|cbn; lia]. }
  destruct (Z.eq_dec (batch_size self) 0) as [Hzero|Hpos].
  - destruct (training_turn_full (entry_state self k0 idx None) (proj1 Hstart))
      as (r & Hit & Hr); [cbn; lia|].
    exists 1%nat, r. cbn [while_true]. rewrite Hit. auto.
  - destruct (filter (fun p => valid_image w self p = true) (img_paths self))
      as [|pv rest] eqn:Ef; [cbn in Hpool; lia|].
    assert (Hin : pv ∈ filter (fun p => valid_image w self p = true) (img_paths self))
      by (rewrite Ef; left).
    apply list_elem_of_filter in Hin. destruct Hin as (Hvalid & Hin).
    apply list_elem_of_lookup_1 in Hin. destruct Hin as (j & Hj).
    pose proof (lookup_lt_Some _ _ _ Hj) as Hjlt.
    assert (Hv : 0 <= Z.of_nat j < total_imgs self) by lia.
    assert (Hpv : img_paths self !! Z.to_nat (Z.of_nat j) = Some pv)
      by (rewrite Nat2Z.id; exact Hj).
    destruct (while_true_returns w self None true bicubic
                (fun s => batch_ok w self s /\ 0 <= cur_idx s)
                (fun r => batch_ok w self r /\
                          Z.of_nat (length (imgs_hr r)) = batch_size self)
                (to_go self (Z.of_nat j))) with (s := entry_state self k0 idx None)
      as (fuel & r & Hrun & Hr); [|exact Hstart|].
    + intros s (Hok & Hcur).
      destruct (Z_lt_le_dec (Z.of_nat (length (imgs_hr s))) (batch_size self)) as [Hroom|Hfull].
      * right. apply (training_turn_room (Z.of_nat j) pv); assumption.
      * left. apply training_turn_full; assumption.
    + exists fuel, r. auto.
Qed.

End TrainingRuns.

Lemma init_fields (root : list entry) (datapath : string) (B H W F cpi : Z) (self : t) :
  DataLoader.__init__ root datapath B H W F cpi = Ok self ->
  batch_size self = B /\ height_hr self = H /\ width_hr self = W /\ scale self = F /\
  crops_per_image self = cpi /\
  options self = [NEAREST; BILINEAR; BICUBIC; LANCZOS] /\
  total_imgs self = Z.of_nat (length (img_paths self)).
Proof.
  intros Hinit. destruct (init_inversion _ _ _ _ _ _ _ _ Hinit) as (h_lr & w_lr & _ & _ & ->).
  cbn. repeat split.
Qed.

(** Below 2^53 the sizes [__init__] computes in floating point are the
    integer quotients. *)
Lemma init_lr_sizes (root : list entry) (datapath : string) (B H W F cpi : Z) (self : t) :
  DataLoader.__init__ root datapath B H W F cpi = Ok self ->
  Z.abs H < 2 ^ 53 -> Z.abs W < 2 ^ 53 ->
  height_lr self = Z.quot H F /\ width_lr self = Z.quot W F.
Proof.
  intros Hinit HH HW.
  destruct (init_inversion _ _ _ _ _ _ _ _ Hinit) as (h_lr & w_lr & Hh & Hw & ->).
  rewrite (int_truediv_float H F HH) in Hh. rewrite (int_truediv_float W F HW) in Hw.
  unfold Py.int_truediv in Hh, Hw.
  destruct (F =? 0); [discriminate|].
  injection Hh as <-. injection Hw as <-. cbn. auto.
Qed.

(** C3, as the code has it. Take a loader built by [__init__] with a batch
    size B >= 0, at least one crop an image, and a crop of sides below
    2^53 and no smaller than the scale F >= 1, over a pool in which at
    least B images open and are at least as large as the crop. Then
    [__getitem__], for any index [idx >= 0], returns, and what it returns
    is B pairs. Each high-resolution crop has the configured
    (height, width) and is a window of an image of the pool, or of its
    mirror image, with every value v scaled to v / 127.5 - 1, in [-1, 1].
    Each low-resolution crop has (height/F, width/F), the sizes
    [__init__] stored, and is PIL's resize of that same window to
    (width/F, height/F) with every value v scaled to v / 255, in [0, 1]. *)
Theorem training_batch_is_full
    (w : world) (root : list entry) (datapath : string) (B H W F cpi : Z) (self : t)
    (k0 : nat) (idx : Z) :
  pil_ok w ->
  DataLoader.__init__ root datapath B H W F cpi = Ok self ->
  0 <= B -> 1 <= cpi -> 1 <= F -> F <= H < 2 ^ 53 -> F <= W < 2 ^ 53 ->
  0 <= idx ->
  B <= Z.of_nat (length (filter (fun p => valid_image w self p = true) (img_paths self))) ->
  exists fuel lr hr,
    __getitem__ w self fuel k0 idx = Some (lr, hr) /\
    (forall extra, __getitem__ w self (fuel + extra) k0 idx = Some (lr, hr)) /\
    Z.of_nat (length hr) = B /\ Z.of_nat (length lr) = B /\
    Forall2 (paired w self) hr lr /\
    (height_hr self, width_hr self) = (H, W) /\
    (height_lr self, width_lr self) = (Z.quot H F, Z.quot W F).
Proof.
  intros Hpil Hinit HB Hcpi HF HFH HFW Hidx Hpool.
  destruct (init_fields _ _ _ _ _ _ _ _ Hinit)
    as (EB & EH & EW & EF & Ecpi & Eopt & Etot).
  destruct (init_lr_sizes _ _ _ _ _ _ _ _ Hinit) as (Elh & Elw); [lia|lia|].
  destruct (training_returns w self false Hpil Eopt Etot) with (k0 := k0) (idx := idx)
    as (fuel & r & Hrun & (Hpairs & _) & Hlen); try lia.
  exists fuel, (imgs_lr r), (imgs_hr r).
  unfold __getitem__, load_batch, load_batch_run.
  split; [rewrite Hrun; reflexivity|]. split.
  { intros extra. rewrite (while_true_more w self _ _ _ _ extra _ _ Hrun). reflexivity. }
  split; [lia|]. split.
  { rewrite <- (Forall2_length _ _ _ Hpairs). lia. }
  split; [exact Hpairs|]. rewrite EH, EW, Elh, Elw. auto.
Qed.

(** ** The concrete disk satisfies what is assumed of PIL *)

Lemma nth_default_Forall {A} (P : A -> Prop) (l : list A) (d : A) (i : nat) :
  Forall P l -> P d -> P (nth i l d).
Proof.
  intros Hl Hd. revert i. induction Hl as [|x l Hx Hl IH]; intros [|i]; cbn; auto.
Qed.

Lemma flat_decoded (h wd v : Z) : is_uint8 v -> decoded (Demo.flat h wd v).
Proof.
  intros Hv. unfold Demo.flat. split.
  - unfold rect. destruct (Z.to_nat h) as [|n]; [constructor|].
    apply Forall_replicate. reflexivity.
  - unfold px_all. apply Forall_replicate, Forall_replicate. auto.
Qed.

Lemma nearest_ok (img : image Z) (wd ht : Z) (m : resample) :
  decoded img -> 1 <= wd -> 1 <= ht ->
  exists out, Demo.nearest img (wd, ht) m = Ok out /\ decoded out /\ shape out = (ht, wd).
Proof.
  intros (_ & Hpx) Hwd Hht. unfold Demo.nearest.
  destruct (wd <? 1) eqn:E1; [lia|]. destruct (ht <? 1) eqn:E2; [lia|]. cbn [orb].
  eexists. split; [reflexivity|].
  set (row := fun y : Z =>
                map (fun x : Z =>
                       nth (Z.to_nat (x * Raster.width img / wd))
                           (nth (Z.to_nat (y * Raster.height img / ht)) img [])
                           (0, 0, 0))
                    (Py.range wd)).
  assert (Hrowlen : forall y, Z.of_nat (length (row y)) = wd).
  { intros y. unfold row. rewrite length_map, range_length. lia. }
  assert (Hw : Raster.width (map row (Py.range ht)) = wd).
  { unfold Py.range. destruct (Z.to_nat ht) as [|n] eqn:E; [lia|].
    cbn [seq map Raster.width]. apply Hrowlen. }
  split; [split|].
  - unfold rect. rewrite Hw. apply Forall_map, Forall_forall. intros y _. apply Hrowlen.
  - unfold px_all. apply Forall_map, Forall_forall. intros y _.
    cbv beta delta [compose]. unfold row. apply Forall_map, Forall_forall. intros x _.
    cbv beta delta [compose].
    apply (nth_default_Forall (fun '(r, g, b) => is_uint8 r /\ is_uint8 g /\ is_uint8 b)).
    + apply (nth_default_Forall
               (Forall (fun '(r, g, b) => is_uint8 r /\ is_uint8 g /\ is_uint8 b)));
        [exact Hpx|constructor].
    + unfold is_uint8. lia.
  - unfold shape, Raster.height. rewrite Hw, length_map, range_length. f_equal; lia.
Qed.

Lemma disk_pil_ok : pil_ok Demo.disk.
Proof.
  split.
  - intros p img. cbn [Image_open Demo.disk].
    destruct (String.eqb p "d/a.png");
      [intros H; injection H as <-; apply flat_decoded; unfold is_uint8; lia|].
    destruct (String.eqb p "d/b.jpg");
      [intros H; injection H as <-; apply flat_decoded; unfold is_uint8; lia|].
    discriminate.
  - intros img wd ht m. apply nearest_ok.
Qed.

Lemma training_batch_is_full_witness :
  DataLoader.__init__ Demo.tree "d" 2 2 2 2 2 = Ok (Demo.loader 2 2) /\
  2 <= Z.of_nat (length (filter (fun p => valid_image Demo.disk (Demo.loader 2 2) p = true)
                                (img_paths (Demo.loader 2 2)))) /\
  exists fuel lr hr,
    __getitem__ Demo.disk (Demo.loader 2 2) fuel 0 0 = Some (lr, hr) /\
    Z.of_nat (length hr) = 2 /\
    Forall2 (paired Demo.disk (Demo.loader 2 2)) hr lr.
Proof.
  assert (Hinit : DataLoader.__init__ Demo.tree "d" 2 2 2 2 2 = Ok (Demo.loader 2 2))
    by (vm_compute; reflexivity).
  assert (Hpool : 2 <= Z.of_nat (length (filter
                     (fun p => valid_image Demo.disk (Demo.loader 2 2) p = true)
                     (img_paths (Demo.loader 2 2)))))
    by (vm_compute; discriminate).
  split; [exact Hinit|]. split; [exact Hpool|].
  destruct (training_batch_is_full Demo.disk Demo.tree "d" 2 2 2 2 2 (Demo.loader 2 2)
              0%nat 0 disk_pil_ok Hinit ltac:(lia) ltac:(lia) ltac:(lia) ltac:(lia)
              ltac:(lia) ltac:(lia) Hpool)
    as (fuel & lr & hr & Hrun & _ & Hlen & _ & Hpairs & _).
  exists fuel, lr, hr. auto.
Defined.

(** C3 as stated fails: it holds for no loader that takes no crop of an
    image. With [crops_per_image = 0], over a pool with two usable
    images, [__getitem__] never returns the batch of one pair asked of
    it: every image is opened, nothing is stored, and the loop goes
    on. *)
Lemma training_batch_counterexample :
  DataLoader.__init__ Demo.tree "d" 1 2 2 2 0 = Ok (Demo.loader 1 0) /\
  pil_ok Demo.disk /\
  filter (fun p => valid_image Demo.disk (Demo.loader 1 0) p = true)
         (img_paths (Demo.loader 1 0)) = ["d/a.png"; "d/b.jpg"]%string /\
  batch_size (Demo.loader 1 0) = 1 /\
  forall fuel k0 idx, __getitem__ Demo.disk (Demo.loader 1 0) fuel k0 idx = None.
Proof.
  split; [vm_compute; reflexivity|]. split; [exact disk_pil_ok|].
  split; [vm_compute; reflexivity|]. split; [reflexivity|].
  intros fuel k0 idx. unfold __getitem__, load_batch, load_batch_run.
  rewrite (while_true_never Demo.disk (Demo.loader 1 0) None true false
             (fun s => imgs_hr s = [])); [reflexivity| |reflexivity].
  intros s Hs. apply unusable_turn; [simpl; lia|left; simpl; lia|exact Hs].
Qed.

(* ===================================================================== *)
(** * Further properties of srgan.py *)
(* ===================================================================== *)

(** ** Shapes *)

Lemma upsampling_built_factor (F h w : Z) :
  SRGAN.layers_shape (SRGAN.upsampling F) (h, w, 64)
  = Some (built_factor F * h, built_factor F * w, 64).
Proof.
  unfold SRGAN.upsampling, built_factor.
  destruct (2 <? F) eqn:E2; destruct (4 <? F) eqn:E4; try lia;
    rewrite ?app_nil_r;
    repeat (rewrite layers_shape_app, upsample_shape);
    rewrite ?upsample_shape; cbn [SRGAN.layers_shape]; do 3 f_equal; lia.
Qed.

(** X1. Whatever the upscaling factor, the layers that [build_generator]
    makes enlarge a 3-channel input by 2, 4 or 8 and by nothing else, and
    by the factor itself exactly when it is 2, 4 or 8; an input that does
    not have 3 channels is refused. *)
Theorem generator_enlarges_by_two_four_or_eight (F channels residual_blocks h w c : Z) :
  SRGAN.generator_output_shape F channels residual_blocks (h, w, 3)
    = Some (built_factor F * h, built_factor F * w, channels) /\
  In (built_factor F) [2; 4; 8] /\
  (built_factor F = F <-> In F [2; 4; 8]) /\
  (c <> 3 -> SRGAN.generator_output_shape F channels residual_blocks (h, w, c) = None).
Proof.
  split; [|split; [|split]].
  - unfold SRGAN.generator_output_shape, SRGAN.build_generator.
    change (3 =? 3) with true. cbv iota.
    rewrite layers_shape_app, generator_head_shape, layers_shape_app, upsampling_built_factor.
    shapes. reflexivity.
  - unfold built_factor. destruct (4 <? F); [|destruct (2 <? F)]; cbn; auto.
  - unfold built_factor. cbn [In].
    destruct (4 <? F) eqn:E4; [|destruct (2 <? F) eqn:E2]; split; intros; lia.
  - intros Hc. unfold SRGAN.generator_output_shape.
    destruct (c =? 3) eqn:E; [lia|reflexivity].
Qed.

Lemma range_as_replicate {A} (x : A) (n : Z) :
  map (fun _ => x) (Py.range n) = replicate (Z.to_nat n) x.
Proof.
  unfold Py.range. rewrite map_map. generalize 0%nat.
  induction (Z.to_nat n) as [|m IH]; intros start; [reflexivity|].
  cbn [seq map replicate]. rewrite IH. reflexivity.
Qed.

(** X2. The generator has [residual_blocks] residual blocks, but never fewer
    than one: the first block is built outside the loop. *)
Theorem generator_has_at_least_one_residual_block (F channels residual_blocks : Z) :
  SRGAN.build_generator F channels residual_blocks
  = [SRGAN.Conv2D 64 9 1 SRGAN.linear ""; SRGAN.PReLU "";
     SRGAN.Skip (replicate (Z.to_nat (Z.max 1 residual_blocks)) SRGAN.residual_block ++
                 [SRGAN.Conv2D 64 3 1 SRGAN.linear ""; SRGAN.BatchNormalization])]
    ++ SRGAN.upsampling F ++ [SRGAN.Conv2D channels 9 1 SRGAN.tanh ""].
Proof.
  unfold SRGAN.build_generator. rewrite range_as_replicate.
  replace (Z.to_nat (Z.max 1 residual_blocks)) with (S (Z.to_nat (residual_blocks - 1))) by lia.
  reflexivity.
Qed.

(** X3. The discriminator answers with a grid of scores, one for each 16 x 16
    patch of its input (rounded up): four of its eight convolutions have
    stride 2, and the two dense layers act on the channels only. *)
Theorem discriminator_scores_patches (filters h w c : Z) :
  SRGAN.layers_shape (SRGAN.build_discriminator filters) (h, w, c)
  = Some ((h + 15) / 16, (w + 15) / 16, 1).
Proof.
  unfold SRGAN.build_discriminator.
  repeat (rewrite layers_shape_app, conv2d_block_shape).
  cbn [SRGAN.layers_shape SRGAN.layer_shape]. rewrite !same_out_1. unfold SRGAN.same_out.
  do 3 f_equal; Z.div_mod_to_equations; lia.
Qed.

(** X4. Depth-to-space keeps the number of elements: where the layer accepts
    its input, height x width x channels is the same before and after. *)
Theorem subpixel_keeps_element_count (name : string) (scale h w c h' w' c' : Z) :
  scale <> 0 ->
  SRGAN.layer_shape (SRGAN.SubpixelConv2D name scale) (h, w, c) = Some (h', w', c') ->
  h' * w' * c' = h * w * c /\ h' = h * scale /\ w' = w * scale /\ c = c' * scale ^ 2.
Proof.
  intros Hs. cbn [SRGAN.layer_shape].
  destruct (c mod scale ^ 2 =? 0) eqn:E; [|discriminate].
  cbn [SRGAN.subpixel_shape]. intros H. injection H as <- <- <-.
  apply Z.eqb_eq in E.
  assert (Hsq : scale ^ 2 <> 0) by nia.
  assert (Hc : c = scale ^ 2 * Z.quot c (scale ^ 2)).
  { apply Z.quot_exact; [exact Hsq|]. apply Z.rem_mod_eq_0; assumption. }
  split; [|split; [reflexivity|split; [reflexivity|lia]]].
  rewrite Hc at 2. replace (scale ^ 2) with (scale * scale) by ring. ring.
Qed.

Lemma subpixel_keeps_element_count_witness :
  2 <> 0 /\
  SRGAN.layer_shape (SRGAN.SubpixelConv2D "upSampleSubPixel_1" 2) (24, 24, 256)
    = Some (48, 48, 64) /\
  48 * 48 * 64 = 24 * 24 * 256.
Proof.
  assert (H2 : 2 <> 0) by lia.
  assert (Hs : SRGAN.layer_shape (SRGAN.SubpixelConv2D "upSampleSubPixel_1" 2) (24, 24, 256)
               = Some (48, 48, 64)) by reflexivity.
  split; [exact H2|]. split; [exact Hs|].
  exact (proj1 (subpixel_keeps_element_count "upSampleSubPixel_1" 2 24 24 256 48 48 64 H2 Hs)).
Defined.

(** ** The models of a constructed object *)


(** X5. Construction in training mode with three channels and a
    high-resolution size that VGG19 takes makes four model objects, all
    new and different, and leaves the models that were there alone. The
    generator is trainable and compiled with mse at the generator's
    rate. The feature extractor is frozen. The discriminator, compiled
    with binary cross-entropy at its own rate, is left with its trainable
    flag off: [build_srgan] clears the flag on the one discriminator
    object that the attribute and the combined network share. The
    combined network is made of these same three objects. With another
    channel count, or a size that VGG19 refuses, construction raises in
    [build_vgg], which applies VGG19 to the high-resolution input: no
    object is returned and the compiled generator is the one model that
    has been made. *)
Theorem training_mode_builds_four_models
    (k : SRGAN.keras) (height_lr width_lr channels F : Z) (gen_lr dis_lr : Qc)
    (loss_weights : list Qc) (b : gmap nat SRGAN.model) :
  In F [2; 4; 8] ->
  (channels = 3 -> SRGAN.vgg19_accepts k (height_lr * F, width_lr * F) = true ->
   exists obj b' g v d n,
    SRGAN.construct k height_lr width_lr channels F gen_lr dis_lr loss_weights true b
    = (Ok obj, b') /\
    (obj !! "generator"%string = Some (SRGAN.VModel g) /\
     obj !! "vgg"%string = Some (SRGAN.VModel v) /\
     obj !! "discriminator"%string = Some (SRGAN.VModel d) /\
     obj !! "srgan"%string = Some (SRGAN.VModel n)) /\
    NoDup [g; v; d; n] /\
    (b !! g = None /\ b !! v = None /\ b !! d = None /\ b !! n = None) /\
    (forall r, is_Some (b !! r) -> b' !! r = b !! r) /\
    b' !! g = Some {| SRGAN.arch := SRGAN.Layers (None, None, 3)
                                      (SRGAN.build_generator F channels 16);
                      SRGAN.weights := SRGAN.initializer k
                                         (SRGAN.Layers (None, None, 3)
                                            (SRGAN.build_generator F channels 16));
                      SRGAN.trainable := true;
                      SRGAN.loss := ["mse"%string];
                      SRGAN.learning_rate := Some gen_lr |} /\
    b' !! v = Some {| SRGAN.arch := SRGAN.VGG19_features
                                      (height_lr * F, width_lr * F, channels);
                      SRGAN.weights := SRGAN.initializer k
                                         (SRGAN.VGG19_features
                                            (height_lr * F, width_lr * F, channels));
                      SRGAN.trainable := false;
                      SRGAN.loss := ["mse"%string];
                      SRGAN.learning_rate := Some gen_lr |} /\
    b' !! d = Some {| SRGAN.arch := SRGAN.Layers
                                      (Some (height_lr * F), Some (width_lr * F), channels)
                                      (SRGAN.build_discriminator 64);
                      SRGAN.weights := SRGAN.initializer k
                                         (SRGAN.Layers
                                            (Some (height_lr * F), Some (width_lr * F), channels)
                                            (SRGAN.build_discriminator 64));
                      SRGAN.trainable := false;
                      SRGAN.loss := ["binary_crossentropy"%string];
                      SRGAN.learning_rate := Some dis_lr |} /\
    b' !! n = Some {| SRGAN.arch := SRGAN.Combined (height_lr, width_lr, channels) g v d;
                      SRGAN.weights := SRGAN.initializer k
                                         (SRGAN.Combined (height_lr, width_lr, channels) g v d);
                      SRGAN.trainable := true;
                      SRGAN.loss := ["binary_crossentropy"%string; "mse"%string];
                      SRGAN.learning_rate := Some gen_lr |}) /\
  (channels <> 3 \/ SRGAN.vgg19_accepts k (height_lr * F, width_lr * F) = false ->
   exists g,
    b !! g = None /\
    SRGAN.construct k height_lr width_lr channels F gen_lr dis_lr loss_weights true b
    = (Raise SRGAN.incompatible,
       <[g := {| SRGAN.arch := SRGAN.Layers (None, None, 3)
                                 (SRGAN.build_generator F channels 16);
                 SRGAN.weights := SRGAN.initializer k
                                    (SRGAN.Layers (None, None, 3)
                                       (SRGAN.build_generator F channels 16));
                 SRGAN.trainable := true;
                 SRGAN.loss := ["mse"%string];
                 SRGAN.learning_rate := Some gen_lr |}]> b)).
Proof.
  intros HF. split.
  - intros -> Hacc.
    destruct (training_construct k height_lr width_lr F gen_lr dis_lr loss_weights b HF Hacc)
      as (obj & Hrun & _ & Og & Ov & Od & On).
    cbv zeta in Hrun, Og, Ov, Od, On.
    pose proof (fresh_ref_unused b) as H0.
    set (g := fresh (dom b)) in *.
    match type of Hrun with
    | context [<[g := ?m]> b] => set (mg := m) in *; set (b1 := <[g := mg]> b) in *
    end.
    pose proof (fresh_ref_unused b1) as H1.
    set (v := fresh (dom b1)) in *.
    match type of Hrun with
    | context [<[v := ?m]> b1] => set (mv := m) in *; set (b2 := <[v := mv]> b1) in *
    end.
    pose proof (fresh_ref_unused b2) as H2.
    set (d := fresh (dom b2)) in *.
    match type of Hrun with
    | context [<[d := ?m]> b2] => set (md := m) in *; set (b3 := <[d := md]> b2) in *
    end.
    pose proof (fresh_ref_unused b3) as H3.
    set (n := fresh (dom b3)) in *.
    match type of Hrun with
    | context [<[n := ?m]> b3] => set (mn := m) in *; set (b4 := <[n := mn]> b3) in *
    end.
    assert (G1 : b1 !! g = Some mg) by apply lookup_insert_eq.
    assert (Hvg : v <> g) by (intros E; rewrite E in H1; congruence).
    assert (O1 : forall r, r <> g -> b1 !! r = b !! r)
      by (intros r Hr; apply lookup_insert_ne; congruence).
    assert (V2 : b2 !! v = Some mv) by apply lookup_insert_eq.
    assert (O2 : forall r, r <> v -> b2 !! r = b1 !! r)
      by (intros r Hr; apply lookup_insert_ne; congruence).
    assert (Hdv : d <> v) by (intros E; rewrite E in H2; congruence).
    assert (Hdg : d <> g) by (intros E; rewrite E, O2, G1 in H2; congruence).
    assert (D3 : b3 !! d = Some md) by apply lookup_insert_eq.
    assert (O3 : forall r, r <> d -> b3 !! r = b2 !! r)
      by (intros r Hr; apply lookup_insert_ne; congruence).
    assert (Hnd : n <> d) by (intros E; rewrite E in H3; congruence).
    assert (Hnv : n <> v) by (intros E; rewrite E, O3, V2 in H3; congruence).
    assert (Hng : n <> g) by (intros E; rewrite E, O3, O2, G1 in H3; congruence).
    assert (O4 : forall r, r <> n -> b4 !! r = b3 !! r)
      by (intros r Hr; apply lookup_insert_ne; congruence).
    exists obj, b4, g, v, d, n. split; [exact Hrun|].
    split; [auto|].
    split.
    { repeat constructor; rewrite ?list_elem_of_In; cbn [In]; intuition congruence. }
    assert (Bv : b !! v = None) by (rewrite <- (O1 v Hvg); exact H1).
    assert (Bd : b !! d = None) by (rewrite <- (O1 d Hdg), <- (O2 d Hdv); exact H2).
    assert (Bn : b !! n = None)
      by (rewrite <- (O1 n Hng), <- (O2 n Hnv), <- (O3 n Hnd); exact H3).
    split; [auto|]. split.
    { intros r [m Hr].
      assert (r <> g /\ r <> v /\ r <> d /\ r <> n) as (? & ? & ? & ?)
        by (repeat split; intros E; rewrite E in Hr; congruence).
      rewrite O4, O3, O2, O1 by assumption. reflexivity. }
    split; [rewrite O4, O3, O2 by congruence; exact G1|].
    split; [rewrite O4, O3 by congruence; exact V2|].
    split; [rewrite O4 by congruence; exact D3|].
    apply lookup_insert_eq.
  - intros Hno. exists (fresh (dom b)). split; [apply fresh_ref_unused|].
    apply training_construct_refused; [exact HF|].
    apply andb_false_iff. destruct Hno as [Hc|Hv]; [left; apply Z.eqb_neq; exact Hc|right; exact Hv].
Qed.

Lemma training_mode_builds_four_models_witness :
  In 4 [2; 4; 8] /\
  (exists obj b' d,
    SRGAN.construct Demo.backend 24 24 3 4 (Q2Qc (1 # 10000)) (Q2Qc (1 # 10000)) [] true ∅
    = (Ok obj, b') /\
    obj !! "discriminator"%string = Some (SRGAN.VModel d) /\
    SRGAN.trainable <$> b' !! d = Some false) /\
  (exists b',
    SRGAN.construct Demo.backend 24 24 1 4 (Q2Qc (1 # 10000)) (Q2Qc (1 # 10000)) [] true ∅
    = (Raise SRGAN.incompatible, b')).
Proof.
  assert (H : In 4 [2; 4; 8]) by (simpl; auto).
  split; [exact H|]. split.
  - destruct (proj1 (training_mode_builds_four_models Demo.backend 24 24 3 4
                (Q2Qc (1 # 10000)) (Q2Qc (1 # 10000)) [] ∅ H) eq_refl eq_refl)
      as (obj & b' & g & v & d & n & Hrun & (_ & _ & Hd & _) & _ & _ & _ & _ & _ & Hbd & _).
    exists obj, b', d. split; [exact Hrun|]. split; [exact Hd|].
    rewrite Hbd. reflexivity.
  - assert (Hc : 1 <> 3) by lia.
    destruct (proj2 (training_mode_builds_four_models Demo.backend 24 24 1 4
                (Q2Qc (1 # 10000)) (Q2Qc (1 # 10000)) [] ∅ H) (or_introl Hc))
      as (g & _ & Hrun).
    eexists. exact Hrun.
Defined.

(** ** Weights of an object without discriminator *)

Lemma no_attribute (s : SRGAN.state) (attr : string) :
  SRGAN.self s !! attr = None ->
  SRGAN.getattr_model attr s = (Raise (AttributeError attr), s).
Proof.
  intros H. unfold SRGAN.getattr_model, SRGAN.getattr, Py.bind. rewrite H. reflexivity.
Qed.

Lemma load_weights_no_discriminator (k : SRGAN.keras) (s : SRGAN.state)
    (g : nat) (pg pd : string) (wg : list Qc) :
  SRGAN.self s !! "discriminator"%string = None ->
  SRGAN.self s !! "generator"%string = Some (SRGAN.VModel g) ->
  SRGAN.h5_files k !! pg = Some wg -> pg <> ""%string -> pd <> ""%string ->
  SRGAN.load_weights k None (Some pd) s = (Raise (AttributeError "discriminator"), s) /\
  SRGAN.load_weights k (Some pg) (Some pd) s
  = (Raise (AttributeError "discriminator"),
     {| SRGAN.self := SRGAN.self s;
        SRGAN.backend := alter (with_weights wg) g (SRGAN.backend s) |}).
Proof.
  intros Hd Hg Hfile Hpg Hpd. split.
  - unfold SRGAN.load_weights. rewrite (truthy_nonempty pd Hpd).
    rewrite (bind_ok (Py.ret tt) _ _ _ tt eq_refl).
    apply bind_raise. apply no_attribute. exact Hd.
  - unfold SRGAN.load_weights. rewrite (truthy_nonempty pd Hpd), (truthy_nonempty pg Hpg).
    rewrite (bind_ok _ _ _ _ tt (load_into k "generator" _ g pg wg Hg Hfile)).
    apply bind_raise. apply no_attribute. exact Hd.
Qed.

(** X6. Construction with [training_mode=False] makes the generator and
    nothing else: the object has no feature extractor, no discriminator
    and no combined network. Asked for discriminator weights, its
    [load_weights] raises AttributeError; generator weights named in the
    same call have been loaded by then. *)
Theorem inference_mode_has_no_discriminator
    (k : SRGAN.keras) (height_lr width_lr channels F : Z) (gen_lr dis_lr : Qc)
    (loss_weights : list Qc) (b : gmap nat SRGAN.model)
    (pg pd : string) (wg : list Qc) :
  In F [2; 4; 8] ->
  SRGAN.h5_files k !! pg = Some wg -> pg <> ""%string -> pd <> ""%string ->
  exists obj b' g,
    SRGAN.construct k height_lr width_lr channels F gen_lr dis_lr loss_weights false b
    = (Ok obj, b') /\
    obj !! "generator"%string = Some (SRGAN.VModel g) /\
    b !! g = None /\ is_Some (b' !! g) /\
    (forall r, r <> g -> b' !! r = b !! r) /\
    (obj !! "vgg"%string = None /\ obj !! "discriminator"%string = None /\
     obj !! "srgan"%string = None) /\
    SRGAN.load_weights k None (Some pd) {| SRGAN.self := obj; SRGAN.backend := b' |}
    = (Raise (AttributeError "discriminator"),
       {| SRGAN.self := obj; SRGAN.backend := b' |}) /\
    SRGAN.load_weights k (Some pg) (Some pd) {| SRGAN.self := obj; SRGAN.backend := b' |}
    = (Raise (AttributeError "discriminator"),
       {| SRGAN.self := obj; SRGAN.backend := alter (with_weights wg) g b' |}).
Proof.
  intros HF Hfile Hpg Hpd.
  destruct (inference_construct k height_lr width_lr channels F gen_lr dis_lr
              loss_weights b HF)
    as (obj & b' & g & Hrun & Hg & H0 & Hsome & Hframe & (Hv & Hd & Hn) & _).
  exists obj, b', g.
  destruct (load_weights_no_discriminator k {| SRGAN.self := obj; SRGAN.backend := b' |}
              g pg pd wg Hd Hg Hfile Hpg Hpd) as (L1 & L2).
  split; [exact Hrun|]. split; [exact Hg|]. split; [exact H0|]. split; [exact Hsome|].
  split; [exact Hframe|]. split; [auto|]. split; [exact L1|exact L2].
Qed.

Lemma inference_mode_has_no_discriminator_witness :
  In 4 [2; 4; 8] /\
  SRGAN.h5_files Demo.backend !! "gen.h5"%string = Some [Q2Qc 1; Q2Qc 2] /\
  exists obj b',
    SRGAN.construct Demo.backend 24 24 3 4 (Q2Qc (1 # 10000)) (Q2Qc (1 # 10000)) [] false ∅
    = (Ok obj, b') /\
    SRGAN.load_weights Demo.backend None (Some "dis.h5"%string)
      {| SRGAN.self := obj; SRGAN.backend := b' |}
    = (Raise (AttributeError "discriminator"), {| SRGAN.self := obj; SRGAN.backend := b' |}).
Proof.
  assert (H : In 4 [2; 4; 8]) by (simpl; auto).
  assert (Hf : SRGAN.h5_files Demo.backend !! "gen.h5"%string = Some [Q2Qc 1; Q2Qc 2])
    by (vm_compute; reflexivity).
  split; [exact H|]. split; [exact Hf|].
  destruct (inference_mode_has_no_discriminator Demo.backend 24 24 3 4
              (Q2Qc (1 # 10000)) (Q2Qc (1 # 10000)) [] ∅ "gen.h5" "dis.h5" _ H Hf
              ltac:(discriminate) ltac:(discriminate))
    as (obj & b' & g & Hrun & _ & _ & _ & _ & _ & Hload & _).
  exists obj, b'. split; [exact Hrun|exact Hload].
Defined.

(** ** Checkpoints *)

Lemma str_app_inj_l (a x y : string) : a +:+ x = a +:+ y -> x = y.
Proof.
  induction a as [|c a IH]; [auto|].
  rewrite !str_app_cons. intros H. injection H as H. auto.
Qed.

Lemma weights_file_distinct (filepath : string) (F : Z) (e : option Z) :
  weights_file filepath "generator" F e <> weights_file filepath "discriminator" F e.
Proof.
  unfold weights_file. intros H. apply str_app_inj_l in H.
  change ("_" +:+ "generator" +:+ ?x) with (String "_" (String "g" ("enerator" +:+ x))) in H.
  discriminate H.
Qed.

Lemma weights_file_nonempty (filepath kind : string) (F : Z) (e : option Z) :
  weights_file filepath kind F e <> ""%string.
Proof. unfold weights_file. destruct filepath; discriminate. Qed.

Lemma on_gan_attr (s : checkpointed) (attr : string) (r : nat) :
  SRGAN.self (gan s) !! attr = Some (SRGAN.VModel r) ->
  on_gan (SRGAN.getattr_model attr) s = (Ok r, s).
Proof.
  intros H. unfold on_gan, SRGAN.getattr_model, SRGAN.getattr, Py.bind. rewrite H.
  destruct s; reflexivity.
Qed.

Lemma on_gan_int (s : checkpointed) (attr : string) (n : Z) :
  SRGAN.self (gan s) !! attr = Some (SRGAN.VInt n) ->
  on_gan (SRGAN.getattr_int attr) s = (Ok n, s).
Proof.
  intros H. unfold on_gan, SRGAN.getattr_int, SRGAN.getattr, Py.bind. rewrite H.
  destruct s; reflexivity.
Qed.

(** X7. [save_weights] writes two different files, one with the generator's
    weights and one with the discriminator's, and changes nothing else.
    As long as these files stay as written, [load_weights] given their
    two names puts exactly the saved weights back into the generator and
    the discriminator, whatever the weights have become in between. *)
Theorem saved_weights_load_back
    (k : SRGAN.keras) (s : checkpointed) (filepath : string) (e : option Z)
    (g d : nat) (F : Z) (mg md : SRGAN.model) :
  SRGAN.self (gan s) !! "generator"%string = Some (SRGAN.VModel g) ->
  SRGAN.self (gan s) !! "discriminator"%string = Some (SRGAN.VModel d) ->
  SRGAN.self (gan s) !! "upscaling_factor"%string = Some (SRGAN.VInt F) ->
  SRGAN.backend (gan s) !! g = Some mg ->
  SRGAN.backend (gan s) !! d = Some md ->
  g <> d ->
  exists s1,
    save_weights filepath e s = (Ok tt, s1) /\
    gan s1 = gan s /\
    disk s1 = <[weights_file filepath "discriminator" F e := SRGAN.weights md]>
                (<[weights_file filepath "generator" F e := SRGAN.weights mg]> (disk s)) /\
    weights_file filepath "generator" F e <> weights_file filepath "discriminator" F e /\
    forall s2,
      disk s2 = disk s1 ->
      SRGAN.self (gan s2) = SRGAN.self (gan s) ->
      exists s3,
        load_weights_from_disk k (Some (weights_file filepath "generator" F e))
                                 (Some (weights_file filepath "discriminator" F e)) s2
        = (Ok tt, s3) /\
        disk s3 = disk s2 /\
        SRGAN.backend (gan s3) !! g = with_weights (SRGAN.weights mg) <$> SRGAN.backend (gan s2) !! g /\
        SRGAN.backend (gan s3) !! d = with_weights (SRGAN.weights md) <$> SRGAN.backend (gan s2) !! d /\
        forall r, r <> g -> r <> d -> SRGAN.backend (gan s3) !! r = SRGAN.backend (gan s2) !! r.
Proof.
  intros Hg Hd HF Hmg Hmd Hgd.
  pose proof (weights_file_distinct filepath F e) as Hne.
  set (gf := weights_file filepath "generator" F e) in *.
  set (df := weights_file filepath "discriminator" F e) in *.
  set (s' := {| gan := gan s; disk := <[gf := SRGAN.weights mg]> (disk s) |}).
  eexists. split.
  { unfold save_weights.
    rewrite (bind_ok _ _ _ _ _ (on_gan_attr s _ g Hg)).
    rewrite (bind_ok _ _ _ _ _ (on_gan_int s _ F HF)).
    rewrite (bind_ok _ _ s s' tt) by (unfold Model_save_weights; rewrite Hmg; reflexivity).
    rewrite (bind_ok _ _ _ _ _ (on_gan_attr s' _ d Hd)).
    rewrite (bind_ok _ _ _ _ _ (on_gan_int s' _ F HF)).
    unfold Model_save_weights. cbn [gan s']. rewrite Hmd. reflexivity. }
  cbn [gan disk s']. split; [reflexivity|]. split; [reflexivity|]. split; [exact Hne|].
  intros s2 Hdisk Hself.
  assert (Hgf : disk s2 !! gf = Some (SRGAN.weights mg)).
  { rewrite Hdisk, lookup_insert_ne, lookup_insert_eq by (intros E; apply Hne; auto).
    reflexivity. }
  assert (Hdf : disk s2 !! df = Some (SRGAN.weights md)).
  { rewrite Hdisk, lookup_insert_eq. reflexivity. }
  set (kd := {| SRGAN.initializer := SRGAN.initializer k; SRGAN.h5_files := disk s2;
                SRGAN.vgg19_accepts := SRGAN.vgg19_accepts k |}).
  set (t1 := {| SRGAN.self := SRGAN.self (gan s2);
                SRGAN.backend := alter (with_weights (SRGAN.weights mg)) g
                                   (SRGAN.backend (gan s2)) |}).
  assert (Hrun : SRGAN.load_weights kd (Some gf) (Some df) (gan s2)
                 = (Ok tt, {| SRGAN.self := SRGAN.self t1;
                              SRGAN.backend := alter (with_weights (SRGAN.weights md)) d
                                                 (SRGAN.backend t1) |})).
  { unfold SRGAN.load_weights.
    rewrite (truthy_nonempty gf (weights_file_nonempty _ _ _ _)).
    rewrite (truthy_nonempty df (weights_file_nonempty _ _ _ _)).
    rewrite (bind_ok _ _ _ _ tt
               (load_into kd "generator" (gan s2) g gf _ ltac:(rewrite Hself; exact Hg) Hgf)).
    fold t1.
    apply (load_into kd "discriminator" t1 d df).
    - cbn [SRGAN.self t1]. rewrite Hself. exact Hd.
    - exact Hdf. }
  eexists. split.
  { unfold load_weights_from_disk, on_gan. fold kd. rewrite Hrun. reflexivity. }
  cbn [gan disk SRGAN.backend SRGAN.self t1]. split; [reflexivity|]. split; [|split].
  - rewrite lookup_alter_ne, lookup_alter_eq by congruence. reflexivity.
  - rewrite lookup_alter_eq, lookup_alter_ne by congruence. reflexivity.
  - intros r Hrg Hrd. rewrite !lookup_alter_ne by congruence. reflexivity.
Qed.

Lemma saved_weights_load_back_witness :
  SRGAN.self Demo.gan !! "generator"%string = Some (SRGAN.VModel 0%nat) /\
  SRGAN.self Demo.gan !! "discriminator"%string = Some (SRGAN.VModel 2%nat) /\
  exists s1,
    save_weights "w/DIV2K" (Some 500) {| gan := Demo.gan; disk := ∅ |} = (Ok tt, s1) /\
    gan s1 = Demo.gan.
Proof.
  assert (Hg : SRGAN.self Demo.gan !! "generator"%string = Some (SRGAN.VModel 0%nat))
    by (vm_compute; reflexivity).
  assert (Hd : SRGAN.self Demo.gan !! "discriminator"%string = Some (SRGAN.VModel 2%nat))
    by (vm_compute; reflexivity).
  assert (HF : SRGAN.self Demo.gan !! "upscaling_factor"%string = Some (SRGAN.VInt 4))
    by (vm_compute; reflexivity).
  destruct (SRGAN.backend Demo.gan !! 0%nat) as [mg|] eqn:Emg; [|vm_compute in Emg; discriminate].
  destruct (SRGAN.backend Demo.gan !! 2%nat) as [md|] eqn:Emd; [|vm_compute in Emd; discriminate].
  split; [exact Hg|]. split; [exact Hd|].
  destruct (saved_weights_load_back Demo.backend {| gan := Demo.gan; disk := ∅ |}
              "w/DIV2K" (Some 500) 0%nat 2%nat 4 mg md Hg Hd HF Emg Emd ltac:(lia))
    as (s1 & Hsave & Hgan & _).
  exists s1. split; [exact Hsave|exact Hgan].
Defined.

(** X8. On an object without discriminator, as [training_mode=False] makes
    it, [save_weights] writes the generator's file and then raises
    AttributeError: the file stays. *)
Theorem save_weights_without_discriminator
    (s : checkpointed) (filepath : string) (e : option Z) (g : nat) (F : Z) (mg : SRGAN.model) :
  SRGAN.self (gan s) !! "generator"%string = Some (SRGAN.VModel g) ->
  SRGAN.self (gan s) !! "upscaling_factor"%string = Some (SRGAN.VInt F) ->
  SRGAN.backend (gan s) !! g = Some mg ->
  SRGAN.self (gan s) !! "discriminator"%string = None ->
  save_weights filepath e s
  = (Raise (AttributeError "discriminator"),
     {| gan := gan s;
        disk := <[weights_file filepath "generator" F e := SRGAN.weights mg]> (disk s) |}).
Proof.
  intros Hg HF Hmg Hd. unfold save_weights.
  rewrite (bind_ok _ _ _ _ _ (on_gan_attr s _ g Hg)).
  rewrite (bind_ok _ _ _ _ _ (on_gan_int s _ F HF)).
  set (s' := {| gan := gan s;
                disk := <[weights_file filepath "generator" F e := SRGAN.weights mg]> (disk s) |}).
  rewrite (bind_ok _ _ s s' tt) by (unfold Model_save_weights; rewrite Hmg; reflexivity).
  apply bind_raise. unfold on_gan. cbn [gan s'].
  rewrite (no_attribute (gan s) "discriminator" Hd). reflexivity.
Qed.

Lemma save_weights_without_discriminator_witness :
  exists s g mg,
    SRGAN.self (gan s) !! "generator"%string = Some (SRGAN.VModel g) /\
    SRGAN.backend (gan s) !! g = Some mg /\
    SRGAN.self (gan s) !! "discriminator"%string = None /\
    save_weights "w/DIV2K" None s
    = (Raise (AttributeError "discriminator"),
       {| gan := gan s;
          disk := <[weights_file "w/DIV2K" "generator" 4 None := SRGAN.weights mg]> (disk s) |}).
Proof.
  set (s := {| gan := snd (SRGAN.__init__ Demo.backend 24 24 3 4 (Q2Qc (1 # 10000))
                             (Q2Qc (1 # 10000)) [] false
                             {| SRGAN.self := ∅; SRGAN.backend := ∅ |});
               disk := ∅ |}).
  assert (Hg : SRGAN.self (gan s) !! "generator"%string = Some (SRGAN.VModel 0%nat))
    by (vm_compute; reflexivity).
  assert (HF : SRGAN.self (gan s) !! "upscaling_factor"%string = Some (SRGAN.VInt 4))
    by (vm_compute; reflexivity).
  assert (Hd : SRGAN.self (gan s) !! "discriminator"%string = None)
    by (vm_compute; reflexivity).
  destruct (SRGAN.backend (gan s) !! 0%nat) as [mg|] eqn:Emg; [|vm_compute in Emg; discriminate].
  exists s, 0%nat, mg. split; [exact Hg|]. split; [exact Emg|]. split; [exact Hd|].
  exact (save_weights_without_discriminator s "w/DIV2K" None 0%nat 4 mg Hg HF Emg Hd).
Defined.

(* ===================================================================== *)
(** * Further properties of libs/util.py *)
(* ===================================================================== *)

(** ** What every call of [load_batch] keeps *)

Section BatchInvariants.

Variable w : world.
Variable self : t.

Lemma while_true_is_after_turns img_paths (training bicubic : bool) (fuel : nat)
    (s r : loop_state) :
  while_true w self fuel img_paths training bicubic s = Some r ->
  after_turns w self fuel img_paths training bicubic s = r /\
  fst (batch_done self img_paths r) = true.
Proof.
  revert s. induction fuel as [|fuel IH]; intros s H; [discriminate|].
  cbn [while_true after_turns] in *.
  destruct (iteration w self img_paths training bicubic s) as [s'|s'] eqn:E.
  - apply IH. exact H.
  - injection H as <-. split; [reflexivity|].
    apply iteration_inr in E. destruct E as (Hd & ->).
    rewrite batch_done_test in Hd |- *.
    destruct (batch_done_imgs self img_paths s) as (-> & _). exact Hd.
Qed.

(** The two lists grow together. *)
Lemma lists_grow_together img_paths (training bicubic : bool) (n : nat) (s : loop_state) :
  length (imgs_lr s) = length (imgs_hr s) ->
  length (imgs_lr (after_turns w self n img_paths training bicubic s))
  = length (imgs_hr (after_turns w self n img_paths training bicubic s)).
Proof.
  set (J := fun s : loop_state => length (imgs_lr s) = length (imgs_hr s)).
  assert (Hstep : forall s s', J s ->
            iteration w self img_paths training bicubic s = inl s' \/
            iteration w self img_paths training bicubic s = inr s' -> J s').
  { apply (iteration_preserves w self J img_paths training bicubic).
    - intros s1 H1; exact H1.
    - intros size m s1 _ H1; exact H1.
    - intros hr lr s1 H1. unfold J in *. cbn [imgs_hr imgs_lr store].
      rewrite !length_app, H1. reflexivity.
    - intros s1 H1. unfold J in *.
      destruct (batch_done_imgs self img_paths s1) as (-> & -> & _). exact H1.
    - intros c s1 H1; exact H1. }
  intros H0.
  apply (after_turns_invariant w self img_paths training bicubic J); [| |exact H0].
  - intros s1 s' HJ Hit. apply (Hstep s1 s' HJ). left; exact Hit.
  - intros s1 s' HJ Hit. apply (Hstep s1 s' HJ). right; exact Hit.
Qed.

Lemma batch_done_asked img_paths (s : loop_state) :
  Z.of_nat (length (imgs_hr s)) <= asked self img_paths ->
  fst (batch_done self img_paths s)
  = (asked self img_paths <=? Z.of_nat (length (imgs_hr s))).
Proof.
  intros Hle. unfold batch_done, asked in *. destruct img_paths as [ps|]; cbn [fst].
  - destruct (Z.of_nat (length (imgs_hr s)) =? Z.of_nat (length ps)) eqn:E1;
      destruct (Z.of_nat (length ps) <=? Z.of_nat (length (imgs_hr s))) eqn:E2; lia.
  - destruct (total_imgs self <=? cur_idx s); reflexivity.
Qed.

Lemma downscale_loop_bounded img_paths (bicubic : bool) (crops : list (image Z)) :
  preserves (fun s => Z.of_nat (length (imgs_hr s)) <= asked self img_paths)
            (downscale_loop w self img_paths bicubic crops).
Proof.
  induction crops as [|c crops IH]; [apply preserves_ret|].
  intros s HJ. cbn [downscale_loop].
  pose proof (batch_done_asked img_paths s HJ) as Hdone.
  destruct (batch_done_imgs self img_paths s) as (Hh & _).
  destruct (batch_done self img_paths s) as [done s1]. cbn [fst snd] in *. subst done.
  destruct (asked self img_paths <=? Z.of_nat (length (imgs_hr s))) eqn:E.
  - cbn [snd]. rewrite Hh. exact HJ.
  - unfold Py.bind.
    destruct (downscale_dichotomy w self bicubic c s1) as (_ & Hcase).
    destruct (downscale w self bicubic c s1) as [[[]|e] s2]; cbn [fst snd] in *.
    + apply IH. destruct Hcase as [((e & He) & _)|(_ & m & lr0 & _ & Hh2 & _)];
        [discriminate|].
      rewrite Hh2, length_app, Hh. cbn [length]. lia.
    + destruct Hcase as [(_ & Hh2 & _)|(He & _)]; [|discriminate].
      rewrite Hh2, Hh. exact HJ.
Qed.

Lemma try_body_bounded img_paths (training bicubic : bool) :
  preserves (fun s => Z.of_nat (length (imgs_hr s)) <= asked self img_paths)
            (try_body w self img_paths training bicubic).
Proof.
  assert (Ht : tick_stable (fun s => Z.of_nat (length (imgs_hr s)) <= asked self img_paths))
    by (intros s H; exact H).
  unfold try_body.
  apply preserves_bind; [apply preserves_get|]. intros s0.
  apply preserves_bind; [apply preserves_lift|]. intros path.
  apply preserves_bind; [apply preserves_load_img; exact Ht|]. intros img.
  apply preserves_bind.
  { destruct training; [|apply preserves_ret].
    apply preserves_mapM. intros _. apply preserves_random_crop; exact Ht. }
  intros crops. apply downscale_loop_bounded.
Qed.

(** X9. Whatever the files, the libraries and the flags: if a call of
    [load_batch] that asks for a non-negative number of pairs returns,
    it returns exactly that number of high-resolution and as many
    low-resolution images. An indexed call asks for [batch_size], a call
    with paths for one pair a path. *)
Theorem returned_batch_is_exact (fuel k0 : nat) (idx : Z) (img_paths : option (list string))
    (training bicubic : bool) (lr hr : list (image Qc)) :
  0 <= asked self img_paths ->
  load_batch w self fuel k0 idx img_paths training bicubic = Some (lr, hr) ->
  Z.of_nat (length hr) = asked self img_paths /\ length lr = length hr.
Proof.
  intros Hasked Hrun. unfold load_batch, load_batch_run in Hrun.
  destruct (while_true w self fuel img_paths training bicubic
              (entry_state self k0 idx img_paths)) as [r|] eqn:E; [|discriminate].
  injection Hrun as <- <-.
  destruct (while_true_is_after_turns _ _ _ _ _ _ E) as (Hr & Hdone).
  assert (Hb : Z.of_nat (length (imgs_hr r)) <= asked self img_paths).
  { rewrite <- Hr.
    apply (after_turns_invariant w self img_paths training bicubic
             (fun s => Z.of_nat (length (imgs_hr s)) <= asked self img_paths)).
    - intros s s' HJ Hit. apply iteration_inl in Hit. destruct Hit as (_ & _ & ->).
      cbn [imgs_hr set_cur]. apply try_body_bounded.
      destruct (batch_done_imgs self img_paths s) as (-> & _). exact HJ.
    - intros s s' HJ Hit. apply iteration_inr in Hit. destruct Hit as (_ & ->).
      destruct (batch_done_imgs self img_paths s) as (-> & _). exact HJ.
    - cbn [entry_state imgs_hr length]. lia. }
  split.
  - rewrite (batch_done_asked img_paths r Hb) in Hdone. lia.
  - rewrite <- Hr. apply lists_grow_together. reflexivity.
Qed.

(** X10. Nothing asked, nothing read: with an empty list of paths, or with a
    batch size of zero or less, [load_batch] returns the empty batch in
    its first turn; no file is opened, no number drawn, and [resize] is
    not called. *)
Theorem empty_request_returns_at_once (fuel k0 : nat) (idx : Z) (training bicubic : bool) :
  (exists s, load_batch_run w self (S fuel) k0 idx (Some []) training bicubic = Some s /\
             imgs_hr s = [] /\ imgs_lr s = [] /\ draws s = k0 /\ resize_calls s = []) /\
  (batch_size self <= 0 ->
   exists s, load_batch_run w self (S fuel) k0 idx None training bicubic = Some s /\
             imgs_hr s = [] /\ imgs_lr s = [] /\ draws s = k0 /\ resize_calls s = []).
Proof.
  split.
  - eexists. split; [reflexivity|]. cbn. auto.
  - intros HB. unfold load_batch_run. cbn [while_true].
    rewrite iteration_breaks.
    + eexists. split; [reflexivity|].
      destruct (batch_done_imgs self None (entry_state self k0 idx None)) as (-> & -> & -> & ->).
      cbn. auto.
    + unfold batch_done. cbn [fst entry_state cur_idx].
      destruct (total_imgs self <=? idx * batch_size self); cbn; apply Z.leb_le; lia.
Qed.

End BatchInvariants.

Lemma returned_batch_is_exact_witness :
  0 <= asked (Demo.loader 3 2) None /\
  exists lr hr,
    load_batch Demo.disk (Demo.loader 3 2) 10 0 1 None true false = Some (lr, hr) /\
    Z.of_nat (length hr) = 3 /\ length lr = length hr.
Proof.
  assert (H0 : 0 <= asked (Demo.loader 3 2) None) by (simpl; lia).
  split; [exact H0|].
  destruct (load_batch Demo.disk (Demo.loader 3 2) 10 0 1 None true false)
    as [[lr hr]|] eqn:E; [|vm_compute in E; discriminate].
  exists lr, hr. split; [reflexivity|].
  exact (returned_batch_is_exact Demo.disk (Demo.loader 3 2) 10 0 1 None true false lr hr H0 E).
Defined.

Lemma empty_request_returns_at_once_witness :
  batch_size (Demo.loader 0 2) <= 0 /\
  exists s, load_batch_run Demo.disk (Demo.loader 0 2) 1 0 7 None true false = Some s /\
            imgs_hr s = [].
Proof.
  assert (H : batch_size (Demo.loader 0 2) <= 0) by (simpl; lia).
  split; [exact H|].
  destruct (proj2 (empty_request_returns_at_once Demo.disk (Demo.loader 0 2) 0 0 7 true false) H) as (s & Hs & Hh & _).
  exists s. split; [exact Hs|exact Hh].
Defined.

(** ** Indexed training batches and the usable candidates *)

Section Usable.

Variable w : world.
Variable self : t.
Variable bicubic : bool.

(** X11. An indexed training batch of one pair or more over a pool in which
    no candidate is usable (none opens with at least the size of the
    crop; an empty pool is such a pool), or for a loader that takes no
    crop of an image, never returns: every turn of the loop ends with an
    empty batch and goes on, whatever the number of turns allowed. *)
Theorem no_usable_image_never_returns (fuel k0 : nat) (idx : Z) :
  1 <= batch_size self ->
  crops_per_image self <= 0 \/
  (forall p, In p (img_paths self) -> valid_image w self p = false) ->
  load_batch w self fuel k0 idx None true bicubic = None /\
  imgs_hr (after_turns w self fuel None true bicubic (entry_state self k0 idx None)) = [].
Proof.
  intros HB Hbad.
  pose proof (fun s => unusable_turn w self bicubic s HB Hbad) as Hstep.
  split.
  - unfold load_batch, load_batch_run.
    rewrite (while_true_never w self None true bicubic (fun s => imgs_hr s = []) Hstep);
      reflexivity.
  - apply (after_turns_invariant w self None true bicubic (fun s => imgs_hr s = []));
      [| |reflexivity].
    + intros s s' Hs Hit. destruct (Hstep s Hs) as (s2 & Hit2 & Hs2).
      rewrite Hit in Hit2. injection Hit2 as <-. exact Hs2.
    + intros s s' Hs Hit. destruct (Hstep s Hs) as (s2 & Hit2 & _).
      rewrite Hit in Hit2. discriminate.
Qed.

Hypothesis pil : pil_ok w.
Hypothesis four_options : options self = [NEAREST; BILINEAR; BICUBIC; LANCZOS].
Hypothesis total_is_length : total_imgs self = Z.of_nat (length (img_paths self)).
Hypothesis batch_nonneg : 0 <= batch_size self.
Hypothesis crops_positive : 1 <= crops_per_image self.
Hypothesis scale_positive : 1 <= scale self.
Hypothesis scale_le_height : scale self <= height_hr self.
Hypothesis scale_le_width : scale self <= width_hr self.

Lemma one_usable_returns (k0 : nat) (idx : Z) (j : nat) (pv : string) :
  0 <= idx ->
  img_paths self !! j = Some pv -> valid_image w self pv = true ->
  exists fuel r,
    while_true w self fuel None true bicubic (entry_state self k0 idx None) = Some r /\
    batch_ok w self r /\ Z.of_nat (length (imgs_hr r)) = batch_size self.
Proof.
  intros Hidx Hj Hvalid.
  pose proof (lookup_lt_Some _ _ _ Hj) as Hjlt.
  assert (Hv : 0 <= Z.of_nat j < total_imgs self) by lia.
  assert (Hpv : img_paths self !! Z.to_nat (Z.of_nat j) = Some pv)
    by (rewrite Nat2Z.id; exact Hj).
  apply (while_true_returns w self None true bicubic
           (fun s => batch_ok w self s /\ 0 <= cur_idx s)
           (fun r => batch_ok w self r /\ Z.of_nat (length (imgs_hr r)) = batch_size self)
           (to_go self (Z.of_nat j))).
  - intros s (Hok & Hcur).
    destruct (Z_lt_le_dec (Z.of_nat (length (imgs_hr s))) (batch_size self)) as [Hroom|Hfull].
    + right. apply (training_turn_room w self bicubic) with (pv := pv); assumption.
    + left. apply (training_turn_full w self bicubic); assumption.
  - split; [split; [constructor|cbn; lia]|cbn; nia].
Qed.

End Usable.

(** X12. One usable image is enough for a batch of any size. Take a loader
    built by [__init__] with a batch size B >= 0, at least one crop an
    image and a crop no smaller than the scale F >= 1, over a pool in
    which some image opens with at least the size of the crop; the other
    candidates may all fail. Then [__getitem__], for any index
    [idx >= 0], returns B pairs of the configured sizes, however large B
    is compared with the pool. *)
Theorem one_usable_image_fills_the_batch
    (w : world) (root : list entry) (datapath : string) (B H W F cpi : Z) (self : t)
    (k0 : nat) (idx : Z) (pv : string) :
  pil_ok w ->
  DataLoader.__init__ root datapath B H W F cpi = Ok self ->
  0 <= B -> 1 <= cpi -> 1 <= F -> F <= H -> F <= W ->
  0 <= idx ->
  In pv (img_paths self) -> valid_image w self pv = true ->
  exists fuel lr hr,
    __getitem__ w self fuel k0 idx = Some (lr, hr) /\
    Z.of_nat (length hr) = B /\ Z.of_nat (length lr) = B /\
    Forall2 (paired w self) hr lr.
Proof.
  intros Hpil Hinit HB Hcpi HF HFH HFW Hidx Hin Hvalid.
  destruct (init_fields _ _ _ _ _ _ _ _ Hinit)
    as (EB & EH & EW & EF & Ecpi & Eopt & Etot).
  apply list_elem_of_In, list_elem_of_lookup_1 in Hin. destruct Hin as (j & Hj).
  destruct (one_usable_returns w self false Hpil Eopt Etot) with (k0 := k0) (idx := idx)
    (j := j) (pv := pv) as (fuel & r & Hrun & (Hpairs & _) & Hlen); try lia; try assumption.
  exists fuel, (imgs_lr r), (imgs_hr r).
  unfold __getitem__, load_batch, load_batch_run.
  split; [rewrite Hrun; reflexivity|]. split; [lia|]. split; [|exact Hpairs].
  rewrite <- (Forall2_length _ _ _ Hpairs). lia.
Qed.

Lemma no_usable_image_never_returns_witness :
  exists self,
    DataLoader.__init__ Demo.tree "d" 1 8 8 2 1 = Ok self /\
    1 <= batch_size self /\
    (forall p, In p (img_paths self) -> valid_image Demo.disk self p = false) /\
    load_batch Demo.disk self 1000 0 0 None true false = None.
Proof.
  destruct (DataLoader.__init__ Demo.tree "d" 1 8 8 2 1) as [self|e] eqn:E;
    [|vm_compute in E; discriminate].
  exists self. split; [reflexivity|].
  assert (Hself : self = {| datapath := "d"; batch_size := 1;
                           height_hr := 8; height_lr := 4; width_hr := 8; width_lr := 4;
                           scale := 2; crops_per_image := 1; total_imgs := 3;
                           options := [NEAREST; BILINEAR; BICUBIC; LANCZOS];
                           img_paths := ["d/a.png"; "d/b.jpg"; "d/c.png"] |})
    by (vm_compute in E; injection E as <-; reflexivity).
  assert (HB : 1 <= batch_size self) by (rewrite Hself; simpl; lia).
  assert (Hnone : forall p, In p (img_paths self) -> valid_image Demo.disk self p = false).
  { rewrite Hself. intros p [<-|[<-|[<-|[]]]]; vm_compute; reflexivity. }
  split; [exact HB|]. split; [exact Hnone|].
  exact (proj1 (no_usable_image_never_returns Demo.disk self false 1000 0 0 HB
                  (or_intror Hnone))).
Defined.

Lemma one_usable_image_fills_the_batch_witness :
  exists self,
    DataLoader.__init__ Demo.tree "d" 5 4 4 2 1 = Ok self /\
    valid_image Demo.disk self "d/a.png" = true /\
    valid_image Demo.disk self "d/b.jpg" = false /\
    valid_image Demo.disk self "d/c.png" = false /\
    exists fuel lr hr,
      __getitem__ Demo.disk self fuel 0 0 = Some (lr, hr) /\ Z.of_nat (length hr) = 5.
Proof.
  destruct (DataLoader.__init__ Demo.tree "d" 5 4 4 2 1) as [self|e] eqn:E;
    [|vm_compute in E; discriminate].
  exists self. split; [reflexivity|].
  assert (Hself : self = {| datapath := "d"; batch_size := 5;
                           height_hr := 4; height_lr := 2; width_hr := 4; width_lr := 2;
                           scale := 2; crops_per_image := 1; total_imgs := 3;
                           options := [NEAREST; BILINEAR; BICUBIC; LANCZOS];
                           img_paths := ["d/a.png"; "d/b.jpg"; "d/c.png"] |})
    by (vm_compute in E; injection E as <-; reflexivity).
  assert (Ha : valid_image Demo.disk self "d/a.png" = true)
    by (rewrite Hself; vm_compute; reflexivity).
  assert (Hin : In "d/a.png"%string (img_paths self)) by (rewrite Hself; simpl; auto).
  split; [exact Ha|].
  split; [rewrite Hself; vm_compute; reflexivity|].
  split; [rewrite Hself; vm_compute; reflexivity|].
  destruct (one_usable_image_fills_the_batch Demo.disk Demo.tree "d" 5 4 4 2 1 self
              0%nat 0 "d/a.png" disk_pil_ok E ltac:(lia) ltac:(lia) ltac:(lia) ltac:(lia)
              ltac:(lia) ltac:(lia) Hin Ha)
    as (fuel & lr & hr & Hrun & Hlen & _).
  exists fuel, lr, hr. auto.
Defined.

(** ** Evaluation: explicit paths, no training, bicubic resizing *)

Section Evaluation.

Variable w : world.
Variable self : t.
Variable paths : list string.

Hypothesis paths_nonempty : paths <> [].
Hypothesis scale_nonzero : scale self <> 0.

Lemma downscale_bicubic (img : image Z) (lr : image Qc) (s : loop_state) :
  lr_with w self BICUBIC img = Ok lr ->
  downscale w self true img s
  = (Ok tt, store (hr_of img) lr (log_resize (lr_size self img, BICUBIC) s)).
Proof.
  unfold lr_with. intros Hlr.
  destruct (resize w (astype_uint8 img) (lr_size self img) BICUBIC) as [lr0|e] eqn:Hres;
    [|discriminate]. injection Hlr as <-.
  unfold downscale.
  rewrite (bind_ok (Py.ret BICUBIC) _ s s BICUBIC eq_refl).
  unfold Py.int_truediv. destruct (scale self =? 0) eqn:Escale; [lia|].
  rewrite (bind_ok (Py.lift (Ok (Z.quot (Raster.width img) (scale self)))) _ s s _ eq_refl).
  rewrite (bind_ok (Py.lift (Ok (Z.quot (Raster.height img) (scale self)))) _ s s _ eq_refl).
  rewrite (bind_ok _ _ s (log_resize (lr_size self img, BICUBIC) s) lr0)
    by (unfold pil_resize; fold (lr_size self img); rewrite Hres; reflexivity).
  reflexivity.
Qed.

Lemma index_at {A} (l : list A) (c : Z) (x : A) (rest : list A) :
  0 <= c -> drop (Z.to_nat c) l = x :: rest ->
  Py.index l c = Ok x /\ (Z.to_nat c < length l)%nat /\
  drop (Z.to_nat (c + 1)) l = rest.
Proof.
  intros Hc Hdrop.
  assert (Hx : l !! Z.to_nat c = Some x).
  { rewrite <- (Nat.add_0_r (Z.to_nat c)), <- lookup_drop, Hdrop. reflexivity. }
  pose proof (lookup_lt_Some _ _ _ Hx) as Hlt.
  destruct (index_in_range l c) as (y & Hy & Hy'); [lia|].
  rewrite Hx in Hy'. injection Hy' as <-.
  split; [exact Hy|]. split; [exact Hlt|].
  replace (Z.to_nat (c + 1)) with (Z.to_nat c + 1)%nat by lia.
  rewrite <- drop_drop, Hdrop. reflexivity.
Qed.

Lemma evaluation_turns (rest : list string) (imgs : list (image Z)) :
  Forall2 (fun p img => Image_open w p = Ok img) rest imgs ->
  forall (lrs : list (image Qc)) (s : loop_state),
    Forall2 (fun img lr => lr_with w self BICUBIC img = Ok lr) imgs lrs ->
    0 <= cur_idx s ->
    drop (Z.to_nat (cur_idx s)) paths = rest ->
    length (imgs_hr s) = Z.to_nat (cur_idx s) ->
    (length (imgs_hr s) <= length paths)%nat ->
    while_true w self (S (length rest)) (Some paths) false true s
    = Some {| cur_idx := cur_idx s + Z.of_nat (length rest);
              imgs_hr := imgs_hr s ++ map hr_of imgs;
              imgs_lr := imgs_lr s ++ lrs;
              draws := draws s;
              resize_calls := resize_calls s
                              ++ map (fun img => (lr_size self img, BICUBIC)) imgs |}.
Proof.
  induction 1 as [|p img rest imgs Hopen Hrest IH]; intros lrs s Hlrs Hcur Hdrop Hlen Hle.
  - inversion Hlrs; subst. cbn [while_true length map].
    assert (Hfull : length (imgs_hr s) = length paths).
    { apply (f_equal length) in Hdrop. rewrite length_drop in Hdrop. cbn in Hdrop. lia. }
    rewrite (iteration_breaks w self (Some paths) false true s)
      by (unfold batch_done; cbn [fst]; apply Z.eqb_eq; lia).
    unfold batch_done. cbn [snd]. destruct s. cbn.
    rewrite !app_nil_r, Z.add_0_r. reflexivity.
  - inversion Hlrs as [|img0 lr imgs0 lrs' Hlr Hlrs']; subst.
    destruct (index_at paths (cur_idx s) p rest Hcur Hdrop) as (Hidx & Hlt & Hnext).
    assert (Hroom : (length (imgs_hr s) < length paths)%nat) by lia.
    destruct (iteration_continues w self (Some paths) false true s) as (s' & Hit & _ & Hs').
    { rewrite (explicit_not_done self paths s Hroom). reflexivity. }
    rewrite (explicit_not_done self paths s Hroom) in Hs'. cbn [snd wrapped] in Hs'.
    rewrite (try_body_readable w self paths true paths_nonempty s p img Hidx Hopen Hroom)
      in Hs'.
    rewrite (bind_ok _ _ _ _ _ (downscale_bicubic img lr s Hlr)) in Hs'.
    cbn [Py.ret snd] in Hs'.
    change (while_true w self (S (length (p :: rest))) (Some paths) false true s)
      with (match iteration w self (Some paths) false true s with
            | inr r => Some r
            | inl s2 => while_true w self (S (length rest)) (Some paths) false true s2
            end).
    rewrite Hit.
    rewrite (IH lrs' s' Hlrs').
    + subst s'. cbn [cur_idx imgs_hr imgs_lr draws resize_calls set_cur store log_resize
                     map length].
      f_equal. f_equal; [lia| | |]; rewrite <- app_assoc; reflexivity.
    + subst s'. cbn [cur_idx set_cur]. lia.
    + subst s'. cbn [cur_idx set_cur]. exact Hnext.
    + subst s'. cbn [cur_idx imgs_hr set_cur store log_resize]. rewrite length_app. cbn. lia.
    + subst s'. cbn [cur_idx imgs_hr set_cur store log_resize]. rewrite length_app. cbn. lia.
Qed.

(** X13. Without training and with bicubic resizing, over a non-empty list
    of paths that all open and all resize, [load_batch] returns after one
    turn a path and the turn that leaves the loop; the batch is the list
    image by image and in its order: the i-th high-resolution image is
    the i-th file in full, scaled to [-1, 1], the i-th low-resolution
    image is that file resized to (width / scale, height / scale) with
    the bicubic filter, scaled to [0, 1]. No random number is drawn, and
    [resize] is called once an image. *)
Theorem evaluation_batch_follows_the_list (k0 : nat) (idx : Z)
    (imgs : list (image Z)) (lrs : list (image Qc)) :
  Forall2 (fun p img => Image_open w p = Ok img) paths imgs ->
  Forall2 (fun img lr => lr_with w self BICUBIC img = Ok lr) imgs lrs ->
  load_batch_run w self (S (length paths)) k0 idx (Some paths) false true
  = Some {| cur_idx := Z.of_nat (length paths);
            imgs_hr := map hr_of imgs;
            imgs_lr := lrs;
            draws := k0;
            resize_calls := map (fun img => (lr_size self img, BICUBIC)) imgs |}.
Proof.
  intros Hopen Hlrs. unfold load_batch_run.
  assert (Hentry : entry_state self k0 idx (Some paths)
                   = {| cur_idx := 0; imgs_hr := []; imgs_lr := []; draws := k0;
                        resize_calls := [] |})
    by (unfold entry_state; destruct paths; [contradiction|reflexivity]).
  rewrite Hentry.
  rewrite (evaluation_turns paths imgs Hopen lrs _ Hlrs); cbn; try lia; reflexivity.
Qed.

End Evaluation.

Lemma evaluation_batch_follows_the_list_witness :
  exists lrs,
    ["d/a.png"; "d/b.jpg"]%string <> [] /\ scale (Demo.loader 2 2) <> 0 /\
    load_batch Demo.disk (Demo.loader 2 2) 3 0 0 (Some ["d/a.png"; "d/b.jpg"]%string) false true
    = Some (lrs, map hr_of [Demo.flat 4 4 255; Demo.flat 2 2 0]) /\
    map shape lrs = [(2, 2); (1, 1)].
Proof.
  assert (Hne : ["d/a.png"; "d/b.jpg"]%string <> []) by discriminate.
  assert (Hsc : scale (Demo.loader 2 2) <> 0) by (simpl; lia).
  exists [scale_lr_imgs (to_float (Demo.flat 2 2 255));
          scale_lr_imgs (to_float (Demo.flat 1 1 0))].
  split; [exact Hne|]. split; [exact Hsc|]. split; [|vm_compute; reflexivity].
  unfold load_batch.
  change 3%nat with (S (length ["d/a.png"; "d/b.jpg"]%string)).
  rewrite (evaluation_batch_follows_the_list Demo.disk (Demo.loader 2 2)
             ["d/a.png"; "d/b.jpg"]%string Hne Hsc 0%nat 0
             [Demo.flat 4 4 255; Demo.flat 2 2 0]
             [scale_lr_imgs (to_float (Demo.flat 2 2 255));
              scale_lr_imgs (to_float (Demo.flat 1 1 0))]).
  - reflexivity.
  - constructor; [vm_compute; reflexivity|]. constructor; [vm_compute; reflexivity|].
    constructor.
  - constructor; [vm_compute; reflexivity|]. constructor; [vm_compute; reflexivity|].
    constructor.
Defined.

(** ** The test listing of plot_test_images, plot_bigger_images and compute_metric *)

Section TestListing.

Variable w : world.
Variable self : t.
Variable datapath_test : string.
Variable es : list entry.

Lemma listdir_has_directories (n : string) (cs : list entry) :
  In (Dir n cs) es -> In n (listdir es).
Proof. intros H. unfold listdir. apply in_map_iff. exists (Dir n cs). auto. Qed.

Lemma test_images_In (name : string) :
  In name (listdir es) -> has_image_type name = true ->
  In (path_join datapath_test name) (test_images datapath_test es).
Proof.
  intros Hin Htype. unfold test_images. apply in_map.
  apply list_elem_of_In, list_elem_of_filter. split; [exact Htype|].
  apply list_elem_of_In. exact Hin.
Qed.

(** X14. The listing of the test directory is not recursive and takes
    entries by name only: a sub-directory whose name contains one of the
    three needles is listed as an image, and nothing below it is. When
    one listed entry cannot be opened, whether such a directory or an
    unreadable file, the load that opens the three functions never
    returns: no number of turns is enough. *)
Theorem test_listing_must_open (name : string) (e : exn) (fuel k0 : nat) (bicubic : bool) :
  In name (listdir es) ->
  has_image_type name = true ->
  Image_open w (path_join datapath_test name) = Raise e ->
  (forall n cs, In (Dir n cs) es -> In n (listdir es)) /\
  (forall p, In p (test_images datapath_test es) ->
             exists n, In n (listdir es) /\ has_image_type n = true /\
                       p = path_join datapath_test n) /\
  In (path_join datapath_test name) (test_images datapath_test es) /\
  load_test_images w self fuel k0 datapath_test es bicubic = None.
Proof.
  intros Hin Htype Hfail.
  pose proof (test_images_In name Hin Htype) as Hlisted.
  split; [exact listdir_has_directories|]. split; [|split; [exact Hlisted|]].
  - intros p Hp. unfold test_images in Hp. apply in_map_iff in Hp.
    destruct Hp as (n & <- & Hn). apply list_elem_of_In, list_elem_of_filter in Hn.
    destruct Hn as (Hn1 & Hn2). exists n. split; [apply list_elem_of_In; exact Hn2|auto].
  - unfold load_test_images, load_batch_run.
    set (paths := test_images datapath_test es) in *.
    assert (Hne : paths <> []) by (intros E; rewrite E in Hlisted; destruct Hlisted).
    apply list_elem_of_In, list_elem_of_lookup_1 in Hlisted. destruct Hlisted as (j & Hj).
    apply (behind_forever w self paths bicubic Hne j _ e Hj Hfail fuel 0%nat).
    unfold behind, entry_state. destruct paths; [contradiction|]. cbn. split; [reflexivity|lia].
Qed.

End TestListing.

Lemma test_listing_must_open_witness :
  In "png_old"%string (listdir [File "a.png"; Dir "png_old" [File "x.png"]]) /\
  has_image_type "png_old" = true /\
  Image_open Demo.disk (path_join "d" "png_old") = Raise IOError /\
  test_images "d" [File "a.png"; Dir "png_old" [File "x.png"]] = ["d/a.png"; "d/png_old"]%string /\
  load_test_images Demo.disk (Demo.loader 2 2) 1000 0 "d"
    [File "a.png"; Dir "png_old" [File "x.png"]] true = None.
Proof.
  assert (Hin : In "png_old"%string (listdir [File "a.png"; Dir "png_old" [File "x.png"]]))
    by (simpl; auto).
  assert (Htype : has_image_type "png_old" = true) by (vm_compute; reflexivity).
  assert (Hfail : Image_open Demo.disk (path_join "d" "png_old") = Raise IOError)
    by (vm_compute; reflexivity).
  split; [exact Hin|]. split; [exact Htype|]. split; [exact Hfail|].
  split; [vm_compute; reflexivity|].
  exact (proj2 (proj2 (proj2 (test_listing_must_open Demo.disk (Demo.loader 2 2) "d"
                 [File "a.png"; Dir "png_old" [File "x.png"]] "png_old" IOError
                 1000 0 true Hin Htype Hfail)))).
Defined.

(** ** random_crop and load_img *)

Section Crops.

Variable w : world.

(** X15. [random_crop] on a rectangular image: it fails, with the ValueError
    of [randint], exactly when the image is smaller than the crop in a
    dimension; otherwise it takes two draws, and what it returns is a
    window of the image that lies inside it: the rows [y .. y + dy) and
    columns [x .. x + dx), pixel for pixel. *)
Theorem random_crop_is_a_window (img : image Z) (dy dx : Z) (s : loop_state) :
  rect img -> 0 <= dy -> 0 <= dx ->
  (Raster.height img < dy \/ Raster.width img < dx ->
   fst (random_crop w img (dy, dx) s) = Raise (ValueError "low >= high")) /\
  (dy <= Raster.height img -> dx <= Raster.width img ->
   exists x y c,
     random_crop w img (dy, dx) s = (Ok c, tick (tick s)) /\
     0 <= x /\ x + dx <= Raster.width img /\ 0 <= y /\ y + dy <= Raster.height img /\
     Raster.height c = dy /\
     Forall (fun row => Z.of_nat (length row) = dx) c /\
     forall i j : nat,
       Z.of_nat i < dy -> Z.of_nat j < dx ->
       pixel c i j = pixel img (Z.to_nat y + i) (Z.to_nat x + j)).
Proof.
  intros Hrect Hdy Hdx. split.
  - intros Hsmall. unfold random_crop, Py.bind, randint.
    destruct (Raster.width img - dx + 1 <=? 0) eqn:Ex; [reflexivity|].
    destruct (Raster.height img - dy + 1 <=? 0) eqn:Ey; [reflexivity|].
    lia.
  - intros Hh Hw. unfold random_crop, randint.
    destruct (Raster.width img - dx + 1 <=? 0) eqn:Ex; [lia|].
    destruct (Raster.height img - dy + 1 <=? 0) eqn:Ey; [lia|].
    set (x := 0 + rnd w (draws s) mod (Raster.width img - dx + 1 - 0)).
    set (y := 0 + rnd w (draws (tick s)) mod (Raster.height img - dy + 1 - 0)).
    assert (Hxr : 0 <= x < Raster.width img - dx + 1)
      by (subst x; pose proof (Z.mod_pos_bound (rnd w (draws s))
                                 (Raster.width img - dx + 1 - 0)); lia).
    assert (Hyr : 0 <= y < Raster.height img - dy + 1)
      by (subst y; pose proof (Z.mod_pos_bound (rnd w (draws (tick s)))
                                 (Raster.height img - dy + 1 - 0)); lia).
    exists x, y, (crop img y dy x dx).
    split.
    { reflexivity. }
    split; [lia|]. split; [lia|]. split; [lia|]. split; [lia|]. split.
    + unfold crop, Raster.height. rewrite length_map.
      apply slice_length; unfold Raster.height in *; lia.
    + split.
      * unfold crop. apply Forall_map. unfold rect in Hrect.
        apply (slice_Forall _ _ y (y + dy)) in Hrect.
        eapply Forall_impl; [exact Hrect|]. intros row Hrow.
        cbv beta delta [compose]. apply slice_length; unfold Raster.height in *; lia.
      * intros i j Hi Hj. apply crop_pixel; try assumption; lia.
Qed.

Lemma flip_flip {A} (img : image A) : flip_left_right (flip_left_right img) = img.
Proof.
  unfold flip_left_right. rewrite map_map. rewrite <- (map_id img) at 2.
  apply map_ext. intros row. apply rev_involutive.
Qed.

Lemma flip_pixel {A} (img : image A) (i j : nat) :
  rect img -> (Z.of_nat j < Raster.width img) ->
  pixel (flip_left_right img) i j = pixel img i (Z.to_nat (Raster.width img) - 1 - j).
Proof.
  intros Hrect Hj. unfold pixel, flip_left_right, image in *. rewrite lookup_map.
  destruct (img !! i) as [row|] eqn:Hrow; [|reflexivity]. cbn [option_map].
  unfold rect in Hrect. rewrite List.Forall_forall in Hrect.
  assert (Hlen : Z.of_nat (length row) = Raster.width img).
  { apply Hrect. apply list_elem_of_In. eapply list_elem_of_lookup_2. exact Hrow. }
  rewrite rev_alt. change (rev_append row []) with (reverse row).
  rewrite reverse_lookup by lia. f_equal. lia.
Qed.

(** X16. [load_img]: when the file does not open, the error is passed on and
    no random number is drawn. When it opens: without training the image
    is returned as it is and nothing is drawn; in training one number of
    0..7 is drawn and the image is mirrored left to right when it is
    above 3, so the result has the size of the image, its pixel in
    column [j] is the one of column [width - 1 - j], and mirroring it
    again gives the image back. *)
Theorem load_img_keeps_or_mirrors (p : string) (s : loop_state) :
  (forall e, Image_open w p = Raise e ->
     forall training, load_img w p training s = (Raise e, s)) /\
  (forall img, Image_open w p = Ok img ->
     load_img w p false s = (Ok img, s) /\
     load_img w p true s
     = (Ok (if 3 <? rnd w (draws s) mod 8 then flip_left_right img else img), tick s) /\
     shape (flip_left_right img) = shape img /\
     flip_left_right (flip_left_right img) = img /\
     (rect img ->
      forall i j : nat, Z.of_nat j < Raster.width img ->
        pixel (flip_left_right img) i j
        = pixel img i (Z.to_nat (Raster.width img) - 1 - j))).
Proof.
  split.
  - intros e Hopen training. unfold load_img. apply bind_raise.
    unfold Py.lift. rewrite Hopen. reflexivity.
  - intros img Hopen. split; [|split; [|split; [|split]]].
    + unfold load_img. rewrite (bind_ok _ _ s s img)
        by (unfold Py.lift; rewrite Hopen; reflexivity). reflexivity.
    + unfold load_img. rewrite (bind_ok _ _ s s img)
        by (unfold Py.lift; rewrite Hopen; reflexivity).
      rewrite (bind_ok _ _ s (tick s) (0 + rnd w (draws s) mod (8 - 0))) by reflexivity.
      reflexivity.
    + unfold shape. rewrite height_flip, width_flip. reflexivity.
    + apply flip_flip.
    + intros Hrect i j Hj. apply flip_pixel; assumption.
Qed.

End Crops.

Lemma random_crop_is_a_window_witness :
  rect (Demo.flat 4 4 255) /\
  fst (random_crop Demo.disk (Demo.flat 4 4 255) (5, 2)
         {| cur_idx := 0; imgs_hr := []; imgs_lr := []; draws := 0; resize_calls := [] |})
  = Raise (ValueError "low >= high") /\
  exists c s',
    random_crop Demo.disk (Demo.flat 4 4 255) (2, 3)
      {| cur_idx := 0; imgs_hr := []; imgs_lr := []; draws := 0; resize_calls := [] |}
    = (Ok c, s') /\ Raster.height c = 2.
Proof.
  assert (Hrect : rect (Demo.flat 4 4 255)) by (repeat constructor).
  pose (s0 := {| cur_idx := 0; imgs_hr := []; imgs_lr := []; draws := 0%nat;
                 resize_calls := [] |}).
  split; [exact Hrect|]. split.
  - apply (proj1 (random_crop_is_a_window Demo.disk (Demo.flat 4 4 255) 5 2 s0
                    Hrect ltac:(lia) ltac:(lia))).
    left. vm_compute. reflexivity.
  - destruct (proj2 (random_crop_is_a_window Demo.disk (Demo.flat 4 4 255) 2 3 s0
                       Hrect ltac:(lia) ltac:(lia)))
      as (x & y & c & Hrun & _ & _ & _ & _ & Hh & _).
    + vm_compute. discriminate.
    + vm_compute. discriminate.
    + exists c, (tick (tick s0)). split; [exact Hrun|exact Hh].
Defined.

Lemma load_img_keeps_or_mirrors_witness :
  Image_open Demo.disk "d/a.png" = Ok (Demo.flat 4 4 255) /\
  load_img Demo.disk "d/a.png" false
    {| cur_idx := 0; imgs_hr := []; imgs_lr := []; draws := 5; resize_calls := [] |}
  = (Ok (Demo.flat 4 4 255),
     {| cur_idx := 0; imgs_hr := []; imgs_lr := []; draws := 5; resize_calls := [] |}).
Proof.
  assert (Hopen : Image_open Demo.disk "d/a.png" = Ok (Demo.flat 4 4 255)) by reflexivity.
  split; [exact Hopen|].
  exact (proj1 (proj2 (load_img_keeps_or_mirrors Demo.disk "d/a.png"
                         {| cur_idx := 0; imgs_hr := []; imgs_lr := []; draws := 5;
                            resize_calls := [] |}) (Demo.flat 4 4 255) Hopen)).
Defined.

(** ** Construction and length *)

(** X17. [DataLoader(...)] raises ZeroDivisionError when the scale is 0,
    and OverflowError when a crop side divided by the scale is beyond the
    floats; a missing or empty directory does not make it fail. With a
    scale other than 0 and crop sides below 2^53 in absolute value it
    succeeds, and the low-resolution sizes are the integer quotients,
    truncated: for a scale F > 0 and a crop of H x W >= 0,
    F * height_lr <= H < F * (height_lr + 1), so the size is 0 when the
    crop is smaller than the scale. The division is a float division:
    a height of 2^53 + 1 at scale 1 is stored as 2^53. *)
Theorem loader_construction (root : list entry) (datapath : string) (B H W F cpi : Z) :
  (F = 0 -> DataLoader.__init__ root datapath B H W F cpi = Raise ZeroDivisionError) /\
  (F <> 0 -> Z.abs H < 2 ^ 53 -> Z.abs W < 2 ^ 53 ->
   exists self,
     DataLoader.__init__ root datapath B H W F cpi = Ok self /\
     (root = [] -> img_paths self = [] /\ total_imgs self = 0) /\
     height_lr self = Z.quot H F /\ width_lr self = Z.quot W F /\
     (0 < F -> 0 <= H -> F * height_lr self <= H < F * (height_lr self + 1)) /\
     (0 < F -> 0 <= W -> F * width_lr self <= W < F * (width_lr self + 1))) /\
  (F <> 0 -> 2 ^ 1024 * Z.abs F <= Z.abs H ->
   DataLoader.__init__ root datapath B H W F cpi = Raise OverflowError) /\
  (F <> 0 -> Z.abs H < 2 ^ 53 -> 2 ^ 1024 * Z.abs F <= Z.abs W ->
   DataLoader.__init__ root datapath B H W F cpi = Raise OverflowError) /\
  (Z.abs W < 2 ^ 53 ->
   exists self,
     DataLoader.__init__ root datapath B (2 ^ 53 + 1) W 1 cpi = Ok self /\
     height_lr self = 2 ^ 53 /\ height_lr self <> Z.quot (2 ^ 53 + 1) 1).
Proof.
  split; [|split; [|split; [|split]]].
  - intros ->. unfold DataLoader.__init__, Py.truediv. reflexivity.
  - intros HF HH HW. unfold DataLoader.__init__.
    rewrite (int_truediv_float H F HH), (int_truediv_float W F HW).
    unfold Py.int_truediv. destruct (F =? 0) eqn:E; [lia|]. cbn [Py.and_then].
    eexists. split; [reflexivity|]. cbn [img_paths total_imgs height_lr width_lr].
    split; [intros ->; split; reflexivity|].
    split; [reflexivity|]. split; [reflexivity|].
    split; intros HF0 Hnn; rewrite Z.quot_div_nonneg by lia;
      pose proof (Z.mul_div_le H F HF0); pose proof (Z.mul_succ_div_gt H F HF0);
      pose proof (Z.mul_div_le W F HF0); pose proof (Z.mul_succ_div_gt W F HF0); lia.
  - intros HF Hbig. unfold DataLoader.__init__, Py.truediv.
    destruct (F =? 0) eqn:E; [lia|].
    rewrite (nearest_double_overflow H F HF Hbig). reflexivity.
  - intros HF HH Hbig. unfold DataLoader.__init__.
    rewrite (int_truediv_float H F HH). unfold Py.int_truediv, Py.truediv.
    destruct (F =? 0) eqn:E; [lia|]. cbn [Py.and_then].
    rewrite (nearest_double_overflow W F HF Hbig). reflexivity.
  - intros HW. unfold DataLoader.__init__.
    assert (Hh : Py.and_then (Py.truediv (2 ^ 53 + 1) 1) Py.int_of_float = Ok (2 ^ 53))
      by (vm_compute; reflexivity).
    rewrite Hh, (int_truediv_float W 1 HW). cbn [Py.and_then Py.int_truediv Z.eqb].
    eexists. split; [reflexivity|]. cbn [height_lr].
    split; [reflexivity|]. rewrite Z.quot_1_r. lia.
Qed.

Lemma loader_construction_witness :
  DataLoader.__init__ Demo.tree "d" 3 5 1 0 1 = Raise ZeroDivisionError /\
  (exists self, DataLoader.__init__ [] "nowhere" 3 5 1 2 1 = Ok self /\
                height_lr self = 2 /\ width_lr self = 0 /\ total_imgs self = 0) /\
  DataLoader.__init__ Demo.tree "d" 3 (2 ^ 1024) 1 1 1 = Raise OverflowError.
Proof.
  split; [|split].
  - exact (proj1 (loader_construction Demo.tree "d" 3 5 1 0 1) eq_refl).
  - assert (H2 : 2 <> 0) by lia.
    assert (H5 : Z.abs 5 < 2 ^ 53) by reflexivity.
    assert (H1 : Z.abs 1 < 2 ^ 53) by reflexivity.
    destruct (proj1 (proj2 (loader_construction [] "nowhere" 3 5 1 2 1)) H2 H5 H1)
      as (self & Hinit & Hempty & Hh & Hw & _).
    exists self. split; [exact Hinit|].
    destruct (Hempty eq_refl) as (_ & Htot).
    split; [rewrite Hh; reflexivity|]. split; [rewrite Hw; reflexivity|exact Htot].
  - assert (H1 : 1 <> 0) by lia.
    assert (Hbig : 2 ^ 1024 * Z.abs 1 <= Z.abs (2 ^ 1024)) by (vm_compute; discriminate).
    exact (proj1 (proj2 (proj2 (loader_construction Demo.tree "d" 3 (2 ^ 1024) 1 1 1)))
             H1 Hbig).
Defined.

(** X18. For a pool of fewer than 2^53 images, [len(loader)] raises
    ZeroDivisionError for a batch size of 0 and OverflowError for a batch
    size of 2^1024 or more, which [float] cannot convert. For a positive
    batch size below 2^1023, the batches of the indices below
    [len(loader)] start inside the pool at distance [batch_size] from
    each other, each with a full batch of candidates before the end of
    the pool: no scan of such an index starts wrapped, and the candidates
    after the last of these windows are fewer than a batch. *)
Theorem len_counts_full_windows (self : t) (k0 : nat) :
  0 <= total_imgs self < 2 ^ 53 ->
  (batch_size self = 0 -> DataLoader.__len__ self = Raise ZeroDivisionError) /\
  (2 ^ 1024 <= batch_size self -> DataLoader.__len__ self = Raise OverflowError) /\
  (0 < batch_size self < 2 ^ 1023 ->
   exists n,
     DataLoader.__len__ self = Ok n /\ 0 <= n /\
     total_imgs self - n * batch_size self < batch_size self /\
     forall idx, 0 <= idx < n ->
       0 <= cur_idx (entry_state self k0 idx None) /\
       cur_idx (entry_state self k0 idx None) + batch_size self <= total_imgs self /\
       wrapped self None (cur_idx (entry_state self k0 idx None))
       = cur_idx (entry_state self k0 idx None)).
Proof.
  intros Htot. split; [|split].
  - intros HB0. unfold DataLoader.__len__, Py.truediv_by_float. rewrite HB0.
    rewrite (float_of_int_small 0) by reflexivity.
    rewrite (float_of_int_small (total_imgs self)) by lia.
    reflexivity.
  - apply len_overflow.
  - intros HB. exists (total_imgs self / batch_size self).
    split; [apply len_value; assumption|].
    assert (HB0 : 0 < batch_size self) by lia.
    pose proof (Z.mul_div_le (total_imgs self) (batch_size self) HB0) as H1.
    pose proof (Z.mul_succ_div_gt (total_imgs self) (batch_size self) HB0) as H2.
    pose proof (Z.div_pos (total_imgs self) (batch_size self) ltac:(lia) HB0) as H3.
    split; [exact H3|]. split; [lia|].
    intros idx Hidx. cbn [entry_state cur_idx].
    assert (Hle : idx * batch_size self + batch_size self <= total_imgs self) by nia.
    split; [nia|]. split; [exact Hle|].
    unfold wrapped. destruct (total_imgs self <=? idx * batch_size self) eqn:Ew; lia.
Qed.

Lemma len_counts_full_windows_witness :
  0 <= total_imgs (Demo.loader 2 1) < 2 ^ 53 /\
  DataLoader.__len__ (Demo.loader 0 1) = Raise ZeroDivisionError /\
  DataLoader.__len__ (Demo.loader (2 ^ 1024) 1) = Raise OverflowError /\
  exists n, DataLoader.__len__ (Demo.loader 2 1) = Ok n /\
            total_imgs (Demo.loader 2 1) - n * 2 < 2.
Proof.
  assert (H0 : 0 <= total_imgs (Demo.loader 2 1) < 2 ^ 53) by (simpl; lia).
  split; [exact H0|]. split; [|split].
  - exact (proj1 (len_counts_full_windows (Demo.loader 0 1) 0 H0) eq_refl).
  - assert (Hbig : 2 ^ 1024 <= batch_size (Demo.loader (2 ^ 1024) 1)) by (simpl; lia).
    exact (proj1 (proj2 (len_counts_full_windows (Demo.loader (2 ^ 1024) 1) 0 H0)) Hbig).
  - assert (HB : 0 < batch_size (Demo.loader 2 1) < 2 ^ 1023) by (simpl; lia).
    destruct (proj2 (proj2 (len_counts_full_windows (Demo.loader 2 1) 0 H0)) HB)
      as (n & Hn & _ & Hrest & _).
    exists n. split; [exact Hn|exact Hrest].
Defined.
